(** * txtr-api: a shallow embedding of the request pipeline

    The development follows the layout of the Python package:
    - [PyStr]     Python [str] values and the string methods the code calls;
    - [Utils]     app/utils.py (text cleaning, word count);
    - [RateLimiter] the strict rate limiter of app/utils.py;
    - [Json]      JSON values as [json.load] / [json.dump] see them;
    - [Cache]     app/cache.py (file cache with soft expiry);
    - [Enrich]    app/enrich.py ([analyze_sentiment]);
    - [Extractor] app/extractor.py ([fetch_html], [merge_extraction]);
    - [Main]      app/main.py (token bucket, entity tags, endpoints).

    Conventions.  A Python [str] is a list of Unicode code points.  A Python
    [float] is a rational number: clock readings, token counts and sentiment
    scores are computed exactly, without binary rounding.  Functions of
    third-party libraries (hashes, number parsing, HTML parsers, the NLP
    stack) are fields of the records [Platform], [Html] and [Nlp] and stay
    uninterpreted.  File operations succeed. *)

From Stdlib Require Import ZArith NArith QArith Qround Qminmax Qabs.
From Stdlib Require Import List String Ascii Bool Lia DecimalString.
From stdpp Require Import gmap.
Import ListNotations.

(** ** Python strings *)

Module PyStr.

Definition pystr := list N.

(** An ASCII literal as a Python string. *)
Definition py (s : string) : pystr :=
  List.map N_of_ascii (list_ascii_of_string s).

Fixpoint eqb (a b : pystr) : bool :=
  match a, b with
  | [], [] => true
  | x :: a', y :: b' => N.eqb x y && eqb a' b'
  | _, _ => false
  end.

Definition SP : N := 32.

(** [str.isspace] on one code point; [re]'s [\s] and [str.split] use the
    same table. *)
Definition is_space (c : N) : bool :=
  ((9 <=? c) && (c <=? 13) || (28 <=? c) && (c <=? 32) || (c =? 133)
   || (c =? 160) || (c =? 5760) || (8192 <=? c) && (c <=? 8202)
   || (c =? 8232) || (c =? 8233) || (c =? 8239) || (c =? 8287)
   || (c =? 12288))%N.

Definition ascii_digit (c : N) : bool := ((48 <=? c) && (c <=? 57))%N.

Definition ascii_alpha (c : N) : bool :=
  ((65 <=? c) && (c <=? 90) || (97 <=? c) && (c <=? 122))%N.

Definition ascii_lower (c : N) : N :=
  if ((65 <=? c) && (c <=? 90))%N then (c + 32)%N else c.

Fixpoint drop_while (p : N -> bool) (s : pystr) : pystr :=
  match s with
  | [] => []
  | c :: r => if p c then drop_while p r else s
  end.

Fixpoint take_while (p : N -> bool) (s : pystr) : pystr :=
  match s with
  | [] => []
  | c :: r => if p c then c :: take_while p r else []
  end.

Definition lstrip (s : pystr) : pystr := drop_while is_space s.
Definition rstrip (s : pystr) : pystr := rev (drop_while is_space (rev s)).
(** [s.strip()] *)
Definition strip (s : pystr) : pystr := rstrip (lstrip s).

Definition flush (cur : pystr) : list pystr :=
  match cur with
  | [] => []
  | _ => [rev cur]
  end.

Fixpoint split_from (cur : pystr) (s : pystr) : list pystr :=
  match s with
  | [] => flush cur
  | c :: r =>
      if is_space c then flush cur ++ split_from [] r
      else split_from (c :: cur) r
  end.

(** [s.split()]: the maximal runs of non-whitespace. *)
Definition split (s : pystr) : list pystr := split_from [] s.

(** [sep.join(parts)] *)
Fixpoint join (sep : pystr) (parts : list pystr) : pystr :=
  match parts with
  | [] => []
  | [p] => p
  | p :: ps => p ++ sep ++ join sep ps
  end.

Fixpoint starts_with (pre s : pystr) : bool :=
  match pre, s with
  | [], _ => true
  | x :: pre', y :: s' => N.eqb x y && starts_with pre' s'
  | _ :: _, [] => false
  end.

(** [needle in s] *)
Fixpoint contains (needle s : pystr) : bool :=
  starts_with needle s
  || match s with
     | [] => false
     | _ :: r => contains needle r
     end.

Definition ends_with (suf s : pystr) : bool := starts_with (rev suf) (rev s).

(** Left-to-right scan that honours a match of [k + 1] code points by
    skipping the [k] that follow its first one. *)
Fixpoint replace_scan (old new : pystr) (skip : nat) (s : pystr) : pystr :=
  match s with
  | [] => []
  | c :: r =>
      match skip with
      | S k => replace_scan old new k r
      | O =>
          if starts_with old s
          then new ++ replace_scan old new (Nat.pred (length old)) r
          else c :: replace_scan old new O r
      end
  end.

(** [s.replace(old, new)], non-overlapping occurrences from the left. *)
Definition replace (old new s : pystr) : pystr :=
  match old with
  | [] => new ++ flat_map (fun c => c :: new) s
  | _ => replace_scan old new O s
  end.

Fixpoint count_scan (sub : pystr) (skip : nat) (s : pystr) : nat :=
  match s with
  | [] => O
  | _ :: r =>
      match skip with
      | S k => count_scan sub k r
      | O =>
          if starts_with sub s
          then S (count_scan sub (Nat.pred (length sub)) r)
          else count_scan sub O r
      end
  end.

(** [s.count(sub)] for a non-empty [sub]. *)
Definition count (sub s : pystr) : nat := count_scan sub O s.

(** [s.lower()] on the ASCII letters. *)
Definition lower (s : pystr) : pystr := List.map ascii_lower s.

(** Truth value of a string: non-empty. *)
Definition truthy (s : pystr) : bool :=
  match s with
  | [] => false
  | _ => true
  end.

End PyStr.

Import PyStr.

(** ** Third-party functions *)

(** The character tables and hash functions the code relies on. *)
Record Platform := {
  (** [str.isalnum] above U+007F (the word class of [re] is this plus [_]) *)
  uni_alnum : N -> bool;
  (** [str.isdecimal] above U+007F (the digit class of [re]) *)
  uni_decimal : N -> bool;
  (** [hashlib.sha256(s.encode("utf-8")).hexdigest()] *)
  sha256_hex : pystr -> pystr;
  (** [hashlib.blake2b(s.encode(), digest_size=12).hexdigest()] *)
  blake2b_hex : pystr -> pystr;
  (** [int(s)] for a string, [None] when it raises *)
  int_of_str : pystr -> option Z;
  (** [float(s)] for a string, [None] when it raises *)
  float_of_str : pystr -> option Q
}.

(** ** app/utils.py *)

Module Utils.
Section WithPlatform.
Context (P : Platform).

(** [\d] *)
Definition is_digit (c : N) : bool :=
  if (c <? 128)%N then ascii_digit c else uni_decimal P c.

(** [\w] *)
Definition is_word (c : N) : bool :=
  if (c <? 128)%N then ascii_alpha c || ascii_digit c || (c =? 95)%N
  else uni_alnum P c.

Definition normalize_text (text : pystr) : pystr :=
  if truthy text then join [SP] (split text) else [].

Fixpoint count_runs (inside : bool) (s : pystr) : nat :=
  match s with
  | [] => O
  | c :: r =>
      if is_word c
      then (if inside then O else 1%nat) + count_runs true r
      else count_runs false r
  end.

(** [len(re.findall(r'\w+', text))] *)
Definition word_count (text : pystr) : Z :=
  if truthy text then Z.of_nat (count_runs false text) else 0%Z.

(** A match of [\[\d+\]] at the head of [s]: the number of code points it
    spans. *)
Definition bracket_len (s : pystr) : option nat :=
  match s with
  | 91%N :: r =>
      let ds := take_while is_digit r in
      match ds, drop_while is_digit r with
      | _ :: _, 93%N :: _ => Some (S (S (length ds)))
      | _, _ => None
      end
  | _ => None
  end.

(** A match of [\s*\[\d+\]\s*] at the head of [s].  The leading [\s*] is
    greedy and giving back whitespace never helps, as the next code point
    must be [[]; the trailing [\s*] takes all the whitespace there is. *)
Definition cite_len (s : pystr) : option nat :=
  let lead := take_while is_space s in
  let s1 := drop_while is_space s in
  match bracket_len s1 with
  | Some b =>
      Some (length lead + b + length (take_while is_space (skipn b s1)))%nat
  | None => None
  end.

Fixpoint cite_scan (skip : nat) (s : pystr) : pystr :=
  match s with
  | [] => []
  | c :: r =>
      match skip with
      | S k => cite_scan k r
      | O =>
          match cite_len s with
          | Some n => SP :: cite_scan (Nat.pred n) r
          | None => c :: cite_scan O r
          end
      end
  end.

(** [_CITE_RE.sub(" ", s)] *)
Definition CITE_RE_sub (s : pystr) : pystr := cite_scan O s.

Fixpoint space_scan (inside : bool) (s : pystr) : pystr :=
  match s with
  | [] => []
  | c :: r =>
      if is_space c
      then (if inside then space_scan true r else SP :: space_scan true r)
      else c :: space_scan false r
  end.

(** [_SPACE_RE.sub(" ", s)] *)
Definition SPACE_RE_sub (s : pystr) : pystr := space_scan false s.

Definition clean_citations_and_spaces (s : pystr) : pystr :=
  if truthy s then
    let s := CITE_RE_sub s in
    let s := replace (py " ,") (py ",") s in
    let s := replace (py " .") (py ".") s in
    let s := replace (py " ;") (py ";") s in
    let s := replace (py " :") (py ":") s in
    strip (SPACE_RE_sub s)
  else s.

(** The cleaning step of [core_parse]. *)
Definition clean (s : pystr) : pystr :=
  clean_citations_and_spaces (normalize_text s).

End WithPlatform.
End Utils.

(** ** JSON values *)

Module Json.

#[local] Set Warnings "-register-all".

(** A value as [json.load] returns it and [json.dump] takes it.  An object
    is its list of members; a lookup takes the first member of that name. *)
Inductive json :=
| JNull
| JBool (b : bool)
| JInt (z : Z)
| JFloat (q : Q)
| JStr (s : pystr)
| JList (l : list json)
| JDict (d : list (pystr * json)).

Definition dict := list (pystr * json).

Fixpoint dget (k : pystr) (d : dict) : option json :=
  match d with
  | [] => None
  | (k', v) :: r => if PyStr.eqb k k' then Some v else dget k r
  end.

(** [d[k] = v] *)
Fixpoint dset (k : pystr) (v : json) (d : dict) : dict :=
  match d with
  | [] => [(k, v)]
  | (k', v') :: r =>
      if PyStr.eqb k k' then (k, v) :: r else (k', v') :: dset k v r
  end.

(** [d.get(k)], [None] when the key is missing. *)
Definition get (k : pystr) (d : dict) : json :=
  match dget k d with
  | Some v => v
  | None => JNull
  end.

(** [d.get(k, dflt)] *)
Definition get_or (k : pystr) (dflt : json) (d : dict) : json :=
  match dget k d with
  | Some v => v
  | None => dflt
  end.

(** Truth value of a Python object. *)
Definition truthy (j : json) : bool :=
  match j with
  | JNull => false
  | JBool b => b
  | JInt z => negb (z =? 0)%Z
  | JFloat q => negb (Qeq_bool q 0%Q)
  | JStr s => PyStr.truthy s
  | JList l => match l with [] => false | _ => true end
  | JDict d => match d with [] => false | _ => true end
  end.

(** [a or b] *)
Definition or_else (a b : json) : json := if truthy a then a else b.

(** The object behind a value, [None] where a method call on it raises
    [AttributeError]. *)
Definition as_dict (j : json) : option dict :=
  match j with
  | JDict d => Some d
  | _ => None
  end.

Definition as_str (j : json) : option pystr :=
  match j with
  | JStr s => Some s
  | _ => None
  end.

(** Truncation toward zero, as [int] does on a float. *)
Definition Qtrunc (q : Q) : Z := Z.quot (Qnum q) (Z.pos (Qden q)).

Section Conversions.
Context (P : Platform).

(** [int(x)], [None] when it raises. *)
Definition to_int (j : json) : option Z :=
  match j with
  | JBool b => Some (if b then 1 else 0)%Z
  | JInt z => Some z
  | JFloat q => Some (Qtrunc q)
  | JStr s => int_of_str P s
  | JNull | JList _ | JDict _ => None
  end.

(** [float(x)], [None] when it raises. *)
Definition to_float (j : json) : option Q :=
  match j with
  | JBool b => Some (if b then 1 else 0)%Q
  | JInt z => Some (inject_Z z)
  | JFloat q => Some q
  | JStr s => float_of_str P s
  | JNull | JList _ | JDict _ => None
  end.

End Conversions.

End Json.

Import Json.

(** ** app/cache.py *)

Module Cache.

Record CacheEntry := {
  etag : pystr;
  fetched_at : Q;
  ttl : Z;
  payload : json
}.

(** A file of the cache directory, seen through [json.load]: the value it
    parses to, or a file that cannot be read or parsed. *)
Inductive file :=
| Parsed (j : json)
| Malformed.

(** [os.path.join(a, b)] on POSIX. *)
Definition path_join (a b : pystr) : pystr :=
  if starts_with (py "/") b then b
  else if negb (PyStr.truthy a) || ends_with (py "/") a then a ++ b
  else a ++ py "/" ++ b.

Definition Qltb (a b : Q) : bool := negb (Qle_bool b a).

Section WithPlatform.
Context (P : Platform).
(** [str(x)] of a value that is not a string *)
Context (repr : json -> pystr).

Definition _hash_key (s : pystr) : pystr := sha256_hex P s.

Definition _path (base_dir key : pystr) : pystr :=
  path_join base_dir (key ++ py ".json").

Definition str_of (j : json) : pystr :=
  match j with
  | JStr s => s
  | _ => repr j
  end.

(** The body of the [try] block of [get], [None] where it raises or
    returns [None]. *)
Definition read_entry (now : Q) (f : file) : option CacheEntry :=
  match f with
  | Malformed => None
  | Parsed j =>
      match as_dict j with
      | None => None
      | Some data =>
          match to_int P (get_or (py "ttl") (JInt 0) data),
                to_float P (get_or (py "fetched_at") (JInt 0) data) with
          | Some ttl, Some fetched_at =>
              if (0 <? ttl)%Z && Qltb (inject_Z ttl) (now - fetched_at)%Q
              then None
              else
                match dget (py "etag") data, dget (py "payload") data with
                | Some e, Some p =>
                    Some {| etag := str_of e; fetched_at := fetched_at;
                            ttl := ttl; payload := p |}
                | _, _ => None
                end
          | _, _ => None
          end
      end
  end.

(** [get(base_dir, url)] with the clock reading [now].  The file system is
    handed back as it was received: nothing is written or removed. *)
Definition get (fs : gmap pystr file) (now : Q) (base_dir url : pystr)
  : gmap pystr file * option CacheEntry :=
  let fp := _path base_dir (_hash_key url) in
  match fs !! fp with
  | None => (fs, None)
  | Some f => (fs, read_entry now f)
  end.

(** The [blob] that [set] serialises. *)
Definition blob (etag : pystr) (now : Q) (ttl : Z) (payload : json) : dict :=
  [ (py "etag", JStr etag);
    (py "fetched_at", JFloat now);
    (py "ttl", JInt ttl);
    (py "payload", payload) ].

(** [set(base_dir, url, etag, payload, ttl)] with the clock reading [now]:
    the entry is written to a temporary file that is then renamed. *)
Definition set (fs : gmap pystr file) (now : Q) (base_dir url etag : pystr)
    (payload : json) (ttl : Z) : gmap pystr file :=
  let fp := _path base_dir (_hash_key url) in
  let tmp := fp ++ py ".tmp" in
  let fs1 := <[tmp := Parsed (JDict (blob etag now ttl payload))]> fs in
  match fs1 !! tmp with
  | Some f => <[fp := f]> (delete tmp fs1)
  | None => fs1
  end.

End WithPlatform.

(** The members of an entry that [read_entry] looks at. *)
Record members (data : dict) (e : json) (fetched : json) (t : json)
    (p : json) : Prop := {
  m_ttl : get_or (py "ttl") (JInt 0) data = t;
  m_fetched : get_or (py "fetched_at") (JInt 0) data = fetched;
  m_etag : dget (py "etag") data = Some e;
  m_payload : dget (py "payload") data = Some p
}.

End Cache.

(** ** Strict rate limiter of app/utils.py *)

Module RateLimiter.

(** [self.RATE] and [self.BURST] *)
Definition RATE : Q := 60.
Definition BURST : Q := 30.

(** [check_rate_limit(ip, limit_per_min)] at the clock reading [now]:
    the new bucket table, and [true] when the call returns, [false] when
    it raises [RateLimitError].  A bucket is [(tokens, ts)]. *)
Definition check_rate_limit (buckets : gmap pystr (Q * Q)) (now : Q)
    (ip : pystr) (limit_per_min : Z) : gmap pystr (Q * Q) * bool :=
  let b := default (BURST, now) (buckets !! ip) in
  let tokens := Qmin BURST (fst b + RATE * (now - snd b) / 60)%Q in
  if Cache.Qltb tokens 1
  then (<[ip := (tokens, now)]> buckets, false)
  else (<[ip := ((tokens - 1)%Q, now)]> buckets, true).

(** Calls for one identity at the given clock readings, in order: the
    table they leave and whether each call returned. *)
Fixpoint calls (buckets : gmap pystr (Q * Q)) (ip : pystr)
    (limit_per_min : Z) (times : list Q) : gmap pystr (Q * Q) * list bool :=
  match times with
  | [] => (buckets, [])
  | t :: r =>
      let '(b1, ok) := check_rate_limit buckets t ip limit_per_min in
      let '(b2, oks) := calls b1 ip limit_per_min r in
      (b2, ok :: oks)
  end.

End RateLimiter.

(** ** app/enrich.py *)

(** The language stack behind [enrich]. *)
Record Nlp := {
  (** [SentimentIntensityAnalyzer()] could be built *)
  vader_ready : bool;
  (** [float(sia.polarity_scores(s)["compound"])], [None] when it raises *)
  polarity_compound : pystr -> option Q;
  detect_language : pystr -> pystr;
  summarize_text : pystr -> pystr;
  (** [extract_keywords(text, top_k)] *)
  extract_keywords : pystr -> Z -> list pystr
}.

Module Enrich.

Inductive Label := negative | neutral | positive.

Record Sentiment := { label : Label; score : Q }.

Definition neutral_zero : Sentiment := {| label := neutral; score := 0 |}.

Definition NEUTRAL_DOMAINS : list pystr :=
  [ py "wikipedia.org"; py "wikidata.org"; py "britannica.com";
    py "baike.baidu.com"; py "encyclopedia.com"; py "investopedia.com";
    py "dictionary.com"; py "collinsdictionary.com";
    py "thefreedictionary.com"; py "wordreference.com" ].

(** One of [.], [!], [?]. *)
Definition is_terminator (c : N) : bool :=
  ((c =? 46) || (c =? 33) || (c =? 63))%N.

(** [re.split(r"(?<=[\.!\?])\s+", s)]: [cur] is the piece being read,
    [after] tells that the code point before was a terminator, [gap] that a
    separator is being consumed. *)
Fixpoint sentence_scan (cur : pystr) (after gap : bool) (s : pystr)
  : list pystr :=
  match s with
  | [] => [rev cur]
  | c :: r =>
      if is_space c then
        if gap then sentence_scan cur false true r
        else if after then rev cur :: sentence_scan [] false true r
        else sentence_scan (c :: cur) false false r
      else sentence_scan (c :: cur) (is_terminator c) false r
  end.

Definition split_sentences (s : pystr) : list pystr :=
  sentence_scan [] false false s.

Fixpoint map_opt {A B : Type} (f : A -> option B) (l : list A)
  : option (list B) :=
  match l with
  | [] => Some []
  | x :: r =>
      match f x, map_opt f r with
      | Some y, Some ys => Some (y :: ys)
      | _, _ => None
      end
  end.

(** [fsum] *)
Definition fsum (l : list Q) : Q := fold_right Qplus 0%Q l.

(** Nearest integer, ties to the even one. *)
Definition round_half_even (x : Q) : Z :=
  let f := Qfloor x in
  match (x - inject_Z f ?= 1 # 2)%Q with
  | Lt => f
  | Gt => (f + 1)%Z
  | Eq => if Z.even f then f else (f + 1)%Z
  end.

(** [round(x, 4)] *)
Definition round4 (x : Q) : Q :=
  (inject_Z (round_half_even (x * 10000)) / 10000)%Q.

Definition clamp (lo hi x : Q) : Q := Qmax (Qmin x hi) lo.

Definition label_of (comp : Q) : Label :=
  if Cache.Qltb 0.05 comp then positive
  else if Cache.Qltb comp (-0.05) then negative
  else neutral.

Section WithNlp.
Context (L : Nlp).

(** The mean compound score of the sample, [None] when scoring raises. *)
Definition compound (sample : pystr) : option Q :=
  let head := firstn 4000 sample in
  let sentences :=
    filter PyStr.truthy (List.map strip (split_sentences head)) in
  match sentences with
  | [] => polarity_compound L head
  | _ =>
      match map_opt (polarity_compound L) sentences with
      | Some scores =>
          Some (fsum scores / inject_Z (Z.of_nat (length scores)))%Q
      | None => None
      end
  end.

Definition in_neutral_domain (source_url : option pystr) : bool :=
  match source_url with
  | Some u => PyStr.truthy u && existsb (fun d => contains d u) NEUTRAL_DOMAINS
  | None => false
  end.

(** The [try] block of [analyze_sentiment], [None] when it raises. *)
Definition scored (sample : pystr) (source_url : option pystr)
  : option Sentiment :=
  if vader_ready L then
    match compound sample with
    | Some comp =>
        let comp :=
          if in_neutral_domain source_url
          then clamp (-0.04) 0.04 comp
          else clamp (-0.6) 0.6 comp in
        Some {| label := label_of comp; score := round4 comp |}
    | None => None
    end
  else None.

Definition analyze_sentiment (text : pystr) (source_url : option pystr)
  : Sentiment :=
  let sample := strip text in
  if PyStr.truthy sample then
    match scored sample source_url with
    | Some r => r
    | None => neutral_zero
    end
  else neutral_zero.

End WithNlp.
End Enrich.

(** ** Exceptions *)

(** The exceptions that cross function boundaries.  In httpx,
    [HTTPError] is the base class of [RequestError] (whose subclasses are
    the transport errors, [TimeoutException] among them) and of
    [HTTPStatusError], which [raise_for_status] raises. *)
Inductive PyExc :=
| TimeoutException
| RequestError
| HTTPStatusError (status : Z)
| HTTPException (status : Z) (detail : pystr)
| OtherError.

(** ** app/extractor.py *)

(** The HTML libraries behind [extractor]. *)
Record Html := {
  (** [json.loads(trafilatura.extract(html, url=url, output="json", ...))],
      [None] when there is no result or something raises *)
  trafilatura_extract : pystr -> pystr -> option json;
  extract_meta_bs4 : pystr -> dict;
  fallback_body_text_bs4 : pystr -> pystr;
  extract_title_bs4 : pystr -> option pystr;
  extract_lead_image_bs4 : pystr -> pystr -> option pystr;
  extract_published_at : pystr -> option pystr * list pystr;
  extract_site_name : pystr -> pystr -> option pystr;
  (** [datetime.fromisoformat] accepts the string *)
  fromisoformat_ok : pystr -> bool;
  (** the URL with [printable=yes] added to its query, [None] when the
      query has a [printable] key already *)
  add_printable : pystr -> option pystr
}.

Module Extractor.

Record HttpResponse := {
  status_code : Z;
  final_url : pystr;
  text : pystr;
  headers : list (pystr * pystr)
}.

(** What [await client.get(url)] does. *)
Inductive get_result :=
| Raised (e : PyExc)
| Got (r : HttpResponse).

(** The network: the outcome of a GET of a URL during a given attempt. *)
Definition network := nat -> pystr -> get_result.

(** [except (httpx.TimeoutException, httpx.HTTPError)] *)
Definition caught (e : PyExc) : bool :=
  match e with
  | TimeoutException | RequestError | HTTPStatusError _ => true
  | HTTPException _ _ | OtherError => false
  end.

(** [response.raise_for_status()]: raises unless the status is 2xx. *)
Definition raise_for_status (r : HttpResponse) : option PyExc :=
  if (200 <=? status_code r)%Z && (status_code r <=? 299)%Z then None
  else Some (HTTPStatusError (status_code r)).

Definition fetched := (pystr * list (pystr * pystr))%type.

Section WithHtml.
Context (H : Html).

(** The body of the [try] block for one attempt. *)
Definition attempt_once (net : network) (url : pystr) (attempt : nat)
  : PyExc + fetched :=
  match net attempt url with
  | Raised e => inl e
  | Got response =>
      match raise_for_status response with
      | Some e => inl e
      | None =>
          if (status_code response =? 200)%Z
             && contains (py "wikipedia.org") (lower (final_url response))
          then
            let html := text response in
            let plain := inr (html, headers response) in
            if (count (py "<p") html <? 5)%nat then
              match add_printable H (final_url response) with
              | Some printable_url =>
                  match net attempt printable_url with
                  | Got r2 =>
                      if (status_code r2 =? 200)%Z
                         && (count (py "<p") html
                             <? count (py "<p") (text r2))%nat
                      then inr (text r2, headers r2)
                      else plain
                  | Raised _ => plain
                  end
              | None => plain
              end
            else plain
          else inr (text response, headers response)
      end
  end.

(** [0.5 * (2 ** attempt)] *)
Definition backoff (attempt : nat) : Q :=
  (0.5 * inject_Z (2 ^ Z.of_nat attempt))%Q.

(** The [for attempt in ...] loop; [slept] collects the arguments of
    [asyncio.sleep].  Leaving the loop without a return gives [None], which
    the caller cannot unpack. *)
Fixpoint fetch_over (net : network) (url : pystr) (attempts : list nat)
    (slept : list Q) : list Q * (PyExc + fetched) :=
  match attempts with
  | [] => (slept, inl OtherError)
  | attempt :: rest =>
      match attempt_once net url attempt with
      | inr ok => (slept, inr ok)
      | inl e =>
          if caught e then
            if (attempt =? 2)%nat then (slept, inl e)
            else fetch_over net url rest (slept ++ [backoff attempt])
          else (slept, inl e)
      end
  end.

(** [fetch_html(url, timeout_s, user_agent)]: the sleeps it made and its
    outcome. *)
Definition fetch_html (net : network) (url : pystr)
  : list Q * (PyExc + fetched) :=
  fetch_over net url (seq 0 3) [].

Definition extract_trafilatura (html url : pystr) : dict :=
  match trafilatura_extract H html url with
  | Some (JDict j) =>
      [ (py "title", Json.get (py "title") j);
        (py "text", or_else (Json.get (py "text") j) (JStr []));
        (py "date", Json.get (py "date") j);
        (py "image", Json.get (py "image") j) ]
  | _ => []
  end.

Definition opt_truthy (o : option pystr) : bool :=
  match o with
  | Some s => PyStr.truthy s
  | None => false
  end.

Definition of_opt (o : option pystr) : json :=
  match o with
  | Some s => JStr s
  | None => JNull
  end.

(** [if not result.get(k) and meta.get(k): result[k] = meta[k]] *)
Definition fill_gap (meta : dict) (k : pystr) (result : dict) : dict :=
  if negb (Json.truthy (Json.get k result)) && Json.truthy (Json.get k meta)
  then dset k (Json.get k meta) result
  else result.

(** [merge_extraction(primary, meta, html, url)].  A value that is truthy
    and not a string where the code calls a string method raises
    [AttributeError].  The parsed date stands for the [datetime] object. *)
Definition merge_extraction (primary meta : dict) (html url : pystr)
  : PyExc + (dict * bool) :=
  let result := fill_gap meta (py "image")
                  (fill_gap meta (py "date")
                     (fill_gap meta (py "title") primary)) in
  match as_str (or_else (Json.get (py "text") result) (JStr [])) with
  | None => inl OtherError
  | Some t =>
      let txt := strip t in
      let '(result, used) :=
        if (length (split txt) <? 20)%nat
        then (dset (py "text") (JStr (fallback_body_text_bs4 H html)) result,
              true)
        else (result, false) in
      let '(result, used) :=
        if negb (Json.truthy (Json.get (py "title") result))
           && opt_truthy (extract_title_bs4 H html)
        then (dset (py "title") (of_opt (extract_title_bs4 H html)) result,
              true)
        else (result, used) in
      let '(result, used) :=
        if negb (Json.truthy (Json.get (py "image") result))
           && opt_truthy (extract_lead_image_bs4 H html url)
        then (dset (py "image") (of_opt (extract_lead_image_bs4 H html url))
                result, true)
        else (result, used) in
      let d := Json.get (py "date") result in
      if Json.truthy d then
        match d with
        | JStr ds =>
            if fromisoformat_ok H (replace (py "Z") (py "+00:00") ds)
            then inr (result, used)
            else inr (dset (py "date") JNull result, used)
        | _ => inl OtherError
        end
      else inr (result, used)
  end.

End WithHtml.
End Extractor.

(** ** app/main.py *)

(** The environment variables read at import time and in [core_parse]. *)
Record Settings := {
  RATE_LIMIT_PER_MIN : Z;
  CACHE_DIR : pystr;
  CACHE_TTL_SECONDS : Z;
  DEFAULT_CACHE_TTL_SECONDS : Z;
  MAX_ENRICH_CHARS : Z
}.

(** What one request meets outside the process: the network, the clock
    readings of its cache calls, the formatted fetch time and the elapsed
    milliseconds. *)
Record World := {
  net : Extractor.network;
  clock_get1 : Q;
  clock_get2 : Q;
  clock_set : Q;
  fetched_at_text : pystr;
  elapsed_ms : Z
}.

Module Main.

Definition PARSER_VERSION : pystr := py "v1".

Definition QUOTE : N := 34.
Definition ELLIPSIS : N := 8230.

(** [str(n)] of an integer. *)
Definition str_of_int (n : Z) : pystr :=
  py (NilZero.string_of_int (Z.to_int n)).

(** [s[:n]] *)
Definition slice_to (n : Z) (s : pystr) : pystr :=
  if (0 <=? n)%Z then firstn (Z.to_nat n) s
  else firstn (length s - Z.to_nat (- n)) s.

(** A [Response] with a status and an empty body, or a [JSONResponse] with
    status 200. *)
Inductive Response :=
| Plain (status : Z)
| JSONResponse (content : json) (headers : list (pystr * pystr)).

Definition status_of (r : Response) : Z :=
  match r with
  | Plain s => s
  | JSONResponse _ _ => 200%Z
  end.

Definition body_of (r : Response) : option json :=
  match r with
  | Plain _ => None
  | JSONResponse c _ => Some c
  end.

Definition headers_of (r : Response) : list (pystr * pystr) :=
  match r with
  | Plain _ => []
  | JSONResponse _ h => h
  end.

Fixpoint header_get (k : pystr) (h : list (pystr * pystr)) : option pystr :=
  match h with
  | [] => None
  | (k', v) :: r => if PyStr.eqb k k' then Some v else header_get k r
  end.

(** [inm == etag] for the value of [request.headers.get("if-none-match")]. *)
Definition inm_is (inm : option pystr) (etag : pystr) : bool :=
  match inm with
  | Some v => PyStr.eqb v etag
  | None => false
  end.

Definition label_name (l : Enrich.Label) : pystr :=
  match l with
  | Enrich.negative => py "negative"
  | Enrich.neutral => py "neutral"
  | Enrich.positive => py "positive"
  end.

Definition sentiment_json (s : Enrich.Sentiment) : json :=
  JDict [ (py "label", JStr (label_name (Enrich.label s)));
          (py "score", JFloat (Enrich.score s)) ].

Section WithSettings.
Context (P : Platform) (L : Nlp) (H : Html) (repr : json -> pystr).
Context (S : Settings).

(** *** Token bucket *)

Definition BURST : Z := Z.max 5 (RATE_LIMIT_PER_MIN S / 2).

(** [_allow(ip)] at the clock reading [now], on the table [_BUCKET]. *)
Definition _allow (bucket : gmap pystr (Q * Q)) (now : Q) (ip : pystr)
  : gmap pystr (Q * Q) * bool :=
  let '(tokens, ts) := default (inject_Z BURST, now) (bucket !! ip) in
  let refill := ((inject_Z (RATE_LIMIT_PER_MIN S) / 60) * (now - ts))%Q in
  let tokens := Qmin (inject_Z BURST) (tokens + refill)%Q in
  if Qle_bool 1 tokens
  then (<[ip := ((tokens - 1)%Q, now)]> bucket, true)
  else (<[ip := (tokens, now)]> bucket, false).

(** Requests of one identity at the given clock readings, in order: the
    table they leave and the answer to each. *)
Fixpoint requests (bucket : gmap pystr (Q * Q)) (ip : pystr)
    (times : list Q) : gmap pystr (Q * Q) * list bool :=
  match times with
  | [] => (bucket, [])
  | t :: r =>
      let '(b1, ok) := _allow bucket t ip in
      let '(b2, oks) := requests b1 ip r in
      (b2, ok :: oks)
  end.

(** The identity has a bucket of [q] tokens, up to equality of fractions,
    stamped [t]. *)
Definition holds (bucket : gmap pystr (Q * Q)) (ip : pystr) (q t : Q)
  : Prop :=
  exists tok, bucket !! ip = Some (tok, t) /\ (tok == q)%Q.

(** *** Entity tags *)

Definition _etag_for (url : pystr) : pystr :=
  py "W/" ++ [QUOTE] ++ blake2b_hex P (url ++ py "|" ++ PARSER_VERSION)
    ++ [QUOTE].

Definition _cache_headers (etag : pystr) (ttl : Z) : list (pystr * pystr) :=
  [ (py "ETag", etag);
    (py "Cache-Control", py "public, max-age=" ++ str_of_int ttl) ].

(** *** The parse orchestrator *)

(** [normalize_text] on a value that need not be a string. *)
Definition normalize_value (j : json) : option pystr :=
  if Json.truthy j then
    match j with
    | JStr s => Some (Utils.normalize_text s)
    | _ => None
    end
  else Some [].

Definition too_little_text : PyExc :=
  HTTPException 422 (py "parse_failed: too little text extracted").

(** The cleaned body text of a page that was fetched as HTML, [None]
    where extraction raises before the text is known. *)
Definition cleaned_text (html url_str : pystr) : option pystr :=
  let content := Extractor.extract_trafilatura H html url_str in
  let meta_data := extract_meta_bs4 H html in
  match Extractor.merge_extraction H content meta_data html url_str with
  | inl _ => None
  | inr (data, _) =>
      match normalize_value (get_or (py "text") (JStr []) data) with
      | Some n => Some (Utils.clean_citations_and_spaces P n)
      | None => None
      end
  end.

Definition core_parse (w : World) (url_str : pystr) : PyExc + dict :=
  match snd (Extractor.fetch_html H (net w) url_str) with
  | inl e => inl e
  | inr (html, headers) =>
      let ctype := default [] (header_get (py "content-type") headers) in
      if negb (contains (py "text/html") (lower ctype))
      then inl (HTTPException 415 (py "unsupported content-type"))
      else
        let content := Extractor.extract_trafilatura H html url_str in
        let meta_data := extract_meta_bs4 H html in
        match Extractor.merge_extraction H content meta_data html url_str with
        | inl e => inl e
        | inr (data, used_bs4_fallback) =>
            match normalize_value (get_or (py "text") (JStr []) data) with
            | None => inl OtherError
            | Some normalized =>
                let text := Utils.clean_citations_and_spaces P normalized in
                if negb (PyStr.truthy text)
                   || (Utils.word_count P text <? 10)%Z
                then inl too_little_text
                else
                  let title :=
                    or_else (or_else (Json.get (py "title") data)
                               (Extractor.of_opt (extract_title_bs4 H html)))
                      (JStr []) in
                  let lead_image_url :=
                    or_else (Json.get (py "image") data)
                      (Extractor.of_opt
                         (extract_lead_image_bs4 H html url_str)) in
                  let '(published_at, published_sources) :=
                    extract_published_at H html in
                  let site := extract_site_name H html url_str in
                  let max_chars := MAX_ENRICH_CHARS S in
                  let enrich_text :=
                    if (max_chars <? Z.of_nat (length text))%Z
                    then slice_to max_chars text else text in
                  let language := detect_language L enrich_text in
                  let summary := summarize_text L enrich_text in
                  let keywords := extract_keywords L enrich_text 12 in
                  let sentiment :=
                    Enrich.analyze_sentiment L
                      (if PyStr.truthy summary then summary
                       else firstn 3000 text) None in
                  inr [ (py "url", JStr url_str);
                        (py "title", or_else title (JStr []));
                        (py "text", JStr text);
                        (py "language", JStr language);
                        (py "published_at", Extractor.of_opt published_at);
                        (py "lead_image_url", lead_image_url);
                        (py "word_count", JInt (Utils.word_count P text));
                        (py "summary", JStr summary);
                        (py "keywords", JList (List.map JStr keywords));
                        (py "sentiment", sentiment_json sentiment);
                        (py "meta",
                         JDict [ (py "site", Extractor.of_opt site);
                                 (py "published_sources",
                                  JList (List.map JStr published_sources));
                                 (py "parser",
                                  JStr (if used_bs4_fallback
                                        then py "trafilatura|bs4"
                                        else py "trafilatura"));
                                 (py "fetched_at", JStr (fetched_at_text w));
                                 (py "elapsed_ms", JInt (elapsed_ms w));
                                 (py "cache", JBool false) ]) ]
            end
        end
  end.

(** *** Projections; [None] where a method call raises *)

Definition site_of (full : dict) : option json :=
  match as_dict (or_else (Json.get (py "meta") full) (JDict [])) with
  | Some m => Some (Json.get (py "site") m)
  | None => None
  end.

Definition _project_metadata (full : json) : option json :=
  match as_dict full with
  | None => None
  | Some f =>
      match site_of f with
      | None => None
      | Some site =>
          Some (JDict [ (py "url", Json.get (py "url") f);
                        (py "title", Json.get (py "title") f);
                        (py "language", Json.get (py "language") f);
                        (py "published_at", Json.get (py "published_at") f);
                        (py "lead_image_url",
                         Json.get (py "lead_image_url") f);
                        (py "word_count", Json.get (py "word_count") f);
                        (py "site", site) ])
      end
  end.

Definition _project_summary (full : json) : option json :=
  match as_dict full with
  | None => None
  | Some f =>
      match site_of f with
      | None => None
      | Some site =>
          Some (JDict [ (py "url", Json.get (py "url") f);
                        (py "title", Json.get (py "title") f);
                        (py "summary", Json.get (py "summary") f);
                        (py "keywords",
                         or_else (Json.get (py "keywords") f) (JList []));
                        (py "sentiment",
                         or_else (Json.get (py "sentiment") f)
                           (sentiment_json Enrich.neutral_zero));
                        (py "language", Json.get (py "language") f);
                        (py "site", site) ])
      end
  end.

(** The [snippet] of [_project_preview]. *)
Definition snippet_of (f : dict) : json :=
  let text :=
    or_else (Json.get (py "summary") f)
      (or_else (Json.get (py "text") f) (JStr [])) in
  match text with
  | JStr s =>
      if (300 <? length s)%nat then JStr (firstn 280 s ++ [ELLIPSIS])
      else text
  | _ => text
  end.

Definition _project_preview (full : json) : option json :=
  match as_dict full with
  | None => None
  | Some f =>
      match site_of f with
      | None => None
      | Some site =>
          Some (JDict [ (py "url", Json.get (py "url") f);
                        (py "title", Json.get (py "title") f);
                        (py "snippet", snippet_of f);
                        (py "lead_image_url",
                         Json.get (py "lead_image_url") f);
                        (py "published_at", Json.get (py "published_at") f);
                        (py "site", site) ])
      end
  end.

(** *** Routes *)

Definition etag_matches (cached : option Cache.CacheEntry) (etag : pystr)
  : bool :=
  match cached with
  | Some c => PyStr.eqb (Cache.etag c) etag
  | None => false
  end.

(** [parse(req, request)]: [inm] is the If-None-Match header, [fs] the
    files of the cache directory.  [_enforce_cache_budget] compares the
    size of the directory with the budget and does nothing either way. *)
Definition parse (w : World) (fs : gmap pystr Cache.file)
    (inm : option pystr) (url_str : pystr)
  : gmap pystr Cache.file * (PyExc + Response) :=
  let etag := _etag_for url_str in
  let '(fs, not_modified) :=
    if inm_is inm etag then
      let '(fs, cached) :=
        Cache.get P repr fs (clock_get1 w) (CACHE_DIR S) url_str in
      (fs, etag_matches cached etag)
    else (fs, false) in
  if not_modified then (fs, inr (Plain 304))
  else
    let '(fs, cached) :=
      Cache.get P repr fs (clock_get2 w) (CACHE_DIR S) url_str in
    match cached with
    | Some c =>
        if PyStr.eqb (Cache.etag c) etag
        then (fs, inr (JSONResponse (Cache.payload c)
                         (_cache_headers (Cache.etag c)
                            (DEFAULT_CACHE_TTL_SECONDS S))))
        else
          match core_parse w url_str with
          | inl e => (fs, inl e)
          | inr result =>
              (Cache.set P fs (clock_set w) (CACHE_DIR S) url_str etag
                 (JDict result) (CACHE_TTL_SECONDS S),
               inr (JSONResponse (JDict result)
                      (_cache_headers etag (DEFAULT_CACHE_TTL_SECONDS S))))
          end
    | None =>
        match core_parse w url_str with
        | inl e => (fs, inl e)
        | inr result =>
            (Cache.set P fs (clock_set w) (CACHE_DIR S) url_str etag
               (JDict result) (CACHE_TTL_SECONDS S),
             inr (JSONResponse (JDict result)
                    (_cache_headers etag (DEFAULT_CACHE_TTL_SECONDS S))))
        end
    end.

(** What [parse] does once no 304 is due and the cache has no matching
    entry: the last third of its body. *)
Definition on_miss (w : World) (fs : gmap pystr Cache.file) (url : pystr)
  : gmap pystr Cache.file * (PyExc + Response) :=
  match core_parse w url with
  | inl e => (fs, inl e)
  | inr result =>
      (Cache.set P fs (clock_set w) (CACHE_DIR S) url (_etag_for url)
         (JDict result) (CACHE_TTL_SECONDS S),
       inr (JSONResponse (JDict result)
              (_cache_headers (_etag_for url)
                 (DEFAULT_CACHE_TTL_SECONDS S))))
  end.

(** The common shape of [metadata], [summary] and [preview]: the suffixed
    tag is compared first, then [parse] runs and its record is projected. *)
Definition projected (suffix : pystr) (project : json -> option json)
    (w : World) (fs : gmap pystr Cache.file) (inm : option pystr)
    (url_str : pystr) : gmap pystr Cache.file * (PyExc + Response) :=
  let etag := _etag_for url_str ++ suffix in
  if inm_is inm etag then (fs, inr (Plain 304))
  else
    match parse w fs inm url_str with
    | (fs, inl e) => (fs, inl e)
    | (fs, inr (Plain st)) =>
        if (st =? 304)%Z then (fs, inr (Plain 304)) else (fs, inl OtherError)
    | (fs, inr (JSONResponse data _)) =>
        match project data with
        | Some proj =>
            (fs, inr (JSONResponse proj
                        (_cache_headers etag (DEFAULT_CACHE_TTL_SECONDS S))))
        | None => (fs, inl OtherError)
        end
    end.

Definition metadata := projected (py "-meta") _project_metadata.
Definition summary := projected (py "-sum") _project_summary.
Definition preview := projected (py "-prev") _project_preview.

End WithSettings.

(** The burst and the limit as token counts. *)
Abbreviation burst_tokens S := (inject_Z (BURST S)).
Abbreviation per_minute S := (inject_Z (RATE_LIMIT_PER_MIN S)).

End Main.

(** ** A sample installation *)

(** Concrete stand-ins for the libraries and the outside world, used to run
    the definitions on examples. *)
Module Sample.

Definition platform : Platform :=
  {| uni_alnum := fun _ => false;
     uni_decimal := fun _ => false;
     sha256_hex := fun s => s;
     blake2b_hex := fun s => s;
     int_of_str := fun _ => None;
     float_of_str := fun _ => None |}.

Definition repr (j : json) : pystr := py "?".

Definition nlp : Nlp :=
  {| vader_ready := true;
     polarity_compound := fun _ => Some 0.9%Q;
     detect_language := fun _ => py "en";
     summarize_text := fun s => firstn 40 s;
     extract_keywords := fun _ _ => [] |}.

(** The extractor takes the page itself for its body text. *)
Definition html : Html :=
  {| trafilatura_extract :=
       fun page _ => Some (JDict [ (py "title", JStr (py "Sample"));
                                   (py "text", JStr page) ]);
     extract_meta_bs4 := fun _ => [];
     fallback_body_text_bs4 := fun page => page;
     extract_title_bs4 := fun _ => None;
     extract_lead_image_bs4 := fun _ _ => None;
     extract_published_at := fun _ => (None, []);
     extract_site_name := fun _ _ => Some (py "example.com");
     fromisoformat_ok := fun _ => true;
     add_printable := fun _ => None |}.

Definition settings : Settings :=
  {| RATE_LIMIT_PER_MIN := 10;
     CACHE_DIR := py "./data/cache";
     CACHE_TTL_SECONDS := 3600;
     DEFAULT_CACHE_TTL_SECONDS := 600;
     MAX_ENRICH_CHARS := 6000 |}.

Definition url : pystr := py "https://example.com/test".

Definition long_page : pystr :=
  py "This is a test article with some sample content. It contains multiple sentences. The content is positive and engaging. This should be enough.".

Definition short_page : pystr := py "Only five words of text.".

Definition response (status : Z) (page : pystr) : Extractor.HttpResponse :=
  {| Extractor.status_code := status;
     Extractor.final_url := url;
     Extractor.text := page;
     Extractor.headers :=
       [ (py "content-type", py "text/html; charset=utf-8") ] |}.

(** Every GET is answered with the given page. *)
Definition serving (page : pystr) : Extractor.network :=
  fun _ _ => Extractor.Got (response 200 page).

(** The first GET is answered 500, the later ones 200. *)
Definition flaky : Extractor.network :=
  fun attempt _ =>
    match attempt with
    | O => Extractor.Got (response 500 (py "Internal Server Error"))
    | _ => Extractor.Got (response 200 long_page)
    end.

Definition world (n : Extractor.network) (now : Q) : World :=
  {| net := n;
     clock_get1 := now;
     clock_get2 := now;
     clock_set := now;
     fetched_at_text := py "2025-10-24T12:00:00Z";
     elapsed_ms := 42 |}.

End Sample.

From Stdlib Require Import Lqa.

(** ** Traffic seen by a rate limiter *)

Module Traffic.

(** Clock readings that never go back, starting from [from]. *)
Fixpoint nondecreasing (from : Q) (times : list Q) : Prop :=
  match times with
  | [] => True
  | t :: r => (from <= t)%Q /\ nondecreasing t r
  end.

(** Number of admitted requests among the answers. *)
Fixpoint admitted (answers : list bool) : nat :=
  match answers with
  | [] => O
  | ok :: r => (if ok then 1 else 0)%nat + admitted r
  end.

End Traffic.

(** ** Shapes of text *)

Module TextShape.

(** A word of [split]: not empty and free of whitespace. *)
Definition token (w : pystr) : Prop :=
  w <> [] /\ Forall (fun c => is_space c = false) w.

(** Words counted piece by piece. *)
Definition words_total (P : Platform) (ws : list pystr) : nat :=
  fold_right Nat.add O (List.map (Utils.count_runs P false) ws).

End TextShape.

(** ** In-memory cache of app/utils.py *)

Module SimpleTTLCache.
Section WithValues.
Context {V : Type}.

(** [self._cache]: a key maps to [(expires_at, value)]; a [datetime] is a
    number of seconds. *)
Definition expired (now : Q) (entry : Q * V) : bool :=
  Cache.Qltb (fst entry) now.

(** The table without the entries that the first loop of [get] deletes. *)
Definition purge (cache : gmap pystr (Q * V)) (now : Q)
  : gmap pystr (Q * V) :=
  filter (fun kv => expired now (snd kv) = false) cache.

(** [get(key)] at the clock reading [now]. *)
Definition get (cache : gmap pystr (Q * V)) (now : Q) (key : pystr)
  : gmap pystr (Q * V) * option V :=
  let cache := purge cache now in
  match cache !! key with
  | None => (cache, None)
  | Some (expires_at, value) =>
      if Cache.Qltb expires_at now then (delete key cache, None)
      else (cache, Some value)
  end.

(** [set(key, value, ttl_s)] at the clock reading [now]. *)
Definition set (cache : gmap pystr (Q * V)) (now : Q) (key : pystr)
    (value : V) (ttl_s : Z) : gmap pystr (Q * V) :=
  <[key := ((now + inject_Z ttl_s)%Q, value)]> cache.

(** [clear()] *)
Definition clear (cache : gmap pystr (Q * V)) : gmap pystr (Q * V) := ∅.

End WithValues.
End SimpleTTLCache.

(** ** The loop of [extract_meta_bs4] *)

Module MetaTags.

(** The properties that the loop keeps. *)
Definition KEPT : list pystr :=
  [ py "og:title"; py "og:image"; py "twitter:image";
    py "article:published_time" ].

Definition mem (k : pystr) (l : list pystr) : bool :=
  existsb (PyStr.eqb k) l.

(** One round of the loop over [soup.find_all('meta')]; a tag is the
    object of its attributes.  [None] when the round raises: a property
    that is a list or a dictionary cannot be hashed for the look-up in the
    set. *)
Definition meta_step (meta : dict) (tag : dict) : option dict :=
  let property :=
    get_or (py "property") (get_or (py "name") (JStr []) tag) tag in
  let content := get_or (py "content") (JStr []) tag in
  if negb (Json.truthy property) || negb (Json.truthy content)
  then Some meta
  else
    match property with
    | JStr p => Some (if mem p KEPT then dset p content meta else meta)
    | JList _ | JDict _ => None
    | _ => Some meta
    end.

Fixpoint meta_loop (meta : dict) (tags : list dict) : option dict :=
  match tags with
  | [] => Some meta
  | tag :: rest =>
      match meta_step meta tag with
      | Some meta' => meta_loop meta' rest
      | None => None
      end
  end.

(** The body of [extract_meta_bs4] on the [meta] tags of the page and its
    first [time] tag, if any; an exception gives the empty dictionary. *)
Definition extract_meta_from (tags : list dict) (time_tag : option dict)
  : dict :=
  match meta_loop [] tags with
  | None => []
  | Some meta =>
      match time_tag with
      | Some t =>
          if Json.truthy (Json.get (py "datetime") t)
          then dset (py "time") (Json.get (py "datetime") t) meta
          else meta
      | None => meta
      end
  end.

End MetaTags.

(** ** The last loops of [extract_keywords] *)

Module Keywords.

Section Dedup.
(** The signature of a phrase; in the code the stems of its tokens. *)
Context (sig : pystr -> pystr).

(** The loop over [norm] with the set [seen] and the list [unique]; the
    loop ends as soon as [unique] has [top_k] phrases. *)
Fixpoint stem_loop (top_k : Z) (seen : gset pystr) (unique norm : list pystr)
  : list pystr :=
  match norm with
  | [] => unique
  | c :: rest =>
      let s := sig c in
      if bool_decide (s ∈ seen) then stem_loop top_k seen unique rest
      else
        let seen := {[ s ]} ∪ seen in
        let unique := unique ++ [c] in
        if (Z.of_nat (length unique) =? top_k)%Z then unique
        else stem_loop top_k seen unique rest
  end.

End Dedup.

(** [sig(phrase)] for a stemmer. *)
Definition sig (stem : pystr -> pystr) (phrase : pystr) : pystr :=
  join [SP] (map stem (split phrase)).

(** The loop of the [except] branch, which tests the length of [unique]
    on every round. *)
Fixpoint plain_loop (top_k : Z) (seen : gset pystr) (unique norm : list pystr)
  : list pystr :=
  match norm with
  | [] => unique
  | c :: rest =>
      let '(seen, unique) :=
        if negb (bool_decide (c ∈ seen))
        then ({[ c ]} ∪ seen, unique ++ [c])
        else (seen, unique) in
      if (Z.of_nat (length unique) =? top_k)%Z then unique
      else plain_loop top_k seen unique rest
  end.

(** The end of [extract_keywords] on a non-empty [norm]: the stemmer is
    [None] when nltk cannot be imported. *)
Definition dedup (stemmer : option (pystr -> pystr)) (top_k : Z)
    (norm : list pystr) : list pystr :=
  match stemmer with
  | Some stem => stem_loop (sig stem) top_k ∅ [] norm
  | None => plain_loop top_k ∅ [] norm
  end.

End Keywords.

(** ** The rate-limit middleware of app/main.py *)

Module Middleware.

Definition COMMA : N := 44.

(** [s.split(",")[0]] *)
Fixpoint before_comma (s : pystr) : pystr :=
  match s with
  | [] => []
  | c :: r => if (c =? COMMA)%N then [] else c :: before_comma r
  end.

(** What the middleware reads of a request: the header
    [x-forwarded-for] and [req.client.host], [None] without a client. *)
Record Request := {
  x_forwarded_for : option pystr;
  client_host : option pystr
}.

(** The identity that the request is counted under. *)
Definition client_ip (req : Request) : pystr :=
  let peer := default (py "0.0.0.0") (client_host req) in
  let raw :=
    match x_forwarded_for req with
    | Some v => if PyStr.truthy v then v else peer
    | None => peer
    end in
  strip (before_comma raw).

Section WithSettings.
Context (S : Settings).

(** [ratelimit_mw]: the table after the request and whether the request
    is passed on to [call_next]; otherwise the answer is the 429. *)
Definition ratelimit_mw (bucket : gmap pystr (Q * Q)) (now : Q)
    (req : Request) : gmap pystr (Q * Q) * bool :=
  Main._allow S bucket now (client_ip req).

(** Requests with their clock readings, in order of arrival. *)
Fixpoint serve (bucket : gmap pystr (Q * Q)) (reqs : list (Q * Request))
  : gmap pystr (Q * Q) * list bool :=
  match reqs with
  | [] => (bucket, [])
  | (now, req) :: rest =>
      let '(b1, ok) := ratelimit_mw bucket now req in
      let '(b2, oks) := serve b1 rest in
      (b2, ok :: oks)
  end.

End WithSettings.
End Middleware.

(** ** The paragraph fallback of app/extractor.py *)

Module Fallback.

(** [p and len(p.split()) >= 5] *)
Definition keep (p : pystr) : bool :=
  PyStr.truthy p && (5 <=? length (split p))%nat.

(** The text of [fallback_body_text_bs4] for the texts [ps] of the
    paragraphs in scope, in document order. *)
Definition fallback_text (ps : list pystr) : pystr :=
  join [SP] (List.filter keep ps).

End Fallback.
(** * Properties *)

(** ** Python strings *)

Module PyStrFacts.

Lemma eqb_eq (a b : pystr) : PyStr.eqb a b = true <-> a = b.
Proof.
  revert b; induction a as [|x a IH]; intros [|y b]; simpl; split;
    try congruence; try reflexivity.
  - intros H. apply andb_true_iff in H as [Hx Hr].
    apply N.eqb_eq in Hx. apply IH in Hr. congruence.
  - intros H. injection H as -> ->. rewrite N.eqb_refl. simpl. now apply IH.
Qed.

Lemma eqb_refl (a : pystr) : PyStr.eqb a a = true.
Proof. now apply eqb_eq. Qed.

Lemma eqb_neq (a b : pystr) : PyStr.eqb a b = false <-> a <> b.
Proof.
  split.
  - intros H E. apply eqb_eq in E. congruence.
  - intros H. destruct (PyStr.eqb a b) eqn:E; [|reflexivity].
    apply eqb_eq in E. contradiction.
Qed.

End PyStrFacts.

(** ** The file cache *)

Module CacheFacts.
Section Facts.
Context (P : Platform) (repr : json -> pystr).

Lemma Qltb_false (a b : Q) : (b <= a)%Q -> Cache.Qltb a b = false.
Proof.
  intros Hle. unfold Cache.Qltb.
  apply Qle_bool_iff in Hle. now rewrite Hle.
Qed.

Lemma Qltb_true (a b : Q) : (a < b)%Q -> Cache.Qltb a b = true.
Proof.
  intros Hlt. unfold Cache.Qltb.
  destruct (Qle_bool b a) eqn:E; [|reflexivity].
  apply Qle_bool_iff in E. exfalso. eapply Qlt_not_le; eauto.
Qed.

(** [set] leaves the entry under the path of the URL. *)
Lemma set_lookup fs now base url etag payload ttl :
  Cache.set P fs now base url etag payload ttl
    !! Cache._path base (Cache._hash_key P url)
  = Some (Cache.Parsed (JDict (Cache.blob etag now ttl payload))).
Proof.
  unfold Cache.set. rewrite lookup_insert_eq. now rewrite lookup_insert_eq.
Qed.

Lemma blob_members etag now ttl payload :
  Cache.members (Cache.blob etag now ttl payload)
    (JStr etag) (JFloat now) (JInt ttl) payload.
Proof. split; reflexivity. Qed.

(** An entry whose time to live is not positive, or whose age is within
    it, is returned. *)
Lemma read_fresh now data e p ttl fetched tj fj :
  Cache.members data e fj tj p ->
  to_int P tj = Some ttl -> to_float P fj = Some fetched ->
  ((0 < ttl)%Z -> (now - fetched <= inject_Z ttl)%Q) ->
  Cache.read_entry P repr now (Cache.Parsed (JDict data))
  = Some {| Cache.etag := Cache.str_of repr e; Cache.fetched_at := fetched;
            Cache.ttl := ttl; Cache.payload := p |}.
Proof.
  intros [Ht Hf He Hp] Hti Hfl Hfresh. unfold Cache.read_entry, as_dict.
  rewrite Ht, Hf, Hti, Hfl, He, Hp.
  destruct (0 <? ttl)%Z eqn:Hpos; [|reflexivity].
  apply Z.ltb_lt in Hpos. now rewrite Qltb_false by auto.
Qed.

(** An entry older than its positive time to live is not. *)
Lemma read_stale now data ttl fetched :
  to_int P (get_or (py "ttl") (JInt 0) data) = Some ttl ->
  to_float P (get_or (py "fetched_at") (JInt 0) data) = Some fetched ->
  (0 < ttl)%Z -> (inject_Z ttl < now - fetched)%Q ->
  Cache.read_entry P repr now (Cache.Parsed (JDict data)) = None.
Proof.
  intros Hti Hfl Hpos Hold. unfold Cache.read_entry, as_dict.
  rewrite Hti, Hfl. apply Z.ltb_lt in Hpos. rewrite Hpos.
  now rewrite Qltb_true.
Qed.

Lemma get_after_set fs t0 t1 base url etag payload ttl :
  ((0 < ttl)%Z -> (t1 - t0 <= inject_Z ttl)%Q) ->
  Cache.get P repr (Cache.set P fs t0 base url etag payload ttl) t1 base url
  = (Cache.set P fs t0 base url etag payload ttl,
     Some {| Cache.etag := etag; Cache.fetched_at := t0;
             Cache.ttl := ttl; Cache.payload := payload |}).
Proof.
  intros Hfresh. unfold Cache.get. rewrite set_lookup.
  erewrite read_fresh; eauto using blob_members; reflexivity.
Qed.

(** [get] never changes the files. *)
Lemma get_keeps_files fs now base url :
  fst (Cache.get P repr fs now base url) = fs.
Proof. unfold Cache.get. now destruct (fs !! _). Qed.

End Facts.
End CacheFacts.

(** ** The routes *)

Module MainFacts.
Section Facts.
Context (P : Platform) (L : Nlp) (H : Html) (repr : json -> pystr).
Context (S : Settings).

Lemma inm_is_true inm etag : Main.inm_is inm etag = true <-> inm = Some etag.
Proof.
  destruct inm as [v|]; simpl; [|split; discriminate].
  rewrite PyStrFacts.eqb_eq. split; congruence.
Qed.

Lemma etag_matches_true cached etag :
  Main.etag_matches cached etag = true
  <-> exists c, cached = Some c /\ Cache.etag c = etag.
Proof.
  destruct cached as [c|]; simpl.
  - rewrite PyStrFacts.eqb_eq. split; [eauto|]. now intros (c' & [= <-] & ?).
  - split; [discriminate|]. now intros (c' & ? & ?).
Qed.

Lemma get_eta fs now base url :
  Cache.get P repr fs now base url
  = (fs, snd (Cache.get P repr fs now base url)).
Proof. unfold Cache.get. now destruct (fs !! _). Qed.

Lemma parse_unfold w fs inm url :
  let etag := Main._etag_for P url in
  let c1 := snd (Cache.get P repr fs (clock_get1 w) (CACHE_DIR S) url) in
  let c2 := snd (Cache.get P repr fs (clock_get2 w) (CACHE_DIR S) url) in
  Main.parse P L H repr S w fs inm url
  = if Main.inm_is inm etag && Main.etag_matches c1 etag
    then (fs, inr (Main.Plain 304))
    else
      match c2 with
      | Some c =>
          if PyStr.eqb (Cache.etag c) etag
          then (fs, inr (Main.JSONResponse (Cache.payload c)
                           (Main._cache_headers etag
                              (DEFAULT_CACHE_TTL_SECONDS S))))
          else Main.on_miss P L H S w fs url
      | None => Main.on_miss P L H S w fs url
      end.
Proof.
  intros etag c1 c2. unfold Main.parse. fold etag.
  assert (Hhit : forall c,
    (if PyStr.eqb (Cache.etag c) etag
     then (fs, inr (Main.JSONResponse (Cache.payload c)
                      (Main._cache_headers (Cache.etag c)
                         (DEFAULT_CACHE_TTL_SECONDS S))))
     else Main.on_miss P L H S w fs url)
    = (if PyStr.eqb (Cache.etag c) etag
       then (fs, inr (Main.JSONResponse (Cache.payload c)
                        (Main._cache_headers etag
                           (DEFAULT_CACHE_TTL_SECONDS S))))
       else Main.on_miss P L H S w fs url)).
  { intros c. destruct (PyStr.eqb (Cache.etag c) etag) eqn:E; [|reflexivity].
    apply PyStrFacts.eqb_eq in E. now rewrite E. }
  destruct (Main.inm_is inm etag); simpl.
  - rewrite (get_eta fs (clock_get1 w)). fold c1.
    destruct (Main.etag_matches c1 etag); [reflexivity|].
    rewrite (get_eta fs (clock_get2 w)). fold c2.
    destruct c2 as [c|]; [apply Hhit|reflexivity].
  - rewrite (get_eta fs (clock_get2 w)). fold c2.
    destruct c2 as [c|]; [apply Hhit|reflexivity].
Qed.

Lemma etag_header etag ttl :
  Main.header_get (py "ETag") (Main._cache_headers etag ttl) = Some etag.
Proof. reflexivity. Qed.

(** Every answer of [parse] that is not the bare 304 is a [JSONResponse]
    carrying the tag of the URL. *)
Lemma parse_answers w fs inm url fs' resp :
  Main.parse P L H repr S w fs inm url = (fs', inr resp) ->
  (resp = Main.Plain 304 /\ fs' = fs
   /\ Main.inm_is inm (Main._etag_for P url)
      && Main.etag_matches
           (snd (Cache.get P repr fs (clock_get1 w) (CACHE_DIR S) url))
           (Main._etag_for P url) = true)
  \/ (exists body,
        resp = Main.JSONResponse body
                 (Main._cache_headers (Main._etag_for P url)
                    (DEFAULT_CACHE_TTL_SECONDS S))
        /\ Main.inm_is inm (Main._etag_for P url)
           && Main.etag_matches
                (snd (Cache.get P repr fs (clock_get1 w) (CACHE_DIR S) url))
                (Main._etag_for P url) = false).
Proof.
  rewrite parse_unfold.
  destruct (Main.inm_is _ _ && Main.etag_matches _ _) eqn:E.
  - intros [= <- <-]. now left.
  - intros Hr. right.
    assert (Hmiss : Main.on_miss P L H S w fs url = (fs', inr resp) ->
              exists body, resp = Main.JSONResponse body
                (Main._cache_headers (Main._etag_for P url)
                   (DEFAULT_CACHE_TTL_SECONDS S))).
    { unfold Main.on_miss. destruct (Main.core_parse P L H S w url);
        intros [= <- <-]; eauto. }
    destruct (snd (Cache.get P repr fs (clock_get2 w) (CACHE_DIR S) url))
      as [c|].
    + destruct (PyStr.eqb (Cache.etag c) (Main._etag_for P url)).
      * injection Hr as <- <-. eauto.
      * destruct (Hmiss Hr) as [body ->]. eauto.
    + destruct (Hmiss Hr) as [body ->]. eauto.
Qed.

(** After a first request that missed the cache and parsed the page, a
    request that presents the tag before the entry expires gets 304. *)
Lemma second_request_not_modified w w2 fs inm url result :
  Main.inm_is inm (Main._etag_for P url)
  && Main.etag_matches
       (snd (Cache.get P repr fs (clock_get1 w) (CACHE_DIR S) url))
       (Main._etag_for P url) = false ->
  Main.etag_matches
    (snd (Cache.get P repr fs (clock_get2 w) (CACHE_DIR S) url))
    (Main._etag_for P url) = false ->
  Main.core_parse P L H S w url = inr result ->
  ((0 < CACHE_TTL_SECONDS S)%Z ->
   (clock_get1 w2 - clock_set w <= inject_Z (CACHE_TTL_SECONDS S))%Q) ->
  let r := Main.parse P L H repr S w fs inm url in
  snd r = inr (Main.JSONResponse (JDict result)
                 (Main._cache_headers (Main._etag_for P url)
                    (DEFAULT_CACHE_TTL_SECONDS S)))
  /\ Main.parse P L H repr S w2 (fst r) (Some (Main._etag_for P url)) url
     = (fst r, inr (Main.Plain 304)).
Proof.
  intros H1 H2 Hcore Hfresh r. subst r. rewrite parse_unfold, H1.
  assert (Hr : match snd (Cache.get P repr fs (clock_get2 w) (CACHE_DIR S) url)
               with
               | Some c =>
                   if PyStr.eqb (Cache.etag c) (Main._etag_for P url)
                   then (fs, inr (Main.JSONResponse (Cache.payload c)
                                    (Main._cache_headers (Main._etag_for P url)
                                       (DEFAULT_CACHE_TTL_SECONDS S))))
                   else Main.on_miss P L H S w fs url
               | None => Main.on_miss P L H S w fs url
               end = Main.on_miss P L H S w fs url).
  { destruct (snd (Cache.get P repr fs (clock_get2 w) (CACHE_DIR S) url))
      as [c|]; [|reflexivity].
    simpl in H2. now rewrite H2. }
  rewrite Hr. unfold Main.on_miss. rewrite Hcore. simpl. split; [reflexivity|].
  rewrite parse_unfold.
  rewrite (CacheFacts.get_after_set P repr) by exact Hfresh.
  simpl. now rewrite !PyStrFacts.eqb_refl.
Qed.

End Facts.
End MainFacts.

(** ** Specified properties of the cache *)

(** C5. Round trip: [set(base_dir, url, etag, payload, ttl)] followed by
    [get(base_dir, url)] before the entry expires (its time to live is not
    positive, or the time between the two calls is within it) returns an
    entry with the etag and the payload that were passed to [set]. *)
Theorem cache_set_then_get (P : Platform) (repr : json -> pystr)
    (fs : gmap pystr Cache.file) (t0 t1 : Q) (base url etag : pystr)
    (payload : json) (ttl : Z) :
  ((0 < ttl)%Z -> (t1 - t0 <= inject_Z ttl)%Q) ->
  exists entry,
    snd (Cache.get P repr (Cache.set P fs t0 base url etag payload ttl)
           t1 base url) = Some entry
    /\ Cache.etag entry = etag
    /\ Cache.payload entry = payload.
Proof.
  intros Hfresh. rewrite (CacheFacts.get_after_set P repr) by exact Hfresh.
  eexists. split; [reflexivity|]. split; reflexivity.
Qed.

Lemma cache_set_then_get_witness :
  exists entry,
    snd (Cache.get Sample.platform Sample.repr
           (Cache.set Sample.platform ∅ 100 (py "./data/cache") Sample.url
              (py "W/tag") (JDict [(py "title", JStr (py "Sample"))]) 3600)
           160 (py "./data/cache") Sample.url) = Some entry
    /\ Cache.etag entry = py "W/tag"
    /\ Cache.payload entry = JDict [(py "title", JStr (py "Sample"))].
Proof.
  apply (cache_set_then_get Sample.platform Sample.repr ∅ 100 160).
  intros _. unfold Qle. simpl. lia.
Defined.

(** C4. Soft expiry: an entry file whose time to live is positive and
    whose age, the clock reading minus [fetched_at], strictly exceeds it
    makes [get] return no entry, while the file stays where it is; an entry
    whose time to live is 0 is returned at every clock reading. *)
Theorem cache_soft_expiry (P : Platform) (repr : json -> pystr)
    (fs : gmap pystr Cache.file) (now : Q) (base url : pystr) (data : dict)
    (ttl : Z) (fetched : Q) :
  fs !! Cache._path base (Cache._hash_key P url)
    = Some (Cache.Parsed (JDict data)) ->
  to_int P (get_or (py "ttl") (JInt 0) data) = Some ttl ->
  to_float P (get_or (py "fetched_at") (JInt 0) data) = Some fetched ->
  ((0 < ttl)%Z -> (inject_Z ttl < now - fetched)%Q ->
   Cache.get P repr fs now base url = (fs, None)
   /\ fst (Cache.get P repr fs now base url)
        !! Cache._path base (Cache._hash_key P url)
      = Some (Cache.Parsed (JDict data)))
  /\ (ttl = 0%Z ->
      forall e p,
        dget (py "etag") data = Some e ->
        dget (py "payload") data = Some p ->
        Cache.get P repr fs now base url
        = (fs, Some {| Cache.etag := Cache.str_of repr e;
                       Cache.fetched_at := fetched;
                       Cache.ttl := 0;
                       Cache.payload := p |})).
Proof.
  intros Hfile Httl Hfetched. split.
  - intros Hpos Hold.
    assert (Hget : Cache.get P repr fs now base url = (fs, None)).
    { unfold Cache.get. rewrite Hfile.
      now rewrite (CacheFacts.read_stale P repr now data ttl fetched). }
    rewrite Hget. split; [reflexivity|exact Hfile].
  - intros -> e p He Hp. unfold Cache.get. rewrite Hfile.
    erewrite CacheFacts.read_fresh; eauto.
    + now split.
    + intros Hpos. lia.
Qed.

Lemma cache_soft_expiry_witness :
  let fs := Cache.set Sample.platform ∅ 100 (py "./data/cache") Sample.url
              (py "W/tag") JNull 3600 in
  Cache.get Sample.platform Sample.repr fs 3701 (py "./data/cache") Sample.url
  = (fs, None).
Proof.
  intros fs.
  apply (cache_soft_expiry Sample.platform Sample.repr fs 3701
           (py "./data/cache") Sample.url
           (Cache.blob (py "W/tag") 100 3600 JNull) 3600 100).
  - apply CacheFacts.set_lookup.
  - reflexivity.
  - reflexivity.
  - lia.
  - unfold Qlt. simpl. lia.
Defined.

(** ** Specified properties of the routes *)

(** C10. Each projection endpoint answers 304 at once when the
    If-None-Match header equals its suffixed entity tag: whatever files the
    cache directory holds (none at all, or an expired entry), and whatever
    the network would answer, the response is the bare 304 and the files
    are untouched. *)
Theorem projection_304_without_cache (P : Platform) (L : Nlp) (H : Html)
    (repr : json -> pystr) (S : Settings) (w : World)
    (fs : gmap pystr Cache.file) (url : pystr) :
  Main.metadata P L H repr S w fs
    (Some (Main._etag_for P url ++ py "-meta")) url
  = (fs, inr (Main.Plain 304))
  /\ Main.summary P L H repr S w fs
       (Some (Main._etag_for P url ++ py "-sum")) url
     = (fs, inr (Main.Plain 304))
  /\ Main.preview P L H repr S w fs
       (Some (Main._etag_for P url ++ py "-prev")) url
     = (fs, inr (Main.Plain 304)).
Proof.
  unfold Main.metadata, Main.summary, Main.preview, Main.projected.
  unfold Main.inm_is. now rewrite !PyStrFacts.eqb_refl.
Qed.

(** C1. [parse] answers 304, with no body, exactly when the If-None-Match
    header equals the entity tag of the URL and [get] returns an entry for
    the URL whose stored etag is that tag.  Every 200 answer carries the tag
    of the URL in its ETag header, so two requests for one URL see the same
    tag; and after a first request that missed the cache and parsed the
    page, a second one that presents the tag before the entry expires gets
    the 304. *)
Theorem parse_not_modified (P : Platform) (L : Nlp) (H : Html)
    (repr : json -> pystr) (S : Settings) (w : World)
    (fs : gmap pystr Cache.file) (inm : option pystr) (url : pystr) :
  let etag := Main._etag_for P url in
  let r := Main.parse P L H repr S w fs inm url in
  let cached := snd (Cache.get P repr fs (clock_get1 w) (CACHE_DIR S) url) in
  ((exists resp, snd r = inr resp /\ Main.status_of resp = 304%Z)
   <-> (inm = Some etag
        /\ exists c, cached = Some c /\ Cache.etag c = etag))
  /\ (forall resp,
        snd r = inr resp -> Main.status_of resp = 304%Z ->
        Main.body_of resp = None /\ fst r = fs)
  /\ (forall resp,
        snd r = inr resp -> Main.status_of resp = 200%Z ->
        Main.header_get (py "ETag") (Main.headers_of resp) = Some etag)
  /\ (forall w2 result,
        Main.inm_is inm etag && Main.etag_matches cached etag = false ->
        Main.etag_matches
          (snd (Cache.get P repr fs (clock_get2 w) (CACHE_DIR S) url)) etag
          = false ->
        Main.core_parse P L H S w url = inr result ->
        ((0 < CACHE_TTL_SECONDS S)%Z ->
         (clock_get1 w2 - clock_set w <= inject_Z (CACHE_TTL_SECONDS S))%Q) ->
        Main.header_get (py "ETag")
          (match snd r with inr resp => Main.headers_of resp | inl _ => [] end)
          = Some etag
        /\ Main.parse P L H repr S w2 (fst r) (Some etag) url
           = (fst r, inr (Main.Plain 304))).
Proof.
  intros etag r cached.
  assert (Hcond : Main.inm_is inm etag && Main.etag_matches cached etag = true
                  <-> inm = Some etag
                      /\ exists c, cached = Some c /\ Cache.etag c = etag).
  { rewrite andb_true_iff, MainFacts.inm_is_true.
    now rewrite MainFacts.etag_matches_true. }
  assert (Hans : forall resp, snd r = inr resp ->
            (resp = Main.Plain 304 /\ fst r = fs
             /\ Main.inm_is inm etag && Main.etag_matches cached etag = true)
            \/ (exists body,
                  resp = Main.JSONResponse body
                           (Main._cache_headers etag
                              (DEFAULT_CACHE_TTL_SECONDS S))
                  /\ Main.inm_is inm etag && Main.etag_matches cached etag
                     = false)).
  { intros resp Hr. destruct r as [fs' o] eqn:Er. simpl in Hr. subst o.
    apply (MainFacts.parse_answers P L H repr S) in Er. exact Er. }
  split; [|split; [|split]].
  - split.
    + intros (resp & Hr & Hst). apply Hcond.
      destruct (Hans resp Hr) as [(_ & _ & Hc)|(body & -> & _)];
        [exact Hc|discriminate].
    + intros Hc. apply Hcond in Hc. exists (Main.Plain 304).
      subst r. rewrite MainFacts.parse_unfold. fold etag cached.
      now rewrite Hc.
  - intros resp Hr Hst.
    destruct (Hans resp Hr) as [(-> & Hfs & _)|(body & -> & _)];
      [now split|discriminate].
  - intros resp Hr Hst.
    destruct (Hans resp Hr) as [(-> & _ & _)|(body & -> & _)];
      [discriminate|reflexivity].
  - intros w2 result H1 H2 Hcore Hfresh.
    destruct (MainFacts.second_request_not_modified P L H repr S
                w w2 fs inm url result H1 H2 Hcore Hfresh) as [Hr Hsecond].
    fold r in Hr, Hsecond. split; [|exact Hsecond].
    now rewrite Hr.
Qed.

Lemma parse_not_modified_witness :
  let w := Sample.world (Sample.serving Sample.long_page) 100 in
  let w2 := Sample.world (Sample.serving Sample.long_page) 160 in
  let etag := Main._etag_for Sample.platform Sample.url in
  let r := Main.parse Sample.platform Sample.nlp Sample.html Sample.repr
             Sample.settings w ∅ None Sample.url in
  Main.parse Sample.platform Sample.nlp Sample.html Sample.repr
    Sample.settings w2 (fst r) (Some etag) Sample.url
  = (fst r, inr (Main.Plain 304)).
Proof.
  intros w w2 etag r.
  destruct (Main.core_parse Sample.platform Sample.nlp Sample.html
              Sample.settings w Sample.url) as [e|result] eqn:Hcore;
    [vm_compute in Hcore; discriminate|].
  destruct (parse_not_modified Sample.platform Sample.nlp Sample.html
              Sample.repr Sample.settings w ∅ None Sample.url)
    as (_ & _ & _ & Hsecond).
  apply (Hsecond w2 result); [reflexivity|reflexivity|exact Hcore|].
  intros _. unfold Qle. simpl. lia.
Defined.

(** ** Specified properties of the parse pipeline *)

Module PipelineFacts.
Section Facts.
Context (P : Platform) (L : Nlp) (H : Html) (S : Settings).

(** Once the page is fetched as HTML and its cleaned text is known,
    [core_parse] fails on a short text and returns a record otherwise. *)
Lemma core_parse_of_text w url page headers text :
  snd (Extractor.fetch_html H (net w) url) = inr (page, headers) ->
  contains (py "text/html")
    (lower (default [] (Main.header_get (py "content-type") headers)))
    = true ->
  Main.cleaned_text P H page url = Some text ->
  if (Utils.word_count P text <? 10)%Z
  then Main.core_parse P L H S w url = inl Main.too_little_text
  else exists payload,
         Main.core_parse P L H S w url = inr payload
         /\ dget (py "text") payload = Some (JStr text).
Proof.
  intros Hfetch Hctype Htext. unfold Main.core_parse. rewrite Hfetch, Hctype.
  simpl negb. cbv iota. unfold Main.cleaned_text in Htext.
  destruct (Extractor.merge_extraction H _ _ page url) as [e|[data used]];
    [discriminate|].
  destruct (Main.normalize_value _) as [n|]; [|discriminate].
  injection Htext as Htext. rewrite Htext.
  destruct (Utils.word_count P text <? 10)%Z eqn:Hwc.
  - now rewrite orb_true_r.
  - rewrite orb_false_r. destruct (PyStr.truthy text) eqn:Ht.
    + simpl negb. cbv iota.
      destruct (extract_published_at H page) as [pa ps].
      eexists. split; reflexivity.
    + exfalso. destruct text; [|discriminate].
      unfold Utils.word_count in Hwc. simpl in Hwc. discriminate.
Qed.

(** A record that [core_parse] returns holds a text of ten words or more
    and its word count. *)
Lemma core_parse_record w url payload :
  Main.core_parse P L H S w url = inr payload ->
  exists text,
    dget (py "text") payload = Some (JStr text)
    /\ (10 <= Utils.word_count P text)%Z
    /\ dget (py "word_count") payload
       = Some (JInt (Utils.word_count P text)).
Proof.
  unfold Main.core_parse.
  destruct (snd (Extractor.fetch_html H (net w) url)) as [e|[page headers]];
    [discriminate|].
  destruct (negb _); [discriminate|].
  destruct (Extractor.merge_extraction H _ _ page url) as [e|[data used]];
    [discriminate|].
  destruct (Main.normalize_value _) as [n|]; [|discriminate].
  set (text := Utils.clean_citations_and_spaces P n).
  destruct (negb (PyStr.truthy text) || (Utils.word_count P text <? 10)%Z)
    eqn:Hguard; [discriminate|].
  destruct (extract_published_at H page) as [pa ps].
  intros [= <-]. exists text.
  apply orb_false_iff in Hguard as [_ Hwc]. apply Z.ltb_ge in Hwc.
  split; [reflexivity|]. split; [exact Hwc|reflexivity].
Qed.

End Facts.
End PipelineFacts.

(** C2. For a URL whose extracted, cleaned body text has fewer than 10
    words, [core_parse] fails with the 422 "too little text" error, and so
    does [parse] whenever the cache does not answer: no record is returned
    and nothing is cached.  Conversely every record that [core_parse]
    returns has a body text of at least 10 words, and its [word_count]
    member says so. *)
Theorem short_text_is_rejected (P : Platform) (L : Nlp) (H : Html)
    (repr : json -> pystr) (S : Settings) (w : World) (url : pystr) :
  (forall page headers text,
      snd (Extractor.fetch_html H (net w) url) = inr (page, headers) ->
      contains (py "text/html")
        (lower (default [] (Main.header_get (py "content-type") headers)))
        = true ->
      Main.cleaned_text P H page url = Some text ->
      (Utils.word_count P text < 10)%Z ->
      Main.core_parse P L H S w url
        = inl (HTTPException 422
                 (py "parse_failed: too little text extracted"))
      /\ forall fs inm,
           Main.etag_matches
             (snd (Cache.get P repr fs (clock_get1 w) (CACHE_DIR S) url))
             (Main._etag_for P url) = false ->
           Main.etag_matches
             (snd (Cache.get P repr fs (clock_get2 w) (CACHE_DIR S) url))
             (Main._etag_for P url) = false ->
           Main.parse P L H repr S w fs inm url
           = (fs, inl (HTTPException 422
                         (py "parse_failed: too little text extracted"))))
  /\ (forall payload,
        Main.core_parse P L H S w url = inr payload ->
        exists text,
          dget (py "text") payload = Some (JStr text)
          /\ (10 <= Utils.word_count P text)%Z
          /\ dget (py "word_count") payload
             = Some (JInt (Utils.word_count P text))).
Proof.
  split.
  - intros page headers text Hfetch Hctype Htext Hshort.
    pose proof (PipelineFacts.core_parse_of_text P L H S w url page headers
                  text Hfetch Hctype Htext) as Hcore.
    apply Z.ltb_lt in Hshort. rewrite Hshort in Hcore.
    split; [exact Hcore|].
    intros fs inm H1 H2. rewrite MainFacts.parse_unfold, H1, andb_false_r.
    unfold Main.on_miss. rewrite Hcore.
    destruct (snd (Cache.get P repr fs (clock_get2 w) (CACHE_DIR S) url))
      as [c|]; [|reflexivity].
    simpl in H2. now rewrite H2.
  - apply PipelineFacts.core_parse_record.
Qed.

Lemma short_text_is_rejected_witness :
  Main.parse Sample.platform Sample.nlp Sample.html Sample.repr
    Sample.settings (Sample.world (Sample.serving Sample.short_page) 100)
    ∅ None Sample.url
  = (∅, inl (HTTPException 422
               (py "parse_failed: too little text extracted"))).
Proof.
  destruct (short_text_is_rejected Sample.platform Sample.nlp Sample.html
              Sample.repr Sample.settings
              (Sample.world (Sample.serving Sample.short_page) 100)
              Sample.url) as [Hshort _].
  apply (Hshort Sample.short_page
           [ (py "content-type", py "text/html; charset=utf-8") ]
           (py "Only five words of text.")).
  - reflexivity.
  - reflexivity.
  - reflexivity.
  - vm_compute. reflexivity.
  - reflexivity.
  - reflexivity.
Defined.

(** ** Specified properties of the fetcher *)

Module FetchFacts.
Section Facts.
Context (H : Html).

(** An answer with a 4xx or 5xx status makes the attempt fail with an
    error that the retry loop catches. *)
Lemma status_error_is_caught net url attempt r :
  net attempt url = Extractor.Got r ->
  (400 <= Extractor.status_code r <= 599)%Z ->
  Extractor.attempt_once H net url attempt
    = inl (HTTPStatusError (Extractor.status_code r))
  /\ Extractor.caught (HTTPStatusError (Extractor.status_code r)) = true.
Proof.
  intros Hget Hst. unfold Extractor.attempt_once, Extractor.raise_for_status.
  rewrite Hget.
  replace (Extractor.status_code r <=? 299)%Z with false
    by (symmetry; apply Z.leb_gt; lia).
  now rewrite andb_false_r.
Qed.

(** The loop from attempt [k] on, when attempt [k] decides the outcome. *)
Lemma fetch_over_returns net url k rest slept ok :
  Extractor.attempt_once H net url k = inr ok ->
  Extractor.fetch_over H net url (k :: rest) slept = (slept, inr ok).
Proof. intros Hk. simpl. now rewrite Hk. Qed.

Lemma fetch_over_raises net url k rest slept e :
  Extractor.attempt_once H net url k = inl e ->
  Extractor.caught e = false \/ k = 2%nat ->
  Extractor.fetch_over H net url (k :: rest) slept = (slept, inl e).
Proof.
  intros Hk Hlast. simpl. rewrite Hk.
  destruct (Extractor.caught e); [|reflexivity].
  destruct Hlast as [Hc | ->]; [discriminate|reflexivity].
Qed.

Lemma fetch_over_retries net url k rest slept e :
  Extractor.attempt_once H net url k = inl e ->
  Extractor.caught e = true -> k <> 2%nat ->
  Extractor.fetch_over H net url (k :: rest) slept
  = Extractor.fetch_over H net url rest (slept ++ [Extractor.backoff k]).
Proof.
  intros Hk Hc Hne. simpl. rewrite Hk, Hc.
  apply Nat.eqb_neq in Hne. now rewrite Hne.
Qed.

(** The sleeps are 0.5 s after the first failure and 1 s after the
    second. *)
Lemma backoff_values :
  (Extractor.backoff 0 == 0.5)%Q /\ (Extractor.backoff 1 == 1)%Q.
Proof. split; reflexivity. Qed.

End Facts.
End FetchFacts.

(** C6, as the code has it.  [fetch_html] makes up to 3 attempts.  An
    attempt that fails with a timeout, a transport error or an HTTP error
    status (4xx or 5xx, which [raise_for_status] turns into an [HTTPError])
    is followed, unless it was the third, by a sleep of [0.5 * 2^attempt]
    seconds and a new attempt; the third failure is raised again.  Any
    other error is raised at once, and the first attempt that succeeds
    gives the result.  In particular a 4xx or 5xx answer to the first
    attempt is not raised: the fetcher sleeps 0.5 s and tries again. *)
Theorem fetch_retry_policy (H : Html) (net : Extractor.network)
    (url : pystr) (k : nat) :
  (k <= 2)%nat ->
  (forall i, (i < k)%nat ->
     exists e, Extractor.attempt_once H net url i = inl e
               /\ Extractor.caught e = true) ->
  (forall ok,
      Extractor.attempt_once H net url k = inr ok ->
      Extractor.fetch_html H net url
      = (List.map Extractor.backoff (seq 0 k), inr ok))
  /\ (forall e,
        Extractor.attempt_once H net url k = inl e ->
        Extractor.caught e = false \/ k = 2%nat ->
        Extractor.fetch_html H net url
        = (List.map Extractor.backoff (seq 0 k), inl e))
  /\ (forall r,
        net k url = Extractor.Got r ->
        (400 <= Extractor.status_code r <= 599)%Z ->
        Extractor.attempt_once H net url k
          = inl (HTTPStatusError (Extractor.status_code r))
        /\ Extractor.caught (HTTPStatusError (Extractor.status_code r)) = true
        /\ ((k < 2)%nat ->
            Extractor.fetch_html H net url
            = Extractor.fetch_over H net url (seq (S k) (2 - k))
                (List.map Extractor.backoff (seq 0 (S k))))).
Proof.
  intros Hk Hprev.
  assert (Hreach : Extractor.fetch_html H net url
                   = Extractor.fetch_over H net url (seq k (3 - k))
                       (List.map Extractor.backoff (seq 0 k))).
  { unfold Extractor.fetch_html.
    destruct k as [|[|[|k]]]; [reflexivity| | |lia].
    - destruct (Hprev 0%nat) as (e0 & H0 & C0); [lia|].
      simpl seq. now rewrite (FetchFacts.fetch_over_retries H _ _ _ _ _ e0).
    - destruct (Hprev 0%nat) as (e0 & H0 & C0); [lia|].
      destruct (Hprev 1%nat) as (e1 & H1 & C1); [lia|].
      simpl seq. rewrite (FetchFacts.fetch_over_retries H _ _ _ _ _ e0) by easy.
      now rewrite (FetchFacts.fetch_over_retries H _ _ _ _ _ e1). }
  assert (Hseq : seq k (3 - k) = k :: seq (S k) (2 - k)).
  { destruct k as [|[|[|k]]]; [reflexivity|reflexivity|reflexivity|lia]. }
  split; [|split].
  - intros ok Hok. rewrite Hreach, Hseq.
    now apply FetchFacts.fetch_over_returns.
  - intros e He Hlast. rewrite Hreach, Hseq.
    now apply FetchFacts.fetch_over_raises.
  - intros r Hget Hst.
    destruct (FetchFacts.status_error_is_caught H net url k r Hget Hst)
      as [Hfail Hcaught].
    split; [exact Hfail|]. split; [exact Hcaught|].
    intros Hlt. rewrite Hreach, Hseq.
    rewrite (FetchFacts.fetch_over_retries H _ _ _ _ _ _ Hfail Hcaught)
      by lia.
    f_equal. rewrite seq_S, map_app. reflexivity.
Qed.

Lemma fetch_retry_policy_witness :
  Extractor.fetch_html Sample.html Sample.flaky Sample.url
  = (List.map Extractor.backoff (seq 0 1),
     inr (Sample.long_page,
          [ (py "content-type", py "text/html; charset=utf-8") ])).
Proof.
  destruct (fetch_retry_policy Sample.html Sample.flaky Sample.url 1)
    as [Hok _].
  - lia.
  - intros i Hi. assert (i = 0%nat) as -> by lia.
    exists (HTTPStatusError 500). split; reflexivity.
  - apply Hok. reflexivity.
Defined.

(** C6 as specified fails: the first GET is answered 500, and
    [fetch_html] does not raise but sleeps 0.5 s, asks again and returns
    the page of the second answer. *)
Lemma status_error_is_retried :
  Sample.flaky 0%nat Sample.url
    = Extractor.Got (Sample.response 500 (py "Internal Server Error"))
  /\ Extractor.fetch_html Sample.html Sample.flaky Sample.url
     = ([0.5%Q],
        inr (Sample.long_page,
             [ (py "content-type", py "text/html; charset=utf-8") ]))
  /\ Extractor.fetch_html Sample.html Sample.flaky Sample.url
     <> ([], inl (HTTPStatusError 500)).
Proof.
  split; [reflexivity|]. split; [reflexivity|].
  intros Heq. vm_compute in Heq. discriminate.
Qed.

(** ** Specified properties of the projections *)

(** C8, as the code has it.  For a record whose summary and body text are
    strings, the snippet of the preview is built from the summary when it is
    non-empty and from the body text otherwise; a chosen text of more than
    300 code points is cut to its first 280 followed by the ellipsis, and a
    chosen text of at most 300 code points is returned whole. *)
Theorem preview_snippet (full : dict) (summary text : pystr) :
  Json.get (py "summary") full = JStr summary ->
  Json.get (py "text") full = JStr text ->
  let chosen := if PyStr.truthy summary then summary else text in
  Main.snippet_of full
    = JStr (if (300 <? length chosen)%nat
            then firstn 280 chosen ++ [Main.ELLIPSIS]
            else chosen)
  /\ forall proj,
       Main._project_preview (JDict full) = Some proj ->
       exists d, proj = JDict d
                 /\ dget (py "snippet") d = Some (Main.snippet_of full).
Proof.
  intros Hs Ht chosen. split.
  - unfold Main.snippet_of, or_else. rewrite Hs, Ht. subst chosen. simpl.
    destruct (PyStr.truthy summary).
    + now destruct (300 <? length summary)%nat.
    + destruct (PyStr.truthy text) eqn:Etext.
      * now destruct (300 <? length text)%nat.
      * destruct text; [reflexivity|discriminate].
  - intros proj. unfold Main._project_preview. simpl.
    destruct (Main.site_of full); [|discriminate].
    intros [= <-]. eexists. split; reflexivity.
Qed.

Lemma preview_snippet_witness :
  Main.snippet_of [ (py "summary", JStr []);
                    (py "text", JStr (repeat 97%N 301)) ]
  = JStr (repeat 97%N 280 ++ [Main.ELLIPSIS]).
Proof.
  apply (preview_snippet
           [ (py "summary", JStr []); (py "text", JStr (repeat 97%N 301)) ]
           [] (repeat 97%N 301)); reflexivity.
Defined.

(** C8 as specified fails: a summary of 290 code points is longer
    than 280 and yet is returned whole, without the ellipsis. *)
Lemma snippet_of_290_is_whole :
  let summary := repeat 97%N 290 in
  let full := [ (py "summary", JStr summary); (py "text", JStr []) ] in
  (280 < length summary)%nat
  /\ Main.snippet_of full = JStr summary
  /\ Main.snippet_of full <> JStr (firstn 280 summary ++ [Main.ELLIPSIS]).
Proof.
  intros summary full. split; [|split].
  - vm_compute. lia.
  - reflexivity.
  - intros Heq. vm_compute in Heq. discriminate.
Qed.

(** ** Specified properties of the sentiment score *)

Module EnrichFacts.

Lemma clamp_bounds (lo hi x : Q) :
  (lo <= hi)%Q -> (lo <= Enrich.clamp lo hi x <= hi)%Q.
Proof.
  intros Hle. unfold Enrich.clamp. split.
  - apply Q.le_max_r.
  - apply Q.max_lub; [apply Q.le_min_r|exact Hle].
Qed.

(** Rounding to the nearest integer stays between integer bounds. *)
Lemma round_half_even_bounds (lo hi : Z) (x : Q) :
  (inject_Z lo <= x <= inject_Z hi)%Q ->
  (lo <= Enrich.round_half_even x <= hi)%Z.
Proof.
  intros [Hlo Hhi].
  assert (Hfl : (lo <= Qfloor x)%Z).
  { rewrite <- (Qfloor_Z lo). now apply Qfloor_resp_le. }
  assert (Hfh : (Qfloor x <= hi)%Z).
  { rewrite <- (Qfloor_Z hi). now apply Qfloor_resp_le. }
  unfold Enrich.round_half_even.
  destruct (Z.eq_dec (Qfloor x) hi) as [Heq|Hne].
  - assert (Hlt : (x - inject_Z (Qfloor x) < 1 # 2)%Q).
    { rewrite Heq. apply Qle_lt_trans with (y := 0%Q); [|reflexivity].
      apply (Qplus_le_l _ _ (inject_Z hi)). ring_simplify. exact Hhi. }
    pose proof (proj1 (Qlt_alt _ _) Hlt) as Hc. rewrite Hc. lia.
  - destruct (x - inject_Z (Qfloor x) ?= 1 # 2)%Q; [|lia|lia].
    destruct (Z.even (Qfloor x)); lia.
Qed.

Lemma round4_bounds (b : Z) (x : Q) :
  (inject_Z (- b) / 10000 <= x <= inject_Z b / 10000)%Q ->
  (inject_Z (- b) / 10000 <= Enrich.round4 x <= inject_Z b / 10000)%Q.
Proof.
  intros [Hlo Hhi]. unfold Enrich.round4.
  assert (Hpos : (0 < 10000)%Q) by reflexivity.
  assert (Hr : (- b <= Enrich.round_half_even (x * 10000) <= b)%Z).
  { apply round_half_even_bounds. split.
    - assert (He : (inject_Z (- b) == inject_Z (- b) / 10000 * 10000)%Q)
        by (field; discriminate).
      rewrite He. apply Qmult_le_compat_r; [exact Hlo|discriminate].
    - assert (He : (inject_Z b == inject_Z b / 10000 * 10000)%Q)
        by (field; discriminate).
      rewrite He. apply Qmult_le_compat_r; [exact Hhi|discriminate]. }
  destruct Hr as [Hr1 Hr2]. split.
  - apply Qmult_le_compat_r; [|discriminate]. now rewrite <- Zle_Qle.
  - apply Qmult_le_compat_r; [|discriminate]. now rewrite <- Zle_Qle.
Qed.

Lemma round4_within (b : Z) (lo hi x : Q) :
  (lo == inject_Z (- b) / 10000)%Q -> (hi == inject_Z b / 10000)%Q ->
  (lo <= x <= hi)%Q -> (lo <= Enrich.round4 x <= hi)%Q.
Proof.
  intros Hlo Hhi Hx. rewrite Hlo, Hhi in *. now apply round4_bounds.
Qed.

Lemma label_of_small (c : Q) :
  (-0.04 <= c <= 0.04)%Q -> Enrich.label_of c = Enrich.neutral.
Proof.
  intros [Hlo Hhi]. unfold Enrich.label_of.
  rewrite CacheFacts.Qltb_false.
  - rewrite CacheFacts.Qltb_false; [reflexivity|].
    apply Qle_trans with (y := (-0.04)%Q); [discriminate|exact Hlo].
  - apply Qle_trans with (y := 0.04%Q); [exact Hhi|discriminate].
Qed.

Section WithNlp.
Context (L : Nlp).

(** What the [try] block returns when nothing raises. *)
Lemma scored_bounds sample source_url r :
  Enrich.scored L sample source_url = Some r ->
  (-0.6 <= Enrich.score r <= 0.6)%Q
  /\ (Enrich.in_neutral_domain source_url = true ->
      (-0.04 <= Enrich.score r <= 0.04)%Q
      /\ Enrich.label r = Enrich.neutral).
Proof.
  unfold Enrich.scored. destruct (vader_ready L); [|discriminate].
  destruct (Enrich.compound L sample) as [comp|]; [|discriminate].
  destruct (Enrich.in_neutral_domain source_url); intros [= <-]; simpl.
  - assert (Hc : (-0.04 <= Enrich.clamp (-0.04) 0.04 comp <= 0.04)%Q)
      by (apply clamp_bounds; discriminate).
    assert (Hr : (-0.04 <= Enrich.round4 (Enrich.clamp (-0.04) 0.04 comp)
                  <= 0.04)%Q)
      by (apply (round4_within 400); [reflexivity|reflexivity|exact Hc]).
    split.
    + destruct Hr as [Hr1 Hr2]. split.
      * apply Qle_trans with (y := (-0.04)%Q); [discriminate|exact Hr1].
      * apply Qle_trans with (y := 0.04%Q); [exact Hr2|discriminate].
    + intros _. split; [exact Hr|now apply label_of_small].
  - split; [|discriminate].
    apply (round4_within 6000); [reflexivity|reflexivity|].
    apply clamp_bounds. discriminate.
Qed.

(** A URL that contains a listed domain is not empty. *)
Lemma neutral_domain_found u d :
  In d Enrich.NEUTRAL_DOMAINS -> contains d u = true ->
  Enrich.in_neutral_domain (Some u) = true.
Proof.
  intros Hin Hc. unfold Enrich.in_neutral_domain.
  apply andb_true_iff. split.
  - destruct u; [|reflexivity]. exfalso.
    simpl in Hin.
    repeat (destruct Hin as [<-|Hin]; [discriminate Hc|]). exact Hin.
  - apply existsb_exists. eauto.
Qed.

End WithNlp.
End EnrichFacts.

(** C9. [analyze_sentiment] returns one of the three labels and a score of
    absolute value at most 0.6.  When the source URL contains one of the
    listed neutral domains the score lies in [-0.04, 0.04] and the label is
    neutral.  On an input that is empty after stripping, and whenever the
    scoring code raises (the analyzer cannot be built, or scoring a
    sentence fails), the result is the neutral label with score 0.0. *)
Theorem sentiment_is_bounded (L : Nlp) (text : pystr)
    (source_url : option pystr) :
  let r := Enrich.analyze_sentiment L text source_url in
  (Qabs (Enrich.score r) <= 0.6)%Q
  /\ (Enrich.label r = Enrich.negative \/ Enrich.label r = Enrich.neutral
      \/ Enrich.label r = Enrich.positive)
  /\ (forall u d,
        source_url = Some u -> In d Enrich.NEUTRAL_DOMAINS ->
        contains d u = true ->
        (-0.04 <= Enrich.score r <= 0.04)%Q
        /\ Enrich.label r = Enrich.neutral)
  /\ (strip text = [] -> r = Enrich.neutral_zero)
  /\ (vader_ready L = false -> r = Enrich.neutral_zero)
  /\ (Enrich.scored L (strip text) source_url = None ->
      r = Enrich.neutral_zero).
Proof.
  intros r. subst r. unfold Enrich.analyze_sentiment.
  split; [|split; [|split; [|split; [|split]]]].
  - apply Qabs_Qle_condition.
    destruct (PyStr.truthy (strip text)); [|split; discriminate].
    destruct (Enrich.scored L (strip text) source_url) as [r|] eqn:Hs;
      [|split; discriminate].
    now apply (EnrichFacts.scored_bounds L) in Hs as [Hb _].
  - match goal with
    | |- context [Enrich.label ?r] => destruct (Enrich.label r)
    end; auto.
  - intros u d -> Hin Hc.
    pose proof (EnrichFacts.neutral_domain_found u d Hin Hc) as Hn.
    destruct (PyStr.truthy (strip text));
      [|split; [split; discriminate|reflexivity]].
    destruct (Enrich.scored L (strip text) (Some u)) as [r|] eqn:Hs;
      [|split; [split; discriminate|reflexivity]].
    apply (EnrichFacts.scored_bounds L) in Hs as [_ Hs]. now apply Hs.
  - intros ->. reflexivity.
  - intros Hv. destruct (PyStr.truthy (strip text)); [|reflexivity].
    unfold Enrich.scored. now rewrite Hv.
  - intros Hs. rewrite Hs. now destruct (PyStr.truthy (strip text)).
Qed.

Lemma sentiment_is_bounded_witness :
  let r := Enrich.analyze_sentiment Sample.nlp
             (py "A wonderful and happy story. Truly great!")
             (Some (py "https://en.wikipedia.org/wiki/Joy")) in
  (-0.04 <= Enrich.score r <= 0.04)%Q /\ Enrich.label r = Enrich.neutral.
Proof.
  intros r.
  destruct (sentiment_is_bounded Sample.nlp
              (py "A wonderful and happy story. Truly great!")
              (Some (py "https://en.wikipedia.org/wiki/Joy")))
    as (_ & _ & Hneutral & _).
  apply (Hneutral (py "https://en.wikipedia.org/wiki/Joy")
           (py "wikipedia.org")).
  - reflexivity.
  - left. reflexivity.
  - reflexivity.
Defined.

(** ** Specified properties of the rate limiters *)

Module BucketFacts.
Section Lenient.
Context (S : Settings).

Lemma burst_at_least_5 : (5 <= Main.BURST S)%Z.
Proof. unfold Main.BURST. lia. Qed.

Lemma one_le_burst : (1 <= (Main.burst_tokens S))%Q.
Proof.
  change 1%Q with (inject_Z 1). rewrite <- Zle_Qle.
  pose proof burst_at_least_5. lia.
Qed.

(** One admission check: the bucket is refilled by the elapsed time times
    [limit / 60], capped at the burst; with a token or more the request is
    admitted and one token is taken, otherwise it is rejected and nothing
    is taken. *)
Lemma allow_step bucket now ip :
  let b := default ((Main.burst_tokens S), now) (bucket !! ip) in
  let refilled :=
    Qmin (Main.burst_tokens S)
      (fst b + Main.per_minute S / 60 * (now - snd b))%Q in
  Main._allow S bucket now ip
  = if Qle_bool 1 refilled
    then (<[ip := ((refilled - 1)%Q, now)]> bucket, true)
    else (<[ip := (refilled, now)]> bucket, false).
Proof.
  unfold Main._allow. now destruct (default _ _) as [tokens ts].
Qed.

(** A check at the instant of the stamp sees no refill. *)
Lemma allow_instant bucket ip t q :
  Main.holds bucket ip q t -> (q <= (Main.burst_tokens S))%Q ->
  exists b',
    Main._allow S bucket t ip = (b', Qle_bool 1 q)
    /\ Main.holds b' ip (if Qle_bool 1 q then q - 1 else q)%Q t.
Proof.
  intros (tok & Hlook & Hq) Hcap. rewrite allow_step, Hlook. simpl.
  set (refilled := Qmin (Main.burst_tokens S)
                      (tok + Main.per_minute S / 60 * (t - t))%Q).
  assert (Hre : (refilled == q)%Q).
  { subst refilled.
    assert (Hsum : (tok + Main.per_minute S / 60 * (t - t) == q)%Q)
      by (rewrite Hq; field).
    rewrite <- Hsum. apply Q.min_r. now rewrite Hsum. }
  assert (Hb : Qle_bool 1 refilled = Qle_bool 1 q) by now rewrite Hre.
  rewrite Hb. destruct (Qle_bool 1 q).
  - eexists. split; [reflexivity|]. eexists. split.
    + apply lookup_insert_eq.
    + now rewrite Hre.
  - eexists. split; [reflexivity|]. eexists. split.
    + apply lookup_insert_eq.
    + exact Hre.
Qed.

(** The first check of an identity starts from a full bucket. *)
Lemma allow_fresh bucket ip t :
  bucket !! ip = None ->
  exists b',
    Main._allow S bucket t ip = (b', true)
    /\ Main.holds b' ip ((Main.burst_tokens S) - 1)%Q t.
Proof.
  intros Hnone. rewrite allow_step, Hnone. simpl.
  set (refilled := Qmin (Main.burst_tokens S)
                      (Main.burst_tokens S
                       + Main.per_minute S / 60 * (t - t))%Q).
  assert (Hre : (refilled == Main.burst_tokens S)%Q).
  { subst refilled.
    assert (Hsum : (Main.burst_tokens S + Main.per_minute S / 60 * (t - t)
                    == Main.burst_tokens S)%Q) by field.
    rewrite Hsum. apply Q.min_l. apply Qle_refl. }
  assert (Hok : Qle_bool 1 refilled = true).
  { apply Qle_bool_iff. rewrite Hre. apply one_le_burst. }
  rewrite Hok. eexists. split; [reflexivity|]. eexists. split.
  - apply lookup_insert_eq.
  - now rewrite Hre.
Qed.

(** After [60 / limit] seconds an empty bucket holds one token again. *)
Lemma allow_after_wait bucket ip t :
  Main.holds bucket ip 0 t -> (0 < RATE_LIMIT_PER_MIN S)%Z ->
  exists b',
    Main._allow S bucket (t + 60 / (Main.per_minute S))%Q ip = (b', true)
    /\ Main.holds b' ip 0 (t + 60 / (Main.per_minute S))%Q.
Proof.
  intros (tok & Hlook & Hq) Hpos. rewrite allow_step, Hlook. simpl.
  assert (HR : ~ ((Main.per_minute S) == 0)%Q).
  { change 0%Q with (inject_Z 0). rewrite inject_Z_injective. lia. }
  set (later := (t + 60 / Main.per_minute S)%Q).
  set (refilled := Qmin (Main.burst_tokens S)
                      (tok + Main.per_minute S / 60 * (later - t))%Q).
  assert (Hre : (refilled == 1)%Q).
  { subst refilled later.
    assert (Hsum : (tok + Main.per_minute S / 60
                          * (t + 60 / Main.per_minute S - t) == 1)%Q)
      by (rewrite Hq; field; exact HR).
    rewrite Hsum. apply Q.min_r. apply one_le_burst. }
  assert (Hok : Qle_bool 1 refilled = true).
  { apply Qle_bool_iff. rewrite Hre. apply Qle_refl. }
  rewrite Hok. eexists. split; [reflexivity|]. eexists. split.
  - apply lookup_insert_eq.
  - rewrite Hre. reflexivity.
Qed.

(** With [n] tokens, [n + m] checks at the instant of the stamp admit the
    first [n] and reject the other [m]; the bucket ends empty. *)
Lemma drain ip t (n m : nat) : forall bucket,
  Main.holds bucket ip (inject_Z (Z.of_nat n)) t ->
  (inject_Z (Z.of_nat n) <= (Main.burst_tokens S))%Q ->
  exists b',
    Main.requests S bucket ip (repeat t (n + m))
    = (b', repeat true n ++ repeat false m)
    /\ Main.holds b' ip 0 t.
Proof.
  induction n as [|n IH].
  - induction m as [|m IHm]; intros bucket Hh Hcap.
    + exists bucket. split; [reflexivity|exact Hh].
    + destruct (allow_instant bucket ip t _ Hh Hcap) as (b1 & Hstep & Hh1).
      change (Qle_bool 1 (inject_Z (Z.of_nat 0))) with false in Hstep, Hh1.
      destruct (IHm b1 Hh1 Hcap) as (b2 & Hrest & Hh2).
      exists b2. split; [|exact Hh2].
      simpl. simpl in Hrest. now rewrite Hstep, Hrest.
  - intros bucket Hh Hcap.
    destruct (allow_instant bucket ip t _ Hh Hcap) as (b1 & Hstep & Hh1).
    assert (Hone : Qle_bool 1 (inject_Z (Z.of_nat (Datatypes.S n))) = true).
    { apply Qle_bool_iff. change 1%Q with (inject_Z 1).
      rewrite <- Zle_Qle. lia. }
    rewrite Hone in Hstep, Hh1.
    assert (Hpred : (inject_Z (Z.of_nat (Datatypes.S n)) - 1
                     == inject_Z (Z.of_nat n))%Q).
    { rewrite Nat2Z.inj_succ. unfold Z.succ. rewrite inject_Z_plus. ring. }
    assert (Hh1' : Main.holds b1 ip (inject_Z (Z.of_nat n)) t).
    { destruct Hh1 as (tok & Hl & He). exists tok. split; [exact Hl|].
      now rewrite He. }
    assert (Hcap' : (inject_Z (Z.of_nat n) <= (Main.burst_tokens S))%Q).
    { apply Qle_trans with (y := inject_Z (Z.of_nat (Datatypes.S n)));
        [|exact Hcap]. rewrite <- Zle_Qle. lia. }
    destruct (IH b1 Hh1' Hcap') as (b2 & Hrest & Hh2).
    exists b2. split; [|exact Hh2].
    simpl. now rewrite Hstep, Hrest.
Qed.

Lemma requests_app bucket ip l1 l2 :
  Main.requests S bucket ip (l1 ++ l2)
  = let '(b1, o1) := Main.requests S bucket ip l1 in
    let '(b2, o2) := Main.requests S b1 ip l2 in
    (b2, o1 ++ o2).
Proof.
  revert bucket. induction l1 as [|t l1 IH]; intros bucket; simpl.
  - now destruct (Main.requests S bucket ip l2).
  - destruct (Main._allow S bucket t ip) as [b1 ok]. rewrite IH.
    destruct (Main.requests S b1 ip l1) as [b2 o1].
    now destruct (Main.requests S b2 ip l2).
Qed.

(** The lenient limiter does what is specified: a new identity that
    sends burst + 1 requests at one instant has the first burst admitted
    and the last rejected; [60 / limit] seconds later exactly one of any
    number of requests is admitted. *)
Lemma allow_burst_then_one bucket ip t (m : nat) :
  bucket !! ip = None -> (0 < RATE_LIMIT_PER_MIN S)%Z ->
  let burst := Z.to_nat (Main.BURST S) in
  snd (Main.requests S bucket ip
         (repeat t (burst + 1)
          ++ repeat (t + 60 / Main.per_minute S)%Q (1 + m)))
  = repeat true burst ++ [false] ++ [true] ++ repeat false m.
Proof.
  intros Hnone Hpos burst.
  pose proof burst_at_least_5 as H5.
  assert (Hburst : burst = Datatypes.S (Nat.pred burst)) by (subst burst; lia).
  destruct (allow_fresh bucket ip t Hnone) as (b1 & Hfirst & Hh1).
  assert (Hq : (Main.burst_tokens S - 1
                == inject_Z (Z.of_nat (Nat.pred burst)))%Q).
  { subst burst. rewrite Nat2Z.inj_pred by lia. rewrite Z2Nat.id by lia.
    unfold Z.pred. rewrite inject_Z_plus. ring. }
  assert (Hh1' : Main.holds b1 ip (inject_Z (Z.of_nat (Nat.pred burst))) t).
  { destruct Hh1 as (tok & Hl & He). exists tok. split; [exact Hl|].
    now rewrite He. }
  assert (Hcap : (inject_Z (Z.of_nat (Nat.pred burst))
                  <= Main.burst_tokens S)%Q).
  { rewrite <- Zle_Qle. subst burst. lia. }
  destruct (drain ip t (Nat.pred burst) 1 b1 Hh1' Hcap) as (b2 & Hdrain & Hh2).
  destruct (allow_after_wait b2 ip t Hh2 Hpos) as (b3 & Hwait & Hh3).
  assert (Hcap0 : (inject_Z (Z.of_nat 0) <= (Main.burst_tokens S))%Q).
  { rewrite <- Zle_Qle. lia. }
  destruct (drain ip (t + 60 / Main.per_minute S)%Q 0 m b3 Hh3 Hcap0)
    as (b4 & Hrest & _).
  rewrite requests_app.
  replace (burst + 1)%nat with (Datatypes.S (Nat.pred burst + 1)) by lia.
  simpl repeat at 1. simpl Main.requests at 1.
  rewrite Hfirst, Hdrain. simpl Main.requests. rewrite Hwait.
  simpl in Hrest. rewrite Hrest. simpl.
  rewrite Hburst at 2. simpl. now rewrite <- app_assoc.
Qed.

End Lenient.
End BucketFacts.

(** C3.  The strict limiter never reads its [limit_per_min] argument: the
    refill uses the constant rate of 60 tokens per minute.  With a limit of
    10 per minute, a new identity has 30 calls at one instant admitted and
    the 31st rejected, as specified; but 60 / 10 = 6 seconds later six
    calls are admitted, not exactly one. *)
Theorem strict_limiter_ignores_limit :
  (forall buckets now ip l1 l2,
      RateLimiter.check_rate_limit buckets now ip l1
      = RateLimiter.check_rate_limit buckets now ip l2)
  /\ snd (RateLimiter.calls ∅ (py "203.0.113.7") 10
            (repeat 0%Q 31 ++ repeat 6%Q 8))
     = repeat true 30 ++ [false] ++ repeat true 6 ++ [false; false].
Proof.
  split; [reflexivity|]. vm_compute. reflexivity.
Qed.

(** ** Specified properties of text cleaning *)

(** C7.  Cleaning is not idempotent on a text with two citation markers
    in a row before a comma: the markers leave two spaces, of which the
    replacement of " ," takes one and the collapsing of spaces, which comes
    later, leaves the other; cleaning the result again removes it. *)
Theorem cleaning_twice_differs (P : Platform) :
  let s := py "Cats purr [1] [2] , dogs bark." in
  Utils.clean P s = py "Cats purr , dogs bark."
  /\ Utils.clean P (Utils.clean P s) = py "Cats purr, dogs bark."
  /\ Utils.clean P (Utils.clean P s) <> Utils.clean P s.
Proof.
  intros s.
  assert (H1 : Utils.clean P s = py "Cats purr , dogs bark.")
    by (vm_compute; reflexivity).
  assert (H2 : Utils.clean P (Utils.clean P s) = py "Cats purr, dogs bark.")
    by (vm_compute; reflexivity).
  split; [exact H1|]. split; [exact H2|].
  rewrite H2, H1. intros Heq. vm_compute in Heq. discriminate.
Qed.

(** * Further properties *)

(** ** The token bucket of main.py *)

Module AllowFacts.
Section Lenient.
Context (S : Settings).

Lemma rate_nonneg :
  (0 <= RATE_LIMIT_PER_MIN S)%Z -> (0 <= Main.per_minute S / 60)%Q.
Proof.
  intros Hr.
  assert (0 <= Main.per_minute S)%Q
    by (change 0%Q with (inject_Z 0); now rewrite <- Zle_Qle).
  apply Qle_shift_div_l; [reflexivity|]. lra.
Qed.

Lemma burst_nonneg : (0 <= Main.burst_tokens S)%Q.
Proof.
  pose proof (BucketFacts.one_le_burst S). lra.
Qed.

(** One check, in terms of the tokens it finds and leaves: the tokens left
    are within the burst, never negative, and together with the admitted
    request do not exceed what was there plus the refill. *)
Lemma allow_accounting bucket now ip tok ts :
  default (Main.burst_tokens S, now) (bucket !! ip) = (tok, ts) ->
  (0 <= RATE_LIMIT_PER_MIN S)%Z -> (ts <= now)%Q -> (0 <= tok)%Q ->
  exists tok',
    fst (Main._allow S bucket now ip) !! ip = Some (tok', now)
    /\ (0 <= tok' <= Main.burst_tokens S)%Q
    /\ (inject_Z (Z.of_nat
                    (if snd (Main._allow S bucket now ip) then 1 else 0))
        + tok' <= tok + Main.per_minute S / 60 * (now - ts))%Q.
Proof.
  intros Hb Hrate Hts Htok. rewrite BucketFacts.allow_step, Hb. simpl.
  set (refill := (Main.per_minute S / 60 * (now - ts))%Q).
  assert (Hrefill : (0 <= refill)%Q).
  { subst refill. apply Qmult_le_0_compat; [now apply rate_nonneg|lra]. }
  set (refilled := Qmin (Main.burst_tokens S) (tok + refill)).
  pose proof (Q.le_min_l (Main.burst_tokens S) (tok + refill)) as Hl.
  pose proof (Q.le_min_r (Main.burst_tokens S) (tok + refill)) as Hr.
  fold refilled in Hl, Hr.
  assert (H0 : (0 <= refilled)%Q).
  { subst refilled. apply Q.min_glb; [apply burst_nonneg|lra]. }
  destruct (Qle_bool 1 refilled) eqn:Hok; simpl.
  - apply Qle_bool_iff in Hok. eexists. split; [apply lookup_insert_eq|].
    split; [split; lra|]. change (inject_Z (Z.of_nat 1)) with 1%Q. lra.
  - eexists. split; [apply lookup_insert_eq|].
    split; [split; lra|]. change (inject_Z (Z.of_nat 0)) with 0%Q. lra.
Qed.

Lemma last_cons (t d : Q) (rest : list Q) :
  List.last (t :: rest) d = List.last rest t.
Proof.
  revert t d. induction rest as [|u rest IH]; intros t d; [reflexivity|].
  change (List.last (t :: u :: rest) d) with (List.last (u :: rest) d).
  now rewrite !IH.
Qed.

Lemma admitted_cons (ok : bool) (oks : list bool) :
  (inject_Z (Z.of_nat (Traffic.admitted (ok :: oks)))
   == inject_Z (Z.of_nat (if ok then 1 else 0))
      + inject_Z (Z.of_nat (Traffic.admitted oks)))%Q.
Proof. simpl Traffic.admitted. now rewrite Nat2Z.inj_add, inject_Z_plus. Qed.

(** A run of checks of a known bucket at clock readings that never go
    back. *)
Lemma requests_accounting ip (times : list Q) : forall bucket tok ts,
  bucket !! ip = Some (tok, ts) ->
  (0 <= RATE_LIMIT_PER_MIN S)%Z -> (0 <= tok <= Main.burst_tokens S)%Q ->
  Traffic.nondecreasing ts times ->
  exists tok',
    fst (Main.requests S bucket ip times) !! ip = Some (tok', List.last times ts)
    /\ (0 <= tok' <= Main.burst_tokens S)%Q
    /\ (inject_Z (Z.of_nat
                     (Traffic.admitted
                        (snd (Main.requests S bucket ip times))))
         + tok'
         <= tok + Main.per_minute S / 60 * (List.last times ts - ts))%Q.
Proof.
  induction times as [|t rest IH]; intros bucket tok ts Hlook Hrate Htok Hmono.
  - exists tok. simpl. split; [exact Hlook|]. split; [exact Htok|].
    change (inject_Z (Z.of_nat 0)) with 0%Q. lra.
  - destruct Hmono as [Hts Hrest].
    destruct (allow_accounting bucket t ip tok ts) as (tok1 & Hl1 & Hr1 & Ha1);
      [now rewrite Hlook|exact Hrate|exact Hts|apply Htok|].
    simpl Main.requests.
    destruct (Main._allow S bucket t ip) as [b1 ok] eqn:Hstep.
    simpl in Hl1, Ha1.
    destruct (IH b1 tok1 t Hl1 Hrate Hr1 Hrest) as (tok2 & Hl2 & Hr2 & Ha2).
    destruct (Main.requests S b1 ip rest) as [b2 oks] eqn:Hrun.
    simpl in Hl2, Ha2. exists tok2. rewrite last_cons. simpl fst. simpl snd.
    split; [exact Hl2|]. split; [exact Hr2|].
    rewrite admitted_cons.
    set (r := (Main.per_minute S / 60)%Q) in *. clearbody r. lra.
Qed.

(** Other identities are not touched. *)
Lemma requests_elsewhere ip ip' (times : list Q) : forall bucket,
  ip' <> ip ->
  fst (Main.requests S bucket ip times) !! ip' = bucket !! ip'.
Proof.
  induction times as [|t rest IH]; intros bucket Hne; [reflexivity|].
  simpl. destruct (Main._allow S bucket t ip) as [b1 ok] eqn:Hstep.
  specialize (IH b1 Hne).
  destruct (Main.requests S b1 ip rest) as [b2 oks]. simpl in *.
  rewrite IH. rewrite BucketFacts.allow_step in Hstep.
  destruct (Qle_bool _ _); injection Hstep as <- _;
    now rewrite lookup_insert_ne.
Qed.

End Lenient.
End AllowFacts.



(** X2. The bucket invariant: after any run of requests of an identity at
    clock readings that never go back, its bucket is stamped with the last
    reading and holds between 0 and burst tokens. *)
Theorem allow_keeps_tokens_in_range (S : Settings)
    (bucket : gmap pystr (Q * Q)) (ip : pystr) (t1 : Q) (rest : list Q) :
  (0 <= RATE_LIMIT_PER_MIN S)%Z ->
  bucket !! ip = None ->
  Traffic.nondecreasing t1 rest ->
  exists tokens,
    fst (Main.requests S bucket ip (t1 :: rest)) !! ip
      = Some (tokens, List.last rest t1)
    /\ (0 <= tokens <= Main.burst_tokens S)%Q.
Proof.
  intros Hrate Hnone Hmono.
  destruct (AllowFacts.allow_accounting S bucket t1 ip
              (Main.burst_tokens S) t1)
    as (tok1 & Hl1 & Hr1 & _);
    [now rewrite Hnone|exact Hrate|apply Qle_refl
    |apply AllowFacts.burst_nonneg|].
  simpl Main.requests.
  destruct (Main._allow S bucket t1 ip) as [b1 ok] eqn:Hstep.
  simpl in Hl1.
  destruct (AllowFacts.requests_accounting S ip rest b1 tok1 t1
              Hl1 Hrate Hr1 Hmono) as (tok2 & Hl2 & Hr2 & _).
  destruct (Main.requests S b1 ip rest) as [b2 oks]. simpl in Hl2 |- *.
  eauto.
Qed.

Lemma allow_keeps_tokens_in_range_witness :
  exists tokens,
    fst (Main.requests Sample.settings ∅ (py "203.0.113.7") [0%Q; 0%Q; 3%Q])
      !! py "203.0.113.7" = Some (tokens, 3%Q)
    /\ (0 <= tokens <= Main.burst_tokens Sample.settings)%Q.
Proof.
  apply (allow_keeps_tokens_in_range Sample.settings ∅ (py "203.0.113.7")
           0 [0%Q; 3%Q]).
  - simpl. lia.
  - reflexivity.
  - simpl. repeat split; discriminate.
Defined.

(** X3. Identities do not share tokens: requests of one identity leave
    the bucket of every other identity as it was. *)
Theorem allow_leaves_other_identities (S : Settings)
    (bucket : gmap pystr (Q * Q)) (ip other : pystr) (times : list Q) :
  other <> ip ->
  fst (Main.requests S bucket ip times) !! other = bucket !! other.
Proof. apply AllowFacts.requests_elsewhere. Qed.

Lemma allow_leaves_other_identities_witness :
  fst (Main.requests Sample.settings
         (<[py "198.51.100.2" := (2%Q, 0%Q)]> ∅) (py "203.0.113.7") [1%Q; 2%Q])
    !! py "198.51.100.2"
  = (<[py "198.51.100.2" := (2%Q, 0%Q)]> ∅ : gmap pystr (Q * Q))
      !! py "198.51.100.2".
Proof.
  apply (allow_leaves_other_identities Sample.settings).
  intros Heq. vm_compute in Heq. discriminate.
Defined.

(** ** The strict limiter of utils.py *)

Module StrictFacts.



End StrictFacts.



(** ** More on the file cache *)

Module CachePaths.

Lemma last_app_nonempty (a b : pystr) (d : N) :
  b <> [] -> List.last (a ++ b) d = List.last b d.
Proof.
  intros Hb. induction a as [|x a IH]; [reflexivity|].
  simpl. destruct (a ++ b) eqn:E; [|exact IH].
  apply app_eq_nil in E as [_ ->]. contradiction.
Qed.

(** Every entry path ends in the [n] of [.json]. *)
Lemma path_last base key : List.last (Cache._path base key) 0%N = 110%N.
Proof.
  unfold Cache._path, Cache.path_join.
  assert (Hkey : forall pre, List.last (pre ++ key ++ py ".json") 0%N = 110%N).
  { intros pre. rewrite app_assoc.
    now rewrite last_app_nonempty by discriminate. }
  destruct (starts_with _ _); [apply (Hkey [])|].
  destruct (_ || _); [apply Hkey|].
  rewrite app_assoc. apply Hkey.
Qed.

(** A temporary path ends in the [p] of [.tmp]. *)
Lemma tmp_last (fp : pystr) : List.last (fp ++ py ".tmp") 0%N = 112%N.
Proof. now rewrite last_app_nonempty by discriminate. Qed.

Lemma tmp_is_no_entry base key fp : Cache._path base key <> fp ++ py ".tmp".
Proof.
  intros Heq. pose proof (path_last base key) as Hl.
  rewrite Heq, tmp_last in Hl. discriminate.
Qed.

Lemma tmp_differs (fp : pystr) : fp <> fp ++ py ".tmp".
Proof.
  intros Heq. apply (f_equal (@length N)) in Heq.
  rewrite length_app in Heq. simpl in Heq. lia.
Qed.

End CachePaths.

(** X5. [set] touches two paths only: afterwards the temporary file is
    gone, every other file is as before, and [get] for a URL with another
    entry path answers as it did before the write. *)
Theorem set_keeps_other_entries (P : Platform) (repr : json -> pystr)
    (fs : gmap pystr Cache.file) (t0 now : Q) (base url etag : pystr)
    (payload : json) (ttl : Z) (other : pystr) :
  Cache._path base (Cache._hash_key P other)
    <> Cache._path base (Cache._hash_key P url) ->
  let fp := Cache._path base (Cache._hash_key P url) in
  let fs' := Cache.set P fs t0 base url etag payload ttl in
  fs' !! (fp ++ py ".tmp") = None
  /\ (forall p, p <> fp -> p <> fp ++ py ".tmp" -> fs' !! p = fs !! p)
  /\ Cache.get P repr fs' now base other
     = (fs', snd (Cache.get P repr fs now base other)).
Proof.
  intros Hother fp fs'.
  assert (Hset : fs' = <[fp := Cache.Parsed
                             (JDict (Cache.blob etag t0 ttl payload))]>
                         (delete (fp ++ py ".tmp")
                            (<[fp ++ py ".tmp" :=
                                 Cache.Parsed
                                   (JDict (Cache.blob etag t0 ttl payload))]>
                               fs))).
  { subst fs' fp. unfold Cache.set. now rewrite lookup_insert_eq. }
  assert (Hrest : forall p, p <> fp -> p <> fp ++ py ".tmp" ->
                            fs' !! p = fs !! p).
  { intros p H1 H2. rewrite Hset.
    rewrite lookup_insert_ne by congruence.
    rewrite lookup_delete_ne by congruence.
    now rewrite lookup_insert_ne by congruence. }
  split; [|split; [exact Hrest|]].
  - rewrite Hset. rewrite lookup_insert_ne by apply CachePaths.tmp_differs.
    apply lookup_delete_eq.
  - unfold Cache.get. rewrite Hrest.
    + now destruct (fs !! _).
    + exact Hother.
    + apply CachePaths.tmp_is_no_entry.
Qed.

Lemma set_keeps_other_entries_witness :
  let fs := Cache.set Sample.platform ∅ 100 (py "./data/cache")
              (py "https://example.com/a") (py "W/a") JNull 3600 in
  let fs' := Cache.set Sample.platform fs 150 (py "./data/cache")
               (py "https://example.com/b") (py "W/b") JNull 3600 in
  Cache.get Sample.platform Sample.repr fs' 200 (py "./data/cache")
    (py "https://example.com/a")
  = (fs', snd (Cache.get Sample.platform Sample.repr fs 200
                 (py "./data/cache") (py "https://example.com/a"))).
Proof.
  intros fs fs'.
  apply (set_keeps_other_entries Sample.platform Sample.repr fs 150 200
           (py "./data/cache") (py "https://example.com/b") (py "W/b")
           JNull 3600 (py "https://example.com/a")).
  intros Heq. vm_compute in Heq. discriminate.
Defined.

(** X6. [get] never returns an expired or made-up entry: an entry that it
    returns was read from the file of the URL, which is a JSON object with
    that etag and payload, and either its time to live is not positive or
    its age at the clock reading is within it.  The files are unchanged. *)
Theorem get_returns_only_fresh_entries (P : Platform) (repr : json -> pystr)
    (fs fs' : gmap pystr Cache.file) (now : Q) (base url : pystr)
    (e : Cache.CacheEntry) :
  Cache.get P repr fs now base url = (fs', Some e) ->
  fs' = fs
  /\ exists data ej,
       fs !! Cache._path base (Cache._hash_key P url)
         = Some (Cache.Parsed (JDict data))
       /\ dget (py "etag") data = Some ej
       /\ Cache.etag e = Cache.str_of repr ej
       /\ dget (py "payload") data = Some (Cache.payload e)
       /\ to_int P (get_or (py "ttl") (JInt 0) data) = Some (Cache.ttl e)
       /\ to_float P (get_or (py "fetched_at") (JInt 0) data)
          = Some (Cache.fetched_at e)
       /\ ((Cache.ttl e <= 0)%Z
           \/ (now - Cache.fetched_at e <= inject_Z (Cache.ttl e))%Q).
Proof.
  unfold Cache.get.
  destruct (fs !! _) as [f|] eqn:Hfile; [|discriminate].
  intros [= <- Hread]. split; [reflexivity|].
  destruct f as [j|]; [|discriminate]. destruct j; try discriminate.
  unfold Cache.read_entry, as_dict in Hread.
  destruct (to_int P _) as [ttl|] eqn:Httl; [|discriminate].
  destruct (to_float P _) as [fetched|] eqn:Hfetched; [|discriminate].
  destruct ((0 <? ttl)%Z && Cache.Qltb (inject_Z ttl) (now - fetched)%Q)
    eqn:Hexp; [discriminate|].
  destruct (dget (py "etag") d) as [ej|] eqn:He; [|discriminate].
  destruct (dget (py "payload") d) as [p|] eqn:Hp; [|discriminate].
  injection Hread as <-. simpl. exists d, ej.
  repeat (split; [reflexivity || assumption|]).
  apply andb_false_iff in Hexp as [Hpos|Hage].
  - left. apply Z.ltb_ge in Hpos. exact Hpos.
  - right. unfold Cache.Qltb in Hage. apply negb_false_iff in Hage.
    now apply Qle_bool_iff in Hage.
Qed.

Lemma get_returns_only_fresh_entries_witness :
  let fs := Cache.set Sample.platform ∅ 100 (py "./data/cache") Sample.url
              (py "W/tag") JNull 3600 in
  exists data ej,
    fs !! Cache._path (py "./data/cache")
            (Cache._hash_key Sample.platform Sample.url)
      = Some (Cache.Parsed (JDict data))
    /\ dget (py "etag") data = Some ej.
Proof.
  intros fs.
  destruct (get_returns_only_fresh_entries Sample.platform Sample.repr
              fs fs 160 (py "./data/cache") Sample.url
              {| Cache.etag := py "W/tag"; Cache.fetched_at := 100;
                 Cache.ttl := 3600; Cache.payload := JNull |})
    as (_ & data & ej & Hfile & He & _).
  - reflexivity.
  - exists data, ej. split; [exact Hfile|exact He].
Defined.

(** X7. [get] fails open: when the file of the URL is missing, cannot be
    parsed, does not hold a JSON object, or holds one without an [etag] or
    a [payload] member, the answer is "no entry" and the files stay as they
    are. *)
Theorem get_fails_open (P : Platform) (repr : json -> pystr)
    (fs : gmap pystr Cache.file) (now : Q) (base url : pystr) :
  let found := fs !! Cache._path base (Cache._hash_key P url) in
  found = None
  \/ found = Some Cache.Malformed
  \/ (exists j, found = Some (Cache.Parsed j) /\ as_dict j = None)
  \/ (exists data, found = Some (Cache.Parsed (JDict data))
                   /\ (dget (py "etag") data = None
                       \/ dget (py "payload") data = None)) ->
  Cache.get P repr fs now base url = (fs, None).
Proof.
  intros found Hcases. unfold Cache.get. fold found.
  destruct Hcases as [->|[->|[(j & -> & Hj)|(data & -> & Hmiss)]]];
    try reflexivity.
  - unfold Cache.read_entry. now rewrite Hj.
  - unfold Cache.read_entry, as_dict.
    destruct (to_int P _); [|reflexivity].
    destruct (to_float P _); [|reflexivity].
    destruct (_ && _); [reflexivity|].
    destruct Hmiss as [-> | ->]; [reflexivity|].
    now destruct (dget (py "etag") data).
Qed.

Lemma get_fails_open_witness :
  let fs : gmap pystr Cache.file :=
    <[Cache._path (py "./data/cache")
        (Cache._hash_key Sample.platform Sample.url)
      := Cache.Parsed (JList [JInt 1])]> ∅ in
  Cache.get Sample.platform Sample.repr fs 0 (py "./data/cache") Sample.url
  = (fs, None).
Proof.
  intros fs.
  apply (get_fails_open Sample.platform Sample.repr fs 0 (py "./data/cache")
           Sample.url).
  right. right. left. exists (JList [JInt 1]). split; reflexivity.
Defined.

(** ** Whitespace normalisation and word counts *)

Module TextFacts.

Lemma flush_tokens cur :
  Forall (fun c => is_space c = false) cur -> Forall TextShape.token (flush cur).
Proof.
  intros Hcur. destruct cur as [|c cur]; [constructor|].
  constructor; [|constructor]. split.
  - simpl. now destruct (rev cur).
  - apply Forall_rev. exact Hcur.
Qed.

Lemma split_from_tokens s : forall cur,
  Forall (fun c => is_space c = false) cur ->
  Forall TextShape.token (split_from cur s).
Proof.
  induction s as [|c s IH]; intros cur Hcur; simpl.
  - now apply flush_tokens.
  - destruct (is_space c) eqn:Hc.
    + apply Forall_app. split; [now apply flush_tokens|].
      apply IH. constructor.
    + apply IH. now constructor.
Qed.

Lemma split_tokens s : Forall TextShape.token (split s).
Proof. apply split_from_tokens. constructor. Qed.

Lemma split_from_word w : forall cur s,
  Forall (fun c => is_space c = false) w ->
  split_from cur (w ++ s) = split_from (rev w ++ cur) s.
Proof.
  induction w as [|c w IH]; intros cur s Hw; [reflexivity|].
  inversion Hw as [|? ? Hc Hw']; subst. simpl. rewrite Hc.
  rewrite IH by exact Hw'. now rewrite <- app_assoc.
Qed.

Lemma split_from_space cur c s :
  is_space c = true ->
  split_from cur (c :: s) = flush cur ++ split_from [] s.
Proof. intros Hc. simpl. now rewrite Hc. Qed.

Lemma flush_word cur w :
  w <> [] -> flush (rev w ++ cur) = [rev cur ++ w].
Proof.
  intros Hw. unfold flush.
  destruct (rev w ++ cur) eqn:E.
  - apply app_eq_nil in E as [E _].
    apply (f_equal (@rev N)) in E. rewrite rev_involutive in E.
    contradiction.
  - rewrite <- E. now rewrite rev_app_distr, rev_involutive.
Qed.

Lemma split_from_join ws : forall cur w,
  Forall TextShape.token (w :: ws) ->
  split_from cur (join [SP] (w :: ws)) = (rev cur ++ w) :: ws.
Proof.
  induction ws as [|w2 ws IH]; intros cur w Hall;
    inversion Hall as [|? ? [Hne Hw] Hrest]; subst.
  - simpl join. rewrite <- (app_nil_r w) at 1.
    rewrite split_from_word by exact Hw. simpl. now apply flush_word.
  - change (join [SP] (w :: w2 :: ws))
      with (w ++ SP :: join [SP] (w2 :: ws)).
    rewrite split_from_word by exact Hw.
    rewrite split_from_space by reflexivity.
    rewrite flush_word by exact Hne. rewrite (IH [] w2 Hrest). reflexivity.
Qed.

(** Splitting what was joined with single spaces gives the words back. *)
Lemma split_join ws : Forall TextShape.token ws -> split (join [SP] ws) = ws.
Proof.
  intros Hall. destruct ws as [|w ws]; [reflexivity|].
  unfold split. now rewrite split_from_join.
Qed.

Section WordCount.
Context (P : Platform).

(** ASCII whitespace is no word character; above U+007F this is a fact
    about the tables of Python that the platform has to respect. *)
Lemma space_is_no_word c :
  (forall c, is_space c = true -> uni_alnum P c = false) ->
  is_space c = true -> Utils.is_word P c = false.
Proof.
  intros Htable Hc. unfold Utils.is_word.
  destruct (c <? 128)%N eqn:Hlow; [|now apply Htable].
  apply N.ltb_lt in Hlow. unfold is_space in Hc.
  assert (Hrange : (9 <= c <= 13 \/ 28 <= c <= 32)%N).
  { repeat (apply orb_true_iff in Hc as [Hc|Hc]);
      repeat match goal with
             | H : (_ && _) = true |- _ => apply andb_true_iff in H as [? ?]
             | H : (_ <=? _)%N = true |- _ => apply N.leb_le in H
             | H : (_ =? _)%N = true |- _ => apply N.eqb_eq in H
             end; lia. }
  unfold ascii_alpha, ascii_digit.
  repeat match goal with
         | |- context [(?a <=? ?b)%N] =>
             let E := fresh in destruct (a <=? b)%N eqn:E;
             [apply N.leb_le in E|apply N.leb_gt in E]
         | |- context [(?a =? ?b)%N] =>
             let E := fresh in destruct (a =? b)%N eqn:E;
             [apply N.eqb_eq in E|apply N.eqb_neq in E]
         end; simpl; try reflexivity; lia.
Qed.

Lemma count_runs_sep (a r : pystr) (c : N) : forall inside,
  Utils.is_word P c = false ->
  Utils.count_runs P inside (a ++ c :: r)
  = (Utils.count_runs P inside a + Utils.count_runs P false r)%nat.
Proof.
  induction a as [|x a IH]; intros inside Hc; simpl.
  - now rewrite Hc.
  - destruct (Utils.is_word P x); rewrite IH by exact Hc; lia.
Qed.

Lemma words_total_app a b :
  TextShape.words_total P (a ++ b) = (TextShape.words_total P a + TextShape.words_total P b)%nat.
Proof.
  unfold TextShape.words_total. induction a as [|w a IH]; simpl; [reflexivity|].
  rewrite IH. lia.
Qed.

Lemma words_total_flush cur :
  TextShape.words_total P (flush cur) = Utils.count_runs P false (rev cur).
Proof.
  destruct cur as [|c cur]; [reflexivity|].
  unfold flush, TextShape.words_total. simpl. lia.
Qed.

Lemma split_from_total s : forall cur,
  (forall c, is_space c = true -> Utils.is_word P c = false) ->
  TextShape.words_total P (split_from cur s) = Utils.count_runs P false (rev cur ++ s).
Proof.
  induction s as [|c s IH]; intros cur Hsp; simpl split_from.
  - rewrite app_nil_r. apply words_total_flush.
  - destruct (is_space c) eqn:Hc.
    + rewrite words_total_app, words_total_flush, (IH [] Hsp).
      rewrite count_runs_sep by now apply Hsp. reflexivity.
    + rewrite (IH (c :: cur) Hsp). simpl rev. now rewrite <- app_assoc.
Qed.

Lemma join_total ws :
  Utils.count_runs P false (join [SP] ws) = TextShape.words_total P ws.
Proof.
  induction ws as [|w ws IH]; [reflexivity|].
  destruct ws as [|w2 ws].
  - unfold TextShape.words_total. simpl. lia.
  - change (join [SP] (w :: w2 :: ws))
      with (w ++ SP :: join [SP] (w2 :: ws)).
    rewrite count_runs_sep by reflexivity. rewrite IH.
    unfold TextShape.words_total. reflexivity.
Qed.

End WordCount.
End TextFacts.

(** X8. [normalize_text] is idempotent and keeps the words: normalising
    twice gives what normalising once gives, and the result splits into
    the same words as the input. *)
Theorem normalize_text_idempotent (s : pystr) :
  Utils.normalize_text (Utils.normalize_text s) = Utils.normalize_text s
  /\ split (Utils.normalize_text s) = split s.
Proof.
  assert (Hsplit : split (Utils.normalize_text s) = split s).
  { unfold Utils.normalize_text. destruct s as [|c s]; [reflexivity|].
    simpl PyStr.truthy. cbv iota.
    apply TextFacts.split_join, TextFacts.split_tokens. }
  split; [|exact Hsplit].
  unfold Utils.normalize_text at 1. rewrite Hsplit.
  destruct (PyStr.truthy (Utils.normalize_text s)) eqn:Ht.
  - unfold Utils.normalize_text in *. now destruct (PyStr.truthy s).
  - now destruct (Utils.normalize_text s).
Qed.

(** X9. Normalising whitespace does not change the word count, on a
    platform whose alphanumeric table has no whitespace in it. *)
Theorem word_count_after_normalize (P : Platform) (s : pystr) :
  (forall c, is_space c = true -> uni_alnum P c = false) ->
  Utils.word_count P (Utils.normalize_text s) = Utils.word_count P s.
Proof.
  intros Htable.
  assert (Hsp : forall c, is_space c = true -> Utils.is_word P c = false)
    by (intros c; now apply TextFacts.space_is_no_word).
  assert (Hwc : forall t,
            Utils.word_count P t = Z.of_nat (Utils.count_runs P false t)).
  { intros t. unfold Utils.word_count. now destruct t. }
  rewrite !Hwc. f_equal. unfold Utils.normalize_text.
  destruct (PyStr.truthy s) eqn:Hs.
  - rewrite TextFacts.join_total. unfold split.
    now rewrite (TextFacts.split_from_total P s [] Hsp).
  - now destruct s.
Qed.

Lemma word_count_after_normalize_witness :
  Utils.word_count Sample.platform
    (Utils.normalize_text (py "  two   words "))
  = Utils.word_count Sample.platform (py "  two   words ").
Proof.
  apply (word_count_after_normalize Sample.platform). reflexivity.
Defined.

(** ** The in-memory cache *)

Module TTLFacts.
Section Facts.
Context {V : Type}.

Lemma purge_lookup (cache : gmap pystr (Q * V)) now key :
  SimpleTTLCache.purge cache now !! key
  = match cache !! key with
    | Some entry =>
        if SimpleTTLCache.expired now entry then None else Some entry
    | None => None
    end.
Proof.
  unfold SimpleTTLCache.purge.
  destruct (cache !! key) as [entry|] eqn:Hl.
  - destruct (SimpleTTLCache.expired now entry) eqn:He.
    + apply map_lookup_filter_None. right. intros x Hx. simpl.
      rewrite Hl in Hx. injection Hx as <-. now rewrite He.
    + apply map_lookup_filter_Some. split; [exact Hl|exact He].
  - apply map_lookup_filter_None. now left.
Qed.

(** What [get] answers and leaves, by the entry it finds. *)
Lemma get_unfold (cache : gmap pystr (Q * V)) now key :
  SimpleTTLCache.get cache now key
  = (SimpleTTLCache.purge cache now,
     match cache !! key with
     | Some entry =>
         if SimpleTTLCache.expired now entry then None else Some (snd entry)
     | None => None
     end).
Proof.
  unfold SimpleTTLCache.get. rewrite purge_lookup.
  destruct (cache !! key) as [[expires_at value]|]; [|reflexivity].
  unfold SimpleTTLCache.expired. simpl.
  destruct (Cache.Qltb expires_at now) eqn:He; [reflexivity|].
  now rewrite He.
Qed.

End Facts.
End TTLFacts.

(** X10. Round trip of the in-memory cache: a value stored with
    [set(key, value, ttl_s)] is what [get(key)] returns at every clock
    reading up to and including the expiry instant. *)
Theorem ttl_cache_set_then_get {V : Type} (cache : gmap pystr (Q * V))
    (t0 t1 : Q) (key : pystr) (value : V) (ttl_s : Z) :
  (t1 <= t0 + inject_Z ttl_s)%Q ->
  snd (SimpleTTLCache.get (SimpleTTLCache.set cache t0 key value ttl_s)
         t1 key) = Some value.
Proof.
  intros Hfresh. rewrite TTLFacts.get_unfold. simpl.
  unfold SimpleTTLCache.set. rewrite lookup_insert_eq.
  unfold SimpleTTLCache.expired. simpl.
  now rewrite CacheFacts.Qltb_false.
Qed.

Lemma ttl_cache_set_then_get_witness :
  snd (SimpleTTLCache.get
         (SimpleTTLCache.set (∅ : gmap pystr (Q * json)) 100 (py "k")
            (JInt 7) 60) 160 (py "k")) = Some (JInt 7).
Proof.
  apply (ttl_cache_set_then_get ∅ 100 160 (py "k") (JInt 7) 60).
  unfold Qle. simpl. lia.
Defined.

(** X11. Expiry and clean-up of the in-memory cache: [get] at the clock
    reading [now] returns nothing for a key whose entry expired before
    [now], and the table it leaves holds exactly the entries of the old
    table, under any key, that had not expired. *)
Theorem ttl_cache_get_purges {V : Type} (cache : gmap pystr (Q * V))
    (now : Q) (key : pystr) :
  let r := SimpleTTLCache.get cache now key in
  (forall expires_at value,
      cache !! key = Some (expires_at, value) ->
      (expires_at < now)%Q ->
      snd r = None /\ fst r !! key = None)
  /\ (forall k expires_at value,
        fst r !! k = Some (expires_at, value)
        <-> cache !! k = Some (expires_at, value) /\ (now <= expires_at)%Q).
Proof.
  intros r. subst r. rewrite TTLFacts.get_unfold. simpl. split.
  - intros expires_at value Hl Hold. rewrite TTLFacts.purge_lookup, Hl.
    unfold SimpleTTLCache.expired. simpl.
    now rewrite CacheFacts.Qltb_true.
  - intros k expires_at value. rewrite TTLFacts.purge_lookup.
    destruct (cache !! k) as [[e v]|] eqn:Hl.
    + unfold SimpleTTLCache.expired. simpl.
      destruct (Cache.Qltb e now) eqn:He.
      * split; [discriminate|]. intros [[= -> ->] Hle].
        rewrite CacheFacts.Qltb_false in He by exact Hle. discriminate.
      * split.
        -- intros [= -> ->]. split; [reflexivity|].
           unfold Cache.Qltb in He. apply negb_false_iff in He.
           now apply Qle_bool_iff in He.
        -- now intros [[= -> ->] _].
    + split; [discriminate|]. now intros [? _].
Qed.

Lemma ttl_cache_get_purges_witness :
  let cache := SimpleTTLCache.set (∅ : gmap pystr (Q * json)) 100 (py "k")
                 (JInt 7) 60 in
  snd (SimpleTTLCache.get cache 161 (py "k")) = None
  /\ fst (SimpleTTLCache.get cache 161 (py "k")) !! py "k" = None.
Proof.
  intros cache.
  destruct (ttl_cache_get_purges cache 161 (py "k")) as [Hexp _].
  apply (Hexp (100 + inject_Z 60)%Q (JInt 7)).
  - reflexivity.
  - unfold Qlt. simpl. lia.
Defined.

(** ** More on the routes *)

Module RouteFacts.

Lemma analyze_bounds (L : Nlp) text source_url :
  (Qabs (Enrich.score (Enrich.analyze_sentiment L text source_url))
   <= 0.6)%Q.
Proof.
  unfold Enrich.analyze_sentiment. apply Qabs_Qle_condition.
  destruct (PyStr.truthy (strip text)); [|split; discriminate].
  destruct (Enrich.scored L (strip text) source_url) as [r|] eqn:Hs;
    [|split; discriminate].
  now apply (EnrichFacts.scored_bounds L) in Hs as [Hb _].
Qed.

Section Facts.
Context (P : Platform) (L : Nlp) (H : Html) (repr : json -> pystr).
Context (S : Settings).

(** The record that [core_parse] returns, member by member. *)
Lemma core_parse_shape w url payload :
  Main.core_parse P L H S w url = inr payload ->
  exists text title language published image summary keywords sentiment
         site sources parser,
    payload = [ (py "url", JStr url);
                (py "title", title);
                (py "text", JStr text);
                (py "language", JStr language);
                (py "published_at", published);
                (py "lead_image_url", image);
                (py "word_count", JInt (Utils.word_count P text));
                (py "summary", JStr summary);
                (py "keywords", JList keywords);
                (py "sentiment", Main.sentiment_json sentiment);
                (py "meta",
                 JDict [ (py "site", site);
                         (py "published_sources", JList sources);
                         (py "parser", JStr parser);
                         (py "fetched_at", JStr (fetched_at_text w));
                         (py "elapsed_ms", JInt (elapsed_ms w));
                         (py "cache", JBool false) ]) ]
    /\ (10 <= Utils.word_count P text)%Z
    /\ (Qabs (Enrich.score sentiment) <= 0.6)%Q.
Proof.
  unfold Main.core_parse.
  destruct (snd (Extractor.fetch_html H (net w) url)) as [e|[page headers]];
    [discriminate|].
  destruct (negb _); [discriminate|].
  destruct (Extractor.merge_extraction H _ _ page url) as [e|[data used]];
    [discriminate|].
  destruct (Main.normalize_value _) as [n|]; [|discriminate].
  set (text := Utils.clean_citations_and_spaces P n).
  destruct (negb (PyStr.truthy text) || (Utils.word_count P text <? 10)%Z)
    eqn:Hguard; [discriminate|].
  destruct (extract_published_at H page) as [pa ps].
  intros [= <-].
  apply orb_false_iff in Hguard as [_ Hwc]. apply Z.ltb_ge in Hwc.
  do 11 eexists. split; [reflexivity|]. split; [exact Hwc|].
  apply analyze_bounds.
Qed.

(** [parse] when the second look at the cache finds a matching entry. *)
Lemma parse_on_hit w fs inm url c :
  snd (Cache.get P repr fs (clock_get2 w) (CACHE_DIR S) url) = Some c ->
  Cache.etag c = Main._etag_for P url ->
  Main.parse P L H repr S w fs inm url
  = if Main.inm_is inm (Main._etag_for P url)
       && Main.etag_matches
            (snd (Cache.get P repr fs (clock_get1 w) (CACHE_DIR S) url))
            (Main._etag_for P url)
    then (fs, inr (Main.Plain 304))
    else (fs, inr (Main.JSONResponse (Cache.payload c)
                     (Main._cache_headers (Main._etag_for P url)
                        (DEFAULT_CACHE_TTL_SECONDS S)))).
Proof.
  intros Hget Hetag. rewrite MainFacts.parse_unfold, Hget, Hetag.
  now rewrite PyStrFacts.eqb_refl.
Qed.

(** [parse] when neither look at the cache finds a matching entry. *)
Lemma parse_on_miss w fs inm url :
  Main.etag_matches
    (snd (Cache.get P repr fs (clock_get1 w) (CACHE_DIR S) url))
    (Main._etag_for P url) = false ->
  Main.etag_matches
    (snd (Cache.get P repr fs (clock_get2 w) (CACHE_DIR S) url))
    (Main._etag_for P url) = false ->
  Main.parse P L H repr S w fs inm url = Main.on_miss P L H S w fs url.
Proof.
  intros H1 H2. rewrite MainFacts.parse_unfold, H1, andb_false_r.
  destruct (snd (Cache.get P repr fs (clock_get2 w) (CACHE_DIR S) url))
    as [c|]; [|reflexivity].
  simpl in H2. now rewrite H2.
Qed.

End Facts.
End RouteFacts.

(** X12. A cache hit does not depend on the network: when [get] returns
    an entry with the tag of the URL, [parse] answers the same for every
    network, fetch time and latency, provided the clock readings agree,
    and leaves the files as they are. *)
Theorem parse_hit_ignores_network (P : Platform) (L : Nlp) (H : Html)
    (repr : json -> pystr) (S : Settings) (w w' : World)
    (fs : gmap pystr Cache.file) (inm : option pystr) (url : pystr)
    (c : Cache.CacheEntry) :
  clock_get1 w' = clock_get1 w -> clock_get2 w' = clock_get2 w ->
  snd (Cache.get P repr fs (clock_get2 w) (CACHE_DIR S) url) = Some c ->
  Cache.etag c = Main._etag_for P url ->
  Main.parse P L H repr S w' fs inm url = Main.parse P L H repr S w fs inm url
  /\ fst (Main.parse P L H repr S w fs inm url) = fs
  /\ (snd (Main.parse P L H repr S w fs inm url) = inr (Main.Plain 304)
      \/ snd (Main.parse P L H repr S w fs inm url)
         = inr (Main.JSONResponse (Cache.payload c)
                  (Main._cache_headers (Main._etag_for P url)
                     (DEFAULT_CACHE_TTL_SECONDS S)))).
Proof.
  intros Hc1 Hc2 Hget Hetag.
  rewrite (RouteFacts.parse_on_hit P L H repr S w fs inm url c Hget Hetag).
  rewrite (RouteFacts.parse_on_hit P L H repr S w' fs inm url c)
    by (rewrite ?Hc2; assumption).
  rewrite Hc1.
  destruct (_ && _); (split; [reflexivity|split; [reflexivity|auto]]).
Qed.

Lemma parse_hit_ignores_network_witness :
  let fs := Cache.set Sample.platform ∅ 100 (py "./data/cache") Sample.url
              (Main._etag_for Sample.platform Sample.url) (JInt 1) 3600 in
  Main.parse Sample.platform Sample.nlp Sample.html Sample.repr
    Sample.settings (Sample.world Sample.flaky 160) fs None Sample.url
  = Main.parse Sample.platform Sample.nlp Sample.html Sample.repr
      Sample.settings (Sample.world (Sample.serving Sample.short_page) 160)
      fs None Sample.url.
Proof.
  intros fs.
  apply (parse_hit_ignores_network Sample.platform Sample.nlp Sample.html
           Sample.repr Sample.settings
           (Sample.world (Sample.serving Sample.short_page) 160)
           (Sample.world Sample.flaky 160) fs None Sample.url
           {| Cache.etag := Main._etag_for Sample.platform Sample.url;
              Cache.fetched_at := 100; Cache.ttl := 3600;
              Cache.payload := JInt 1 |}); reflexivity.
Defined.

(** X13. [parse] writes to the cache only with a fresh 200: when it
    raises, the error is the one [core_parse] raised and the files are as
    before; when the files change, the page was fetched and parsed and the
    new files are the old ones with the record of this request stored. *)
Theorem parse_writes_only_fresh_records (P : Platform) (L : Nlp) (H : Html)
    (repr : json -> pystr) (S : Settings) (w : World)
    (fs : gmap pystr Cache.file) (inm : option pystr) (url : pystr) :
  let r := Main.parse P L H repr S w fs inm url in
  (forall e, snd r = inl e ->
             fst r = fs /\ Main.core_parse P L H S w url = inl e)
  /\ (fst r <> fs ->
      exists result,
        Main.core_parse P L H S w url = inr result
        /\ fst r = Cache.set P fs (clock_set w) (CACHE_DIR S) url
                     (Main._etag_for P url) (JDict result)
                     (CACHE_TTL_SECONDS S)
        /\ snd r = inr (Main.JSONResponse (JDict result)
                          (Main._cache_headers (Main._etag_for P url)
                             (DEFAULT_CACHE_TTL_SECONDS S)))).
Proof.
  intros r. subst r. rewrite MainFacts.parse_unfold.
  assert (Hmiss :
    (forall e, snd (Main.on_miss P L H S w fs url) = inl e ->
               fst (Main.on_miss P L H S w fs url) = fs
               /\ Main.core_parse P L H S w url = inl e)
    /\ (fst (Main.on_miss P L H S w fs url) <> fs ->
        exists result,
          Main.core_parse P L H S w url = inr result
          /\ fst (Main.on_miss P L H S w fs url)
             = Cache.set P fs (clock_set w) (CACHE_DIR S) url
                 (Main._etag_for P url) (JDict result) (CACHE_TTL_SECONDS S)
          /\ snd (Main.on_miss P L H S w fs url)
             = inr (Main.JSONResponse (JDict result)
                      (Main._cache_headers (Main._etag_for P url)
                         (DEFAULT_CACHE_TTL_SECONDS S))))).
  { unfold Main.on_miss.
    destruct (Main.core_parse P L H S w url) as [e|result]; simpl; split.
    - intros e' [= <-]. now split.
    - intros Hne. contradiction.
    - discriminate.
    - intros _. eauto. }
  destruct (_ && _); simpl.
  - split; [discriminate|]. intros Hne. contradiction.
  - destruct (snd (Cache.get P repr fs (clock_get2 w) (CACHE_DIR S) url))
      as [c|]; [|exact Hmiss].
    destruct (PyStr.eqb _ _); [|exact Hmiss]. simpl.
    split; [discriminate|]. intros Hne. contradiction.
Qed.

Lemma parse_writes_only_fresh_records_witness :
  fst (Main.parse Sample.platform Sample.nlp Sample.html Sample.repr
         Sample.settings (Sample.world (Sample.serving Sample.short_page) 0)
         ∅ None Sample.url) = ∅.
Proof.
  destruct (parse_writes_only_fresh_records Sample.platform Sample.nlp
              Sample.html Sample.repr Sample.settings
              (Sample.world (Sample.serving Sample.short_page) 0)
              ∅ None Sample.url) as [Herr _].
  apply (Herr (HTTPException 422
                 (py "parse_failed: too little text extracted"))).
  reflexivity.
Defined.

Module ProjectionFacts.

Lemma snippet_length (f : dict) (s : pystr) :
  Main.snippet_of f = JStr s -> (length s <= 300)%nat.
Proof.
  unfold Main.snippet_of.
  destruct (or_else _ _) as [| | | |t| |]; try discriminate.
  destruct (300 <? length t)%nat eqn:Hlong; intros [= <-].
  - rewrite length_app. pose proof (length_firstn 280 t) as Hf.
    change (length [Main.ELLIPSIS]) with 1%nat. lia.
  - apply Nat.ltb_ge in Hlong. exact Hlong.
Qed.

End ProjectionFacts.

(** X14. Write-through: after a request that missed the cache and parsed
    the page, a second plain request before the entry expires gets the
    very same 200 answer, body and headers, from the cache, whatever the
    network does then, and the files stay as the first request left
    them. *)
Theorem second_request_is_served_from_cache (P : Platform) (L : Nlp)
    (H : Html) (repr : json -> pystr) (S : Settings) (w w2 : World)
    (fs : gmap pystr Cache.file) (inm : option pystr) (url : pystr)
    (result : dict) :
  Main.etag_matches
    (snd (Cache.get P repr fs (clock_get1 w) (CACHE_DIR S) url))
    (Main._etag_for P url) = false ->
  Main.etag_matches
    (snd (Cache.get P repr fs (clock_get2 w) (CACHE_DIR S) url))
    (Main._etag_for P url) = false ->
  Main.core_parse P L H S w url = inr result ->
  ((0 < CACHE_TTL_SECONDS S)%Z ->
   (clock_get2 w2 - clock_set w <= inject_Z (CACHE_TTL_SECONDS S))%Q) ->
  let first := Main.parse P L H repr S w fs inm url in
  Main.parse P L H repr S w2 (fst first) None url = first.
Proof.
  intros H1 H2 Hcore Hfresh first. subst first.
  rewrite (RouteFacts.parse_on_miss P L H repr S w fs inm url H1 H2).
  unfold Main.on_miss. rewrite Hcore. simpl fst.
  rewrite (RouteFacts.parse_on_hit P L H repr S w2 _ None url
             {| Cache.etag := Main._etag_for P url;
                Cache.fetched_at := clock_set w;
                Cache.ttl := CACHE_TTL_SECONDS S;
                Cache.payload := JDict result |}).
  - reflexivity.
  - now rewrite (CacheFacts.get_after_set P repr) by exact Hfresh.
  - reflexivity.
Qed.

Lemma second_request_is_served_from_cache_witness :
  let first := Main.parse Sample.platform Sample.nlp Sample.html Sample.repr
                 Sample.settings
                 (Sample.world (Sample.serving Sample.long_page) 100)
                 ∅ None Sample.url in
  Main.parse Sample.platform Sample.nlp Sample.html Sample.repr
    Sample.settings (Sample.world Sample.flaky 160) (fst first) None
    Sample.url = first.
Proof.
  intros first.
  destruct (Main.core_parse Sample.platform Sample.nlp Sample.html
              Sample.settings
              (Sample.world (Sample.serving Sample.long_page) 100)
              Sample.url) as [e|result] eqn:Hcore;
    [vm_compute in Hcore; discriminate|].
  apply (second_request_is_served_from_cache Sample.platform Sample.nlp
           Sample.html Sample.repr Sample.settings
           (Sample.world (Sample.serving Sample.long_page) 100)
           (Sample.world Sample.flaky 160) ∅ None Sample.url result);
    [reflexivity|reflexivity|exact Hcore|].
  intros _. unfold Qle. simpl. lia.
Defined.

(** X15. The projections never fail on a record of [core_parse]: all
    three return an object; the metadata carries the URL of the request
    and a word count of at least 10, the summary a sentiment score of
    absolute value at most 0.6, and the snippet of the preview is a string
    of at most 300 code points. *)
Theorem projections_of_fresh_record (P : Platform) (L : Nlp) (H : Html)
    (S : Settings) (w : World) (url : pystr) (payload : dict) :
  Main.core_parse P L H S w url = inr payload ->
  exists m s p count sentiment snippet,
    Main._project_metadata (JDict payload) = Some (JDict m)
    /\ Main._project_summary (JDict payload) = Some (JDict s)
    /\ Main._project_preview (JDict payload) = Some (JDict p)
    /\ dget (py "url") m = Some (JStr url)
    /\ dget (py "word_count") m = Some (JInt count) /\ (10 <= count)%Z
    /\ dget (py "sentiment") s = Some (Main.sentiment_json sentiment)
    /\ (Qabs (Enrich.score sentiment) <= 0.6)%Q
    /\ dget (py "snippet") p = Some (JStr snippet)
    /\ (length snippet <= 300)%nat.
Proof.
  intros Hcore.
  destruct (RouteFacts.core_parse_shape P L H S w url payload Hcore)
    as (text & title & language & published & image & summary & keywords
        & sentiment & site & sources & parser & -> & Hcount & Hscore).
  assert (Hsnip : exists snippet,
            Main.snippet_of
              [ (py "url", JStr url); (py "title", title);
                (py "text", JStr text); (py "language", JStr language);
                (py "published_at", published);
                (py "lead_image_url", image);
                (py "word_count", JInt (Utils.word_count P text));
                (py "summary", JStr summary);
                (py "keywords", JList keywords);
                (py "sentiment", Main.sentiment_json sentiment);
                (py "meta",
                 JDict [ (py "site", site);
                         (py "published_sources", JList sources);
                         (py "parser", JStr parser);
                         (py "fetched_at", JStr (fetched_at_text w));
                         (py "elapsed_ms", JInt (elapsed_ms w));
                         (py "cache", JBool false) ]) ]
            = JStr snippet).
  { unfold Main.snippet_of.
    change (Json.get (py "summary") _) with (JStr summary).
    change (Json.get (py "text") _) with (JStr text).
    unfold or_else. simpl Json.truthy.
    destruct (PyStr.truthy summary).
    - destruct (300 <? length summary)%nat; eauto.
    - destruct (PyStr.truthy text); [|simpl; eauto].
      destruct (300 <? length text)%nat; eauto. }
  destruct Hsnip as [snippet Hsnip].
  eexists _, _, _, (Utils.word_count P text), sentiment, snippet.
  split; [reflexivity|]. split; [reflexivity|]. split; [reflexivity|].
  split; [reflexivity|]. split; [reflexivity|]. split; [exact Hcount|].
  split; [reflexivity|]. split; [exact Hscore|].
  split.
  - change (dget (py "snippet") _)
      with (Some (Main.snippet_of
              [ (py "url", JStr url); (py "title", title);
                (py "text", JStr text); (py "language", JStr language);
                (py "published_at", published);
                (py "lead_image_url", image);
                (py "word_count", JInt (Utils.word_count P text));
                (py "summary", JStr summary);
                (py "keywords", JList keywords);
                (py "sentiment", Main.sentiment_json sentiment);
                (py "meta",
                 JDict [ (py "site", site);
                         (py "published_sources", JList sources);
                         (py "parser", JStr parser);
                         (py "fetched_at", JStr (fetched_at_text w));
                         (py "elapsed_ms", JInt (elapsed_ms w));
                         (py "cache", JBool false) ]) ])).
    now rewrite Hsnip.
  - eapply ProjectionFacts.snippet_length. exact Hsnip.
Qed.

Lemma projections_of_fresh_record_witness :
  exists m,
    Main._project_metadata
      (JDict (match Main.core_parse Sample.platform Sample.nlp Sample.html
                      Sample.settings
                      (Sample.world (Sample.serving Sample.long_page) 100)
                      Sample.url with
              | inr payload => payload
              | inl _ => []
              end)) = Some (JDict m)
    /\ dget (py "url") m = Some (JStr Sample.url).
Proof.
  destruct (Main.core_parse Sample.platform Sample.nlp Sample.html
              Sample.settings
              (Sample.world (Sample.serving Sample.long_page) 100)
              Sample.url) as [e|payload] eqn:Hcore;
    [vm_compute in Hcore; discriminate|].
  destruct (projections_of_fresh_record Sample.platform Sample.nlp
              Sample.html Sample.settings
              (Sample.world (Sample.serving Sample.long_page) 100)
              Sample.url payload Hcore)
    as (m & s & p & count & sentiment & snippet & Hm & _ & _ & Hurl & _).
  exists m. split; [exact Hm|exact Hurl].
Defined.

Module EndpointFacts.
Section Facts.
Context (P : Platform) (L : Nlp) (H : Html) (repr : json -> pystr).
Context (S : Settings).

(** All three projections are defined on a record of [core_parse]. *)
Lemma projections_defined w url payload :
  Main.core_parse P L H S w url = inr payload ->
  exists m s p,
    Main._project_metadata (JDict payload) = Some m
    /\ Main._project_summary (JDict payload) = Some s
    /\ Main._project_preview (JDict payload) = Some p.
Proof.
  intros Hcore.
  destruct (RouteFacts.core_parse_shape P L H S w url payload Hcore)
    as (text & title & language & published & image & summary & keywords
        & sentiment & site & sources & parser & -> & _ & _).
  do 3 eexists. split; [reflexivity|]. split; reflexivity.
Qed.

(** A projection endpoint on a request that misses the cache. *)
Lemma projected_on_miss suffix project w fs inm url result proj :
  Main.inm_is inm (Main._etag_for P url ++ suffix) = false ->
  Main.etag_matches
    (snd (Cache.get P repr fs (clock_get1 w) (CACHE_DIR S) url))
    (Main._etag_for P url) = false ->
  Main.etag_matches
    (snd (Cache.get P repr fs (clock_get2 w) (CACHE_DIR S) url))
    (Main._etag_for P url) = false ->
  Main.core_parse P L H S w url = inr result ->
  project (JDict result) = Some proj ->
  Main.projected P L H repr S suffix project w fs inm url
  = (Cache.set P fs (clock_set w) (CACHE_DIR S) url (Main._etag_for P url)
       (JDict result) (CACHE_TTL_SECONDS S),
     inr (Main.JSONResponse proj
            (Main._cache_headers (Main._etag_for P url ++ suffix)
               (DEFAULT_CACHE_TTL_SECONDS S)))).
Proof.
  intros Hinm H1 H2 Hcore Hproj. unfold Main.projected. rewrite Hinm.
  rewrite (RouteFacts.parse_on_miss P L H repr S w fs inm url H1 H2).
  unfold Main.on_miss. rewrite Hcore. now rewrite Hproj.
Qed.

End Facts.
End EndpointFacts.

(** X16. The projection endpoints cache the full record: on a request
    that misses the cache and parses the page, [/v1/metadata],
    [/v1/summary] and [/v1/preview] answer 200 with the projection of the
    fresh record and the suffixed tag, and leave in the cache exactly what
    [/v1/parse] stores, the full record under the unsuffixed tag. *)
Theorem projection_endpoints_cache_full_record (P : Platform) (L : Nlp)
    (H : Html) (repr : json -> pystr) (S : Settings) (w : World)
    (fs : gmap pystr Cache.file) (url : pystr) (result : dict) :
  Main.etag_matches
    (snd (Cache.get P repr fs (clock_get1 w) (CACHE_DIR S) url))
    (Main._etag_for P url) = false ->
  Main.etag_matches
    (snd (Cache.get P repr fs (clock_get2 w) (CACHE_DIR S) url))
    (Main._etag_for P url) = false ->
  Main.core_parse P L H S w url = inr result ->
  let stored := Cache.set P fs (clock_set w) (CACHE_DIR S) url
                  (Main._etag_for P url) (JDict result)
                  (CACHE_TTL_SECONDS S) in
  let headers suffix :=
    Main._cache_headers (Main._etag_for P url ++ suffix)
      (DEFAULT_CACHE_TTL_SECONDS S) in
  fst (Main.parse P L H repr S w fs None url) = stored
  /\ exists m s p,
       Main._project_metadata (JDict result) = Some m
       /\ Main._project_summary (JDict result) = Some s
       /\ Main._project_preview (JDict result) = Some p
       /\ Main.metadata P L H repr S w fs None url
          = (stored, inr (Main.JSONResponse m (headers (py "-meta"))))
       /\ Main.summary P L H repr S w fs None url
          = (stored, inr (Main.JSONResponse s (headers (py "-sum"))))
       /\ Main.preview P L H repr S w fs None url
          = (stored, inr (Main.JSONResponse p (headers (py "-prev")))).
Proof.
  intros H1 H2 Hcore stored headers. split.
  - rewrite (RouteFacts.parse_on_miss P L H repr S w fs None url H1 H2).
    unfold Main.on_miss. now rewrite Hcore.
  - destruct (EndpointFacts.projections_defined P L H S w url result Hcore)
      as (m & s & p & Hm & Hs & Hp).
    exists m, s, p. repeat (split; [assumption|]).
    split; [|split];
      now apply (EndpointFacts.projected_on_miss P L H repr S).
Qed.

Lemma projection_endpoints_cache_full_record_witness :
  fst (Main.metadata Sample.platform Sample.nlp Sample.html Sample.repr
         Sample.settings (Sample.world (Sample.serving Sample.long_page) 100)
         ∅ None Sample.url)
  = fst (Main.parse Sample.platform Sample.nlp Sample.html Sample.repr
           Sample.settings
           (Sample.world (Sample.serving Sample.long_page) 100)
           ∅ None Sample.url).
Proof.
  destruct (Main.core_parse Sample.platform Sample.nlp Sample.html
              Sample.settings
              (Sample.world (Sample.serving Sample.long_page) 100)
              Sample.url) as [e|result] eqn:Hcore;
    [vm_compute in Hcore; discriminate|].
  destruct (projection_endpoints_cache_full_record Sample.platform
              Sample.nlp Sample.html Sample.repr Sample.settings
              (Sample.world (Sample.serving Sample.long_page) 100)
              ∅ Sample.url result)
    as (Hparse & m & s & p & _ & _ & _ & Hmeta & _);
    [reflexivity|reflexivity|exact Hcore|].
  now rewrite Hmeta, Hparse.
Defined.

(** X17. How [core_parse] fails before extraction: an error of the
    fetcher is raised unchanged, so three timeouts in a row surface as the
    timeout; and a page whose content-type header is missing or does not
    contain text/html is refused with 415, whatever its body. *)
Theorem core_parse_fails_before_extraction (P : Platform) (L : Nlp)
    (H : Html) (S : Settings) (w : World) (url : pystr) :
  (forall e,
      snd (Extractor.fetch_html H (net w) url) = inl e ->
      Main.core_parse P L H S w url = inl e)
  /\ ((forall attempt, net w attempt url = Extractor.Raised TimeoutException)
      -> Main.core_parse P L H S w url = inl TimeoutException)
  /\ (forall page headers,
        snd (Extractor.fetch_html H (net w) url) = inr (page, headers) ->
        Main.header_get (py "content-type") headers = None
        \/ (exists ctype,
              Main.header_get (py "content-type") headers = Some ctype
              /\ contains (py "text/html") (lower ctype) = false) ->
        Main.core_parse P L H S w url
        = inl (HTTPException 415 (py "unsupported content-type"))).
Proof.
  split; [|split].
  - intros e He. unfold Main.core_parse. now rewrite He.
  - intros Hnet. unfold Main.core_parse, Extractor.fetch_html.
    simpl. unfold Extractor.attempt_once. now rewrite !Hnet.
  - intros page headers Hfetch Hctype. unfold Main.core_parse.
    rewrite Hfetch.
    destruct Hctype as [->|(ctype & -> & Hc)]; [reflexivity|].
    simpl. now rewrite Hc.
Qed.

Lemma core_parse_fails_before_extraction_witness :
  Main.core_parse Sample.platform Sample.nlp Sample.html Sample.settings
    (Sample.world (fun _ _ => Extractor.Raised TimeoutException) 0)
    Sample.url = inl TimeoutException.
Proof.
  destruct (core_parse_fails_before_extraction Sample.platform Sample.nlp
              Sample.html Sample.settings
              (Sample.world (fun _ _ => Extractor.Raised TimeoutException) 0)
              Sample.url) as (_ & Htimeout & _).
  apply Htimeout. reflexivity.
Defined.

(** ** More on the fetcher *)

(** X18. The outcome of [fetch_html] is always that of the last attempt
    it made: with [k] sleeps it made [k + 1 <= 3] attempts, slept
    [0.5 * 2^i] seconds after each failed attempt [i < k], every one of
    which failed with an error the loop catches, and it returns the result
    of attempt [k] or raises the error of attempt [k], which is either not
    a caught one or that of the third attempt.  It never sleeps after its
    last attempt. *)
Theorem fetch_outcome_is_last_attempt (H : Html) (net : Extractor.network)
    (url : pystr) :
  let slept := fst (Extractor.fetch_html H net url) in
  let k := length slept in
  (k <= 2)%nat
  /\ slept = List.map Extractor.backoff (seq 0 k)
  /\ (forall i, (i < k)%nat ->
        exists e, Extractor.attempt_once H net url i = inl e
                  /\ Extractor.caught e = true)
  /\ match snd (Extractor.fetch_html H net url) with
     | inr ok => Extractor.attempt_once H net url k = inr ok
     | inl e => Extractor.attempt_once H net url k = inl e
                /\ (Extractor.caught e = false \/ k = 2%nat)
     end.
Proof.
  unfold Extractor.fetch_html. simpl seq. simpl Extractor.fetch_over.
  assert (Hnone : forall i, (i < 0)%nat ->
            exists e, Extractor.attempt_once H net url i = inl e
                      /\ Extractor.caught e = true) by (intros i Hi; lia).
  destruct (Extractor.attempt_once H net url 0) as [e0|ok0] eqn:H0.
  2:{ simpl. repeat split; solve [lia|reflexivity|assumption]. }
  destruct (Extractor.caught e0) eqn:C0.
  2:{ simpl. repeat split; solve [lia|reflexivity|assumption|now left]. }
  simpl Nat.eqb. cbv iota.
  assert (Hone : forall i, (i < 1)%nat ->
            exists e, Extractor.attempt_once H net url i = inl e
                      /\ Extractor.caught e = true).
  { intros i Hi. assert (i = 0%nat) as -> by lia. eauto. }
  destruct (Extractor.attempt_once H net url 1) as [e1|ok1] eqn:H1.
  2:{ simpl. repeat split; solve [lia|reflexivity|assumption]. }
  destruct (Extractor.caught e1) eqn:C1.
  2:{ simpl. repeat split; solve [lia|reflexivity|assumption|now left]. }
  simpl Nat.eqb. cbv iota.
  assert (Htwo : forall i, (i < 2)%nat ->
            exists e, Extractor.attempt_once H net url i = inl e
                      /\ Extractor.caught e = true).
  { intros i Hi. destruct i as [|[|i]]; [eauto|eauto|lia]. }
  destruct (Extractor.attempt_once H net url 2) as [e2|ok2] eqn:H2.
  2:{ simpl. repeat split; solve [lia|reflexivity|assumption]. }
  destruct (Extractor.caught e2) eqn:C2; simpl;
    repeat split;
    solve [lia|reflexivity|assumption|now left|now right].
Qed.

(** X19. A 2xx answer always gives a page, whatever becomes of the
    optional printable GET: the page is that of the answer itself, or, for
    a sparse 200 answer from a wikipedia.org URL, that of a printable 200
    answer with strictly more paragraph tags. *)
Theorem success_answer_gives_a_page (H : Html) (net : Extractor.network)
    (url : pystr) (attempt : nat) (r : Extractor.HttpResponse) :
  net attempt url = Extractor.Got r ->
  (200 <= Extractor.status_code r <= 299)%Z ->
  Extractor.attempt_once H net url attempt
    = inr (Extractor.text r, Extractor.headers r)
  \/ (Extractor.status_code r = 200%Z
      /\ contains (py "wikipedia.org") (lower (Extractor.final_url r)) = true
      /\ (count (py "<p") (Extractor.text r) < 5)%nat
      /\ exists printable_url r2,
           add_printable H (Extractor.final_url r) = Some printable_url
           /\ net attempt printable_url = Extractor.Got r2
           /\ Extractor.status_code r2 = 200%Z
           /\ (count (py "<p") (Extractor.text r)
               < count (py "<p") (Extractor.text r2))%nat
           /\ Extractor.attempt_once H net url attempt
              = inr (Extractor.text r2, Extractor.headers r2)).
Proof.
  intros Hget Hst. unfold Extractor.attempt_once, Extractor.raise_for_status.
  rewrite Hget.
  replace ((200 <=? Extractor.status_code r)%Z
           && (Extractor.status_code r <=? 299)%Z) with true
    by (symmetry; apply andb_true_iff; split; apply Z.leb_le; lia).
  destruct ((Extractor.status_code r =? 200)%Z
            && contains (py "wikipedia.org") (lower (Extractor.final_url r)))
    eqn:Hwiki; [|now left].
  apply andb_true_iff in Hwiki as [H200 Hhost]. apply Z.eqb_eq in H200.
  destruct (count (py "<p") (Extractor.text r) <? 5)%nat eqn:Hsparse;
    [|now left].
  apply Nat.ltb_lt in Hsparse.
  destruct (add_printable H (Extractor.final_url r)) as [purl|] eqn:Hp;
    [|now left].
  destruct (net attempt purl) as [e|r2] eqn:Hget2; [now left|].
  destruct ((Extractor.status_code r2 =? 200)%Z
            && (count (py "<p") (Extractor.text r)
                <? count (py "<p") (Extractor.text r2))%nat)
    eqn:Hbetter; [|now left].
  apply andb_true_iff in Hbetter as [H200' Hmore].
  apply Z.eqb_eq in H200'. apply Nat.ltb_lt in Hmore.
  right. split; [exact H200|]. split; [exact Hhost|].
  split; [exact Hsparse|]. exists purl, r2.
  split; [reflexivity|]. split; [exact Hget2|]. split; [exact H200'|].
  split; [exact Hmore|reflexivity].
Qed.

Lemma success_answer_gives_a_page_witness :
  Extractor.attempt_once Sample.html (Sample.serving Sample.long_page)
    Sample.url 0
  = inr (Sample.long_page,
         [ (py "content-type", py "text/html; charset=utf-8") ]).
Proof.
  destruct (success_answer_gives_a_page Sample.html
              (Sample.serving Sample.long_page) Sample.url 0
              (Sample.response 200 Sample.long_page))
    as [Hplain|(_ & Hwiki & _)].
  - reflexivity.
  - simpl. lia.
  - exact Hplain.
  - vm_compute in Hwiki. discriminate.
Defined.

(** ** More on the sentiment score *)

Module ScoreFacts.

Lemma Qltb_spec (a b : Q) :
  (Cache.Qltb a b = true /\ (a < b)%Q)
  \/ (Cache.Qltb a b = false /\ (b <= a)%Q).
Proof.
  destruct (Qlt_le_dec a b) as [Hlt|Hle].
  - left. split; [now apply CacheFacts.Qltb_true|exact Hlt].
  - right. split; [now apply CacheFacts.Qltb_false|exact Hle].
Qed.

(** Rounding to four decimals stays between bounds that have four
    decimals. *)
Lemma round4_between (lo hi : Z) (x : Q) :
  (inject_Z lo / 10000 <= x <= inject_Z hi / 10000)%Q ->
  (inject_Z lo / 10000 <= Enrich.round4 x <= inject_Z hi / 10000)%Q.
Proof.
  intros [Hlo Hhi]. unfold Enrich.round4.
  assert (Hr : (lo <= Enrich.round_half_even (x * 10000) <= hi)%Z).
  { apply EnrichFacts.round_half_even_bounds. split.
    - assert (He : (inject_Z lo == inject_Z lo / 10000 * 10000)%Q)
        by (field; discriminate).
      rewrite He. apply Qmult_le_compat_r; [exact Hlo|discriminate].
    - assert (He : (inject_Z hi == inject_Z hi / 10000 * 10000)%Q)
        by (field; discriminate).
      rewrite He. apply Qmult_le_compat_r; [exact Hhi|discriminate]. }
  destruct Hr as [Hr1 Hr2]. split.
  - apply Qmult_le_compat_r; [|discriminate]. now rewrite <- Zle_Qle.
  - apply Qmult_le_compat_r; [|discriminate]. now rewrite <- Zle_Qle.
Qed.

Lemma round4_range (lo hi : Z) (a b x : Q) :
  (a == inject_Z lo / 10000)%Q -> (b == inject_Z hi / 10000)%Q ->
  (a <= x <= b)%Q -> (a <= Enrich.round4 x <= b)%Q.
Proof.
  intros Ha Hb Hx. rewrite Ha, Hb in *. now apply round4_between.
Qed.

(** Label and rounded score of a clamped compound value. *)
Lemma label_matches_score (c : Q) :
  (-0.6 <= c <= 0.6)%Q ->
  match Enrich.label_of c with
  | Enrich.positive => (0.05 <= Enrich.round4 c <= 0.6)%Q
  | Enrich.negative => (-0.6 <= Enrich.round4 c <= -0.05)%Q
  | Enrich.neutral => (-0.05 <= Enrich.round4 c <= 0.05)%Q
  end.
Proof.
  intros [Hlo Hhi]. unfold Enrich.label_of.
  destruct (Qltb_spec 0.05 c) as [[-> Hpos]|[-> Hnp]].
  - apply (round4_range 500 6000); [reflexivity|reflexivity|].
    split; [now apply Qlt_le_weak|exact Hhi].
  - destruct (Qltb_spec c (-0.05)) as [[-> Hneg]|[-> Hnn]].
    + apply (round4_range (-6000) (-500)); [reflexivity|reflexivity|].
      split; [exact Hlo|now apply Qlt_le_weak].
    + apply (round4_range (-500) 500); [reflexivity|reflexivity|].
      split; assumption.
Qed.

End ScoreFacts.

(** X20. Label and score of [analyze_sentiment] agree: a positive label
    comes with a score in [0.05, 0.6], a negative one with a score in
    [-0.6, -0.05] and a neutral one with a score in [-0.05, 0.05]. *)
Theorem sentiment_label_agrees_with_score (L : Nlp) (text : pystr)
    (source_url : option pystr) :
  let r := Enrich.analyze_sentiment L text source_url in
  match Enrich.label r with
  | Enrich.positive => (0.05 <= Enrich.score r <= 0.6)%Q
  | Enrich.negative => (-0.6 <= Enrich.score r <= -0.05)%Q
  | Enrich.neutral => (-0.05 <= Enrich.score r <= 0.05)%Q
  end.
Proof.
  intros r. subst r. unfold Enrich.analyze_sentiment.
  destruct (PyStr.truthy (strip text)); [|split; discriminate].
  unfold Enrich.scored. destruct (vader_ready L); [|split; discriminate].
  destruct (Enrich.compound L (strip text)) as [comp|];
    [|split; discriminate].
  simpl. apply ScoreFacts.label_matches_score.
  destruct (Enrich.in_neutral_domain source_url).
  - destruct (EnrichFacts.clamp_bounds (-0.04) 0.04 comp) as [H1 H2];
      [discriminate|]. split.
    + apply Qle_trans with (y := (-0.04)%Q); [discriminate|exact H1].
    + apply Qle_trans with (y := 0.04%Q); [exact H2|discriminate].
  - apply EnrichFacts.clamp_bounds. discriminate.
Qed.

(** ** The merge of the extractors *)

Module DictFacts.

Lemma dget_dset (k k' : pystr) (v : json) (d : dict) :
  dget k (dset k' v d) = if PyStr.eqb k k' then Some v else dget k d.
Proof.
  induction d as [|[k0 v0] d IH]; simpl.
  - reflexivity.
  - destruct (PyStr.eqb k' k0) eqn:E0; simpl.
    + apply PyStrFacts.eqb_eq in E0. subst k0.
      now destruct (PyStr.eqb k k').
    + destruct (PyStr.eqb k k0) eqn:E1.
      * apply PyStrFacts.eqb_eq in E1. subst k0.
        destruct (PyStr.eqb k k') eqn:E2; [|reflexivity].
        apply PyStrFacts.eqb_eq in E2. subst k'.
        rewrite PyStrFacts.eqb_refl in E0. discriminate.
      * exact IH.
Qed.

Lemma get_dset_other (k k' : pystr) (v : json) (d : dict) :
  PyStr.eqb k k' = false -> Json.get k (dset k' v d) = Json.get k d.
Proof. intros E. unfold Json.get. now rewrite dget_dset, E. Qed.

Lemma get_dset_same (k : pystr) (v : json) (d : dict) :
  Json.get k (dset k v d) = v.
Proof. unfold Json.get. now rewrite dget_dset, PyStrFacts.eqb_refl. Qed.

End DictFacts.

Module MetaFacts.

Lemma mem_In (k : pystr) (l : list pystr) :
  MetaTags.mem k l = true -> In k l.
Proof.
  unfold MetaTags.mem. intros Hm. apply existsb_exists in Hm as (x & Hx & E).
  apply PyStrFacts.eqb_eq in E. now subst.
Qed.

(** The keys of the dictionary stay among the kept properties. *)
Lemma meta_step_cases meta tag meta' :
  MetaTags.meta_step meta tag = Some meta' ->
  meta' = meta
  \/ exists p c, In p MetaTags.KEPT /\ meta' = dset p c meta.
Proof.
  unfold MetaTags.meta_step.
  destruct (negb _ || negb _).
  - intros [= <-]. now left.
  - destruct (get_or (py "property") _ tag) as [| | | |p| |];
      try discriminate; try (intros [= <-]; now left).
    destruct (MetaTags.mem p MetaTags.KEPT) eqn:Hm.
    + intros [= <-]. right. eexists _, _. split; [|reflexivity].
      now apply mem_In.
    + intros [= <-]. now left.
Qed.

(** The keys of the dictionary stay among the kept properties. *)
Lemma meta_step_keys meta tag meta' :
  MetaTags.meta_step meta tag = Some meta' ->
  (forall k v, dget k meta = Some v -> In k MetaTags.KEPT) ->
  forall k v, dget k meta' = Some v -> In k MetaTags.KEPT.
Proof.
  intros Hstep Hkeys.
  destruct (meta_step_cases _ _ _ Hstep) as [-> | (p & c & Hp & ->)];
    [exact Hkeys|].
  intros k v. rewrite DictFacts.dget_dset.
  destruct (PyStr.eqb k p) eqn:E; [|apply Hkeys].
  apply PyStrFacts.eqb_eq in E. now subst k.
Qed.

Lemma meta_loop_keys tags : forall meta meta',
  MetaTags.meta_loop meta tags = Some meta' ->
  (forall k v, dget k meta = Some v -> In k MetaTags.KEPT) ->
  forall k v, dget k meta' = Some v -> In k MetaTags.KEPT.
Proof.
  induction tags as [|tag rest IH]; intros meta meta' Hloop Hkeys; simpl in *.
  - injection Hloop as <-. exact Hkeys.
  - destruct (MetaTags.meta_step meta tag) as [m1|] eqn:Hstep;
      [|discriminate].
    eapply IH; [exact Hloop|]. eapply meta_step_keys; eauto.
Qed.

Lemma extract_meta_keys tags time_tag k v :
  dget k (MetaTags.extract_meta_from tags time_tag) = Some v ->
  In k (MetaTags.KEPT ++ [py "time"]).
Proof.
  unfold MetaTags.extract_meta_from.
  destruct (MetaTags.meta_loop [] tags) as [meta|] eqn:Hloop;
    [|discriminate].
  assert (Hkeys : forall k v, dget k meta = Some v -> In k MetaTags.KEPT).
  { eapply meta_loop_keys; [exact Hloop|]. discriminate. }
  assert (Hin : dget k meta = Some v -> In k (MetaTags.KEPT ++ [py "time"])).
  { intros Hk. apply in_or_app. left. eapply Hkeys. exact Hk. }
  destruct time_tag as [t|]; [|exact Hin].
  destruct (Json.truthy _); [|exact Hin].
  rewrite DictFacts.dget_dset.
  destruct (PyStr.eqb k (py "time")) eqn:E; [|exact Hin].
  apply PyStrFacts.eqb_eq in E. subst k. intros _.
  apply in_or_app. right. now left.
Qed.

Section Merge.
Context (H : Html).

Lemma fill_gap_absent meta k result :
  dget k meta = None -> Extractor.fill_gap meta k result = result.
Proof.
  intros Hk. unfold Extractor.fill_gap, Json.get. rewrite Hk. simpl.
  now rewrite andb_false_r.
Qed.

(** Without the keys [title], [date] and [image] a metadata dictionary
    has no part in the merge. *)
Lemma merge_without_gap_keys primary meta html url :
  dget (py "title") meta = None -> dget (py "date") meta = None ->
  dget (py "image") meta = None ->
  Extractor.merge_extraction H primary meta html url
  = Extractor.merge_extraction H primary [] html url.
Proof.
  intros Ht Hd Hi. unfold Extractor.merge_extraction.
  now rewrite !fill_gap_absent by (assumption || reflexivity).
Qed.

End Merge.
End MetaFacts.

(** X21. The metadata of [extract_meta_bs4] never fills a gap of the
    merge: the loop keeps only the properties og:title, og:image,
    twitter:image and article:published_time, and the key time, while the
    merge looks for title, date and image; so merging with the extracted
    metadata gives what merging with no metadata gives. *)
Theorem extracted_meta_fills_no_gap (H : Html) (primary : dict)
    (tags : list dict) (time_tag : option dict) (html url : pystr) :
  (forall k v,
      dget k (MetaTags.extract_meta_from tags time_tag) = Some v ->
      In k [ py "og:title"; py "og:image"; py "twitter:image";
             py "article:published_time"; py "time" ])
  /\ Extractor.merge_extraction H primary
       (MetaTags.extract_meta_from tags time_tag) html url
     = Extractor.merge_extraction H primary [] html url.
Proof.
  split; [apply MetaFacts.extract_meta_keys|].
  assert (Habsent : forall k,
            ~ In k (MetaTags.KEPT ++ [py "time"]) ->
            dget k (MetaTags.extract_meta_from tags time_tag) = None).
  { intros k Hk.
    destruct (dget k (MetaTags.extract_meta_from tags time_tag)) as [v|]
      eqn:E; [|reflexivity].
    apply MetaFacts.extract_meta_keys in E. contradiction. }
  apply MetaFacts.merge_without_gap_keys; apply Habsent; simpl;
    intros Hin;
    repeat (destruct Hin as [Hin|Hin]; [vm_compute in Hin; discriminate|]);
    exact Hin.
Qed.

Module MergeFacts.
Section Facts.
Context (H : Html).

Lemma fill_gap_get_other meta k k' result :
  PyStr.eqb k k' = false ->
  Json.get k (Extractor.fill_gap meta k' result) = Json.get k result.
Proof.
  intros E. unfold Extractor.fill_gap.
  destruct (negb _ && _); [|reflexivity].
  now apply DictFacts.get_dset_other.
Qed.

Lemma get_if_dset (k k' : pystr) (c : bool) (v : json) (r : dict) :
  PyStr.eqb k k' = false ->
  Json.get k (if c then dset k' v r else r) = Json.get k r.
Proof.
  intros E. destruct c; [|reflexivity]. now apply DictFacts.get_dset_other.
Qed.

Lemma text_of_filled meta primary :
  Json.get (py "text")
    (Extractor.fill_gap meta (py "image")
       (Extractor.fill_gap meta (py "date")
          (Extractor.fill_gap meta (py "title") primary)))
  = Json.get (py "text") primary.
Proof. now rewrite !fill_gap_get_other by reflexivity. Qed.

(** The merge, cut into its steps. *)
Lemma merge_steps primary meta html url result used :
  Extractor.merge_extraction H primary meta html url = inr (result, used) ->
  exists t r3,
    as_str (or_else (Json.get (py "text") primary) (JStr [])) = Some t
    /\ (forall k, PyStr.eqb k (py "date") = false ->
                   Json.get k result = Json.get k r3)
    /\ let filled :=
         Extractor.fill_gap meta (py "image")
           (Extractor.fill_gap meta (py "date")
              (Extractor.fill_gap meta (py "title") primary)) in
       let short := (length (split (strip t)) <? 20)%nat in
       let r1 := if short
                 then dset (py "text") (JStr (fallback_body_text_bs4 H html))
                        filled
                 else filled in
       let no_title := negb (Json.truthy (Json.get (py "title") r1))
                       && Extractor.opt_truthy (extract_title_bs4 H html) in
       let r2 := if no_title
                 then dset (py "title") (Extractor.of_opt (extract_title_bs4 H html)) r1
                 else r1 in
       let no_image := negb (Json.truthy (Json.get (py "image") r2))
                       && Extractor.opt_truthy (extract_lead_image_bs4 H html url) in
       r3 = (if no_image
             then dset (py "image")
                    (Extractor.of_opt (extract_lead_image_bs4 H html url)) r2
             else r2)
       /\ used = short || no_title || no_image.
Proof.
  unfold Extractor.merge_extraction. rewrite text_of_filled.
  set (filled := Extractor.fill_gap meta (py "image") _).
  destruct (as_str _) as [t|]; [|discriminate].
  intros Hm. exists t.
  destruct (length (split (strip t)) <? 20)%nat;
    match type of Hm with
    | context [negb (Json.truthy (Json.get (py "title") ?r))
               && Extractor.opt_truthy ?o] =>
        destruct (negb (Json.truthy (Json.get (py "title") r))
                  && Extractor.opt_truthy o)
    end;
    match type of Hm with
    | context [negb (Json.truthy (Json.get (py "image") ?r))
               && Extractor.opt_truthy ?o] =>
        destruct (negb (Json.truthy (Json.get (py "image") r))
                  && Extractor.opt_truthy o)
    end;
    match type of Hm with
    | context [Json.get (py "date") ?r] =>
        exists r; split; [reflexivity|];
          destruct (Json.truthy (Json.get (py "date") r));
          [destruct (Json.get (py "date") r); try discriminate;
           destruct (fromisoformat_ok H _)|];
          injection Hm as <- <-;
          (split;
           [intros k Hk;
            first [reflexivity | now apply DictFacts.get_dset_other]
           |split; reflexivity])
    end.
Qed.

End Facts.
End MergeFacts.

(** X22. The text of a merge that returns: the text of the primary
    extraction ([""] when missing or falsy) is kept as it is when,
    stripped, it has 20 words or more; with fewer words the text is the
    paragraph fallback and the BS4 flag is set. *)
Theorem merge_text_policy (H : Html) (primary meta : dict)
    (html url : pystr) (result : dict) (used : bool) :
  Extractor.merge_extraction H primary meta html url = inr (result, used) ->
  exists t,
    as_str (or_else (Json.get (py "text") primary) (JStr [])) = Some t
    /\ ((length (split (strip t)) < 20)%nat ->
        Json.get (py "text") result = JStr (fallback_body_text_bs4 H html)
        /\ used = true)
    /\ ((20 <= length (split (strip t)))%nat ->
        Json.get (py "text") result = JStr t
        /\ Json.get (py "text") primary = JStr t).
Proof.
  intros Hm.
  destruct (MergeFacts.merge_steps H _ _ _ _ _ _ Hm)
    as (t & r3 & Ht & Hdate & Hr3 & Hused).
  exists t. split; [exact Ht|].
  rewrite (Hdate (py "text")) by reflexivity. subst r3.
  rewrite !MergeFacts.get_if_dset by reflexivity. split.
  - intros Hshort. apply Nat.ltb_lt in Hshort. rewrite Hshort in Hused |- *.
    split; [apply DictFacts.get_dset_same|exact Hused].
  - intros Hlong. apply Nat.ltb_ge in Hlong. rewrite Hlong.
    rewrite MergeFacts.text_of_filled.
    unfold or_else in Ht.
    destruct (Json.truthy (Json.get (py "text") primary)) eqn:Htruthy.
    + destruct (Json.get (py "text") primary); try discriminate.
      injection Ht as ->. now split.
    + injection Ht as <-. vm_compute in Hlong. discriminate.
Qed.

Lemma merge_text_policy_witness :
  match
    Extractor.merge_extraction Sample.html
      [ (py "text", JStr Sample.long_page) ] [] Sample.long_page Sample.url
  with
  | inr (result, _) => Json.get (py "text") result = JStr Sample.long_page
  | inl _ => False
  end.
Proof.
  destruct (Extractor.merge_extraction Sample.html
              [ (py "text", JStr Sample.long_page) ] [] Sample.long_page
              Sample.url) as [e|[result used]] eqn:Hm.
  - vm_compute in Hm. discriminate.
  - destruct (merge_text_policy _ _ _ _ _ _ _ Hm) as (t & Ht & _ & Hlong).
    injection Ht as <-. apply Hlong. vm_compute. lia.
Defined.

(** X23. A merge that returns with the BS4 flag unset took nothing from
    BeautifulSoup: outside the date, the result is the primary
    extraction with its gaps filled from the metadata, and its text has
    20 words or more. *)
Theorem merge_without_fallback (H : Html) (primary meta : dict)
    (html url : pystr) (result : dict) :
  Extractor.merge_extraction H primary meta html url = inr (result, false) ->
  let filled :=
    Extractor.fill_gap meta (py "image")
      (Extractor.fill_gap meta (py "date")
         (Extractor.fill_gap meta (py "title") primary)) in
  (forall k, PyStr.eqb k (py "date") = false ->
             Json.get k result = Json.get k filled)
  /\ (exists t, Json.get (py "text") result = JStr t
                /\ (20 <= length (split (strip t)))%nat).
Proof.
  intros Hm filled.
  destruct (MergeFacts.merge_steps H _ _ _ _ _ _ Hm)
    as (t & r3 & Ht & Hdate & Hr3 & Hused).
  fold filled in Hr3, Hused.
  symmetry in Hused.
  apply orb_false_iff in Hused as [Hused Himage].
  apply orb_false_iff in Hused as [Hshort Htitle].
  rewrite Hshort in Hr3, Htitle, Himage.
  rewrite Htitle in Hr3, Himage. rewrite Himage in Hr3. subst r3.
  split; [exact Hdate|].
  rewrite !Hdate by reflexivity.
  exists t. apply Nat.ltb_ge in Hshort. split; [|exact Hshort].
  unfold filled. rewrite MergeFacts.text_of_filled.
  unfold or_else in Ht.
  destruct (Json.truthy (Json.get (py "text") primary)) eqn:Htruthy.
  - destruct (Json.get (py "text") primary); try discriminate.
    now injection Ht as ->.
  - injection Ht as <-. vm_compute in Hshort. lia.
Qed.

Lemma merge_without_fallback_witness :
  Json.get (py "title") (Extractor.fill_gap [] (py "image")
      (Extractor.fill_gap [] (py "date")
         (Extractor.fill_gap [] (py "title")
            [ (py "title", JStr (py "Sample"));
              (py "text", JStr Sample.long_page) ])))
  = JStr (py "Sample").
Proof.
  pose proof (merge_without_fallback Sample.html
    [ (py "title", JStr (py "Sample")); (py "text", JStr Sample.long_page) ]
    [] Sample.long_page Sample.url
    [ (py "title", JStr (py "Sample")); (py "text", JStr Sample.long_page) ]
    eq_refl) as (Hkeys & _).
  rewrite <- (Hkeys (py "title") eq_refl). reflexivity.
Defined.

(** ** The keyword loops *)

Module KeywordFacts.
Section Loop.
Context (sig : pystr -> pystr) (top_k : Z).

Lemma stem_loop_inv (norm : list pystr) :
  forall (seen : gset pystr) (unique : list pystr),
  (forall s, s ∈ seen <-> s ∈ map sig unique) ->
  NoDup (map sig unique) ->
  exists taken,
    Keywords.stem_loop sig top_k seen unique norm = unique ++ taken
    /\ sublist taken norm
    /\ NoDup (map sig (unique ++ taken))
    /\ ((Z.of_nat (length unique) < top_k)%Z ->
        (Z.of_nat (length (unique ++ taken)) <= top_k)%Z)
    /\ (Z.of_nat (length (unique ++ taken)) <> top_k ->
        forall c, c ∈ norm -> sig c ∈ map sig (unique ++ taken)).
Proof.
  induction norm as [|c rest IH]; intros seen unique Hseen Hnodup; simpl.
  - exists []. rewrite app_nil_r. repeat split; try assumption.
    + constructor.
    + lia.
    + intros _ c Hc. inversion Hc.
  - destruct (bool_decide (sig c ∈ seen)) eqn:Hin.
    + apply bool_decide_eq_true in Hin.
      destruct (IH seen unique Hseen Hnodup)
        as (taken & Hout & Hsub & Hnd & Hlen & Hcov).
      exists taken. repeat split; try assumption.
      * now apply sublist_cons.
      * intros Hne x Hx. apply elem_of_cons in Hx as [-> | Hx].
        -- rewrite map_app. apply elem_of_app. left. now apply Hseen.
        -- now apply Hcov.
    + apply bool_decide_eq_false in Hin.
      assert (Hnodup' : NoDup (map sig (unique ++ [c]))).
      { rewrite map_app. apply NoDup_app. split; [exact Hnodup|]. split.
        - intros x Hx Hx'. simpl in Hx'. apply list_elem_of_singleton in Hx'.
          subst x. apply Hin, Hseen, Hx.
        - simpl. apply NoDup_singleton. }
      destruct (Z.of_nat (length (unique ++ [c])) =? top_k)%Z eqn:Hfull.
      * apply Z.eqb_eq in Hfull. exists [c]. repeat split.
        -- apply sublist_skip, sublist_nil_l.
        -- exact Hnodup'.
        -- lia.
        -- intros Hne. contradiction.
      * apply Z.eqb_neq in Hfull.
        destruct (IH ({[sig c]} ∪ seen) (unique ++ [c]))
          as (taken & Hout & Hsub & Hnd & Hlen & Hcov).
        { intros s. rewrite map_app, elem_of_app, elem_of_union,
            elem_of_singleton, <- Hseen. simpl.
          rewrite list_elem_of_singleton. tauto. }
        { exact Hnodup'. }
        rewrite <- app_assoc in Hout, Hnd, Hlen, Hcov. simpl in *.
        exists (c :: taken). repeat split; try assumption.
        -- now apply sublist_skip.
        -- intros Hlt. apply Hlen. rewrite length_app in *. simpl in *. lia.
        -- intros Hne x Hx. apply elem_of_cons in Hx as [-> | Hx].
           ++ rewrite map_app. apply elem_of_app. right. simpl. left.
           ++ now apply Hcov.
Qed.

End Loop.

Lemma stem_loop_cons (sig : pystr -> pystr) (top_k : Z) (seen : gset pystr)
    (unique : list pystr) (c : pystr) (rest : list pystr) :
  Keywords.stem_loop sig top_k seen unique (c :: rest)
  = if bool_decide (sig c ∈ seen)
    then Keywords.stem_loop sig top_k seen unique rest
    else if (Z.of_nat (length (unique ++ [c])) =? top_k)%Z
         then unique ++ [c]
         else Keywords.stem_loop sig top_k ({[ sig c ]} ∪ seen)
                (unique ++ [c]) rest.
Proof. reflexivity. Qed.

Lemma plain_loop_cons (top_k : Z) (seen : gset pystr)
    (unique : list pystr) (c : pystr) (rest : list pystr) :
  Keywords.plain_loop top_k seen unique (c :: rest)
  = let '(seen, unique) :=
      if negb (bool_decide (c ∈ seen))
      then ({[ c ]} ∪ seen, unique ++ [c])
      else (seen, unique) in
    if (Z.of_nat (length unique) =? top_k)%Z then unique
    else Keywords.plain_loop top_k seen unique rest.
Proof. reflexivity. Qed.

(** The loop of the [except] branch runs as the loop of the [try] branch
    with the phrase itself for its signature. *)
Lemma plain_loop_is_stem_loop (top_k : Z) (norm : list pystr) :
  forall (seen : gset pystr) (unique : list pystr),
  Z.of_nat (length unique) <> top_k ->
  Keywords.plain_loop top_k seen unique norm
  = Keywords.stem_loop (fun c => c) top_k seen unique norm.
Proof.
  induction norm as [|c rest IH]; intros seen unique Hne; simpl;
    [reflexivity|].
  destruct (bool_decide (c ∈ seen)); simpl.
  - apply Z.eqb_neq in Hne. rewrite Hne. apply IH. now apply Z.eqb_neq.
  - destruct (Z.of_nat (length (unique ++ [c])) =? top_k)%Z eqn:Hfull;
      [reflexivity|].
    apply IH. now apply Z.eqb_neq.
Qed.

End KeywordFacts.

(** X24. The keywords after the stem loop of [extract_keywords], for
    [top_k] of 1 or more: no two of them have the same signature, they
    are phrases of [norm] in the order of [norm], there are at most
    [top_k] of them, and when there are fewer than [top_k] every phrase
    of [norm] has its signature among theirs. *)
Theorem stem_loop_keywords (sig : pystr -> pystr) (top_k : Z)
    (norm : list pystr) :
  (1 <= top_k)%Z ->
  let unique := Keywords.stem_loop sig top_k ∅ [] norm in
  NoDup (map sig unique)
  /\ sublist unique norm
  /\ (Z.of_nat (length unique) <= top_k)%Z
  /\ ((Z.of_nat (length unique) < top_k)%Z ->
      forall c, In c norm -> In (sig c) (map sig unique)).
Proof.
  intros Hk unique.
  destruct (KeywordFacts.stem_loop_inv sig top_k norm ∅ [])
    as (taken & Hout & Hsub & Hnd & Hlen & Hcov).
  { intros s. simpl. rewrite elem_of_nil. set_solver. }
  { constructor. }
  simpl in *. subst unique. rewrite Hout.
  repeat split; try assumption.
  - apply Hlen. lia.
  - intros Hlt c Hc. apply list_elem_of_In, Hcov; [lia|].
    now apply list_elem_of_In.
Qed.

Lemma stem_loop_keywords_witness :
  (Z.of_nat (length (Keywords.stem_loop (firstn 4) 2 ∅ []
                       [ py "learning"; py "learner"; py "deep models";
                         py "networks" ])) <= 2)%Z.
Proof.
  apply (stem_loop_keywords (firstn 4) 2
           [ py "learning"; py "learner"; py "deep models"; py "networks" ]).
  lia.
Defined.

(** X25. Without the stemmer [extract_keywords] removes exact duplicates
    only: its second loop, which tests the length on every round, gives
    what the stem loop gives with each phrase as its own signature; so
    its keywords are distinct phrases of [norm]. *)
Theorem dedup_without_stemmer (top_k : Z) (norm : list pystr) :
  Keywords.dedup None top_k norm
  = Keywords.stem_loop (fun c => c) top_k ∅ [] norm
  /\ NoDup (Keywords.dedup None top_k norm)
  /\ sublist (Keywords.dedup None top_k norm) norm.
Proof.
  assert (Heq : Keywords.dedup None top_k norm
                = Keywords.stem_loop (fun c => c) top_k ∅ [] norm).
  { unfold Keywords.dedup. destruct norm as [|c rest]; [reflexivity|].
    rewrite KeywordFacts.plain_loop_cons, KeywordFacts.stem_loop_cons.
    rewrite bool_decide_eq_false_2 by set_solver.
    cbv beta iota zeta. change (negb false) with true. cbv iota.
    destruct (Z.of_nat (length ([] ++ [c])) =? top_k)%Z eqn:Hone;
      [reflexivity|].
    apply KeywordFacts.plain_loop_is_stem_loop. now apply Z.eqb_neq. }
  split; [exact Heq|]. rewrite Heq.
  destruct (KeywordFacts.stem_loop_inv (fun c => c) top_k norm ∅ [])
    as (taken & Hout & Hsub & Hnd & _).
  { intros s. simpl. rewrite elem_of_nil. set_solver. }
  { constructor. }
  simpl in *. rewrite Hout. rewrite map_id in Hnd. now split.
Qed.

(** ** Collapsing whitespace *)

Module CollapseFacts.

Lemma drop_while_app (p : N -> bool) (a b : pystr) :
  drop_while p (a ++ b)
  = match drop_while p a with
    | [] => drop_while p b
    | d => d ++ b
    end.
Proof.
  induction a as [|c a IH]; simpl.
  - now destruct (drop_while p b).
  - destruct (p c); [exact IH|reflexivity].
Qed.

(** Trailing whitespace only. *)
Lemma rstrip_app_blank (a b : pystr) :
  rstrip b = [] -> rstrip (a ++ b) = rstrip a.
Proof.
  unfold rstrip. intros Hb.
  apply (f_equal (@rev N)) in Hb. rewrite rev_involutive in Hb. simpl in Hb.
  now rewrite rev_app_distr, drop_while_app, Hb.
Qed.

Lemma rstrip_app_solid (a b : pystr) :
  rstrip b <> [] -> rstrip (a ++ b) = a ++ rstrip b.
Proof.
  unfold rstrip. intros Hb.
  rewrite rev_app_distr, drop_while_app.
  destruct (drop_while is_space (rev b)) as [|d ds] eqn:Hd;
    [now contradiction Hb|].
  now rewrite rev_app_distr, rev_involutive.
Qed.

Lemma rstrip_word (c : N) (cur : pystr) :
  is_space c = false -> rstrip (rev (c :: cur)) = rev (c :: cur).
Proof.
  intros Hc. unfold rstrip. rewrite rev_involutive. simpl drop_while.
  now rewrite Hc.
Qed.

Lemma join_solid (w : pystr) (ws : list pystr) :
  w <> [] -> join [SP] (w :: ws) <> [].
Proof.
  intros Hw. destruct ws as [|w2 ws]; [exact Hw|].
  change (join [SP] (w :: w2 :: ws)) with (w ++ SP :: join [SP] (w2 :: ws)).
  destruct w; [contradiction|discriminate].
Qed.

(** After the collapse, seen from inside a run of whitespace, and seen
    after the code points [cur] of a word. *)
Lemma rstrip_space_scan (s : pystr) :
  rstrip (Utils.space_scan true s) = join [SP] (split s)
  /\ forall c cur, is_space c = false ->
       rstrip (rev (c :: cur) ++ Utils.space_scan false s)
       = join [SP] (split_from (c :: cur) s).
Proof.
  induction s as [|x s [IHin IHout]].
  - split; [reflexivity|]. intros c cur Hc.
    rewrite app_nil_r. now apply rstrip_word.
  - destruct (is_space x) eqn:Hx.
    + split.
      * simpl Utils.space_scan. rewrite Hx. unfold split.
        rewrite TextFacts.split_from_space by exact Hx. exact IHin.
      * intros c cur Hc.
        rewrite TextFacts.split_from_space by exact Hx.
        simpl Utils.space_scan. rewrite Hx.
        change (flush (c :: cur)) with [rev (c :: cur)].
        fold (split s). pose proof (TextFacts.split_tokens s) as Htok.
        destruct (split s) as [|w ws] eqn:Hsplit.
        -- rewrite rstrip_app_blank; [now apply rstrip_word|].
           change (SP :: Utils.space_scan true s)
             with ([SP] ++ Utils.space_scan true s).
           rewrite rstrip_app_blank by exact IHin. reflexivity.
        -- inversion Htok as [|? ? [Hw _] _]; subst.
           assert (Hsolid : rstrip (Utils.space_scan true s) <> [])
             by (rewrite IHin; now apply join_solid).
           assert (Hsp : rstrip (SP :: Utils.space_scan true s)
                         = SP :: rstrip (Utils.space_scan true s)).
           { change (SP :: Utils.space_scan true s)
               with ([SP] ++ Utils.space_scan true s).
             now rewrite rstrip_app_solid. }
           rewrite rstrip_app_solid by (rewrite Hsp; discriminate).
           rewrite Hsp, IHin. reflexivity.
    + split.
      * simpl Utils.space_scan. rewrite Hx. unfold split.
        simpl split_from. rewrite Hx. apply (IHout x [] Hx).
      * intros c cur Hc. simpl Utils.space_scan. rewrite Hx.
        simpl split_from. rewrite Hx.
        rewrite <- (IHout x (c :: cur) Hx). simpl rev.
        now rewrite <- !app_assoc.
Qed.

Lemma lstrip_space_scan_inside (s : pystr) :
  lstrip (Utils.space_scan true s) = Utils.space_scan true s.
Proof.
  unfold lstrip. induction s as [|x s IH]; [reflexivity|].
  simpl Utils.space_scan. destruct (is_space x) eqn:Hx; [exact IH|].
  simpl. now rewrite Hx.
Qed.

Lemma lstrip_space_scan (s : pystr) :
  lstrip (Utils.space_scan false s) = Utils.space_scan true s.
Proof.
  destruct s as [|x s]; [reflexivity|].
  simpl Utils.space_scan. destruct (is_space x) eqn:Hx.
  - unfold lstrip. simpl drop_while. apply lstrip_space_scan_inside.
  - unfold lstrip. simpl. now rewrite Hx.
Qed.

(** [_SPACE_RE.sub(" ", s).strip()] is [" ".join(s.split())]. *)
Lemma strip_collapse (s : pystr) :
  strip (Utils.SPACE_RE_sub s) = join [SP] (split s).
Proof.
  unfold strip, Utils.SPACE_RE_sub. rewrite lstrip_space_scan.
  apply rstrip_space_scan.
Qed.

Lemma normalize_joined (s : pystr) :
  Utils.normalize_text (join [SP] (split s)) = join [SP] (split s).
Proof.
  unfold Utils.normalize_text.
  rewrite TextFacts.split_join by apply TextFacts.split_tokens.
  now destruct (join [SP] (split s)).
Qed.

End CollapseFacts.

(** X26. The two ways the code collapses whitespace agree, and cleaned
    text is whitespace-normal: substituting one space for every run of
    whitespace and stripping gives what [normalize_text] gives, so the
    result of [clean_citations_and_spaces] is a fixed point of
    [normalize_text]. *)
Theorem cleaned_text_is_normalized (P : Platform) (s : pystr) :
  strip (Utils.SPACE_RE_sub s) = Utils.normalize_text s
  /\ Utils.normalize_text (Utils.clean_citations_and_spaces P s)
     = Utils.clean_citations_and_spaces P s.
Proof.
  split.
  - rewrite CollapseFacts.strip_collapse. unfold Utils.normalize_text.
    now destruct s.
  - unfold Utils.clean_citations_and_spaces.
    destruct (PyStr.truthy s) eqn:Hs; [|now destruct s].
    rewrite CollapseFacts.strip_collapse.
    apply CollapseFacts.normalize_joined.
Qed.

(** ** The rate-limit middleware *)

Module MiddlewareFacts.
Section Facts.
Context (S : Settings).

Lemma allow_elsewhere bucket now ip ip' :
  ip' <> ip -> fst (Main._allow S bucket now ip) !! ip' = bucket !! ip'.
Proof.
  intros Hne. rewrite BucketFacts.allow_step.
  destruct (Qle_bool _ _); simpl; now rewrite lookup_insert_ne.
Qed.

Lemma serve_fresh (reqs : list (Q * Middleware.Request)) : forall bucket,
  NoDup (map (fun r => Middleware.client_ip (snd r)) reqs) ->
  (forall r, r ∈ reqs -> bucket !! Middleware.client_ip (snd r) = None) ->
  snd (Middleware.serve S bucket reqs) = map (fun _ => true) reqs.
Proof.
  induction reqs as [|[now req] rest IH]; intros bucket Hnd Hnew;
    [reflexivity|].
  simpl in Hnd. apply NoDup_cons in Hnd as [Hhead Hnd].
  simpl Middleware.serve. unfold Middleware.ratelimit_mw.
  destruct (BucketFacts.allow_fresh S bucket (Middleware.client_ip req) now)
    as (b1 & Hstep & _).
  { apply (Hnew (now, req)). left. }
  pose proof (fun ip' => allow_elsewhere bucket now
                           (Middleware.client_ip req) ip') as Hother.
  rewrite Hstep in Hother |- *. simpl in Hother.
  specialize (IH b1 Hnd).
  destruct (Middleware.serve S b1 rest) as [b2 oks]. simpl in *.
  f_equal. apply IH. intros r Hr. rewrite Hother.
  - apply Hnew. now right.
  - intros Heq. apply Hhead. rewrite <- Heq.
    apply (list_elem_of_fmap_2 (fun r => Middleware.client_ip (snd r))).
    exact Hr.
Qed.

End Facts.
End MiddlewareFacts.

(** X27. The middleware counts a request under the first entry of its
    X-Forwarded-For header, so the limit binds no client that changes
    the header: requests whose identities are new to the table and
    differ from each other are all passed on, whatever their number and
    their clock readings. *)
Theorem fresh_identities_are_never_limited (S : Settings)
    (bucket : gmap pystr (Q * Q)) (reqs : list (Q * Middleware.Request)) :
  NoDup (map (fun r => Middleware.client_ip (snd r)) reqs) ->
  (forall r, In r reqs -> bucket !! Middleware.client_ip (snd r) = None) ->
  snd (Middleware.serve S bucket reqs) = map (fun _ => true) reqs
  /\ forall r v, In r reqs ->
       Middleware.x_forwarded_for (snd r) = Some v -> PyStr.truthy v = true ->
       Middleware.client_ip (snd r) = strip (Middleware.before_comma v).
Proof.
  intros Hnd Hnew. split.
  - apply MiddlewareFacts.serve_fresh; [exact Hnd|].
    intros r Hr. apply Hnew. now apply list_elem_of_In.
  - intros r v _ Hv Htruthy. unfold Middleware.client_ip.
    now rewrite Hv, Htruthy.
Qed.

Lemma fresh_identities_are_never_limited_witness :
  snd (Middleware.serve Sample.settings ∅
         (map (fun n =>
                 (0%Q,
                  {| Middleware.x_forwarded_for :=
                       Some (py "10.0.0." ++ [n] ++ py ", 192.0.2.1");
                     Middleware.client_host := Some (py "192.0.2.1") |}))
            [48; 49; 50; 51; 52; 53; 54; 55]%N))
  = repeat true 8.
Proof.
  refine (proj1 (fresh_identities_are_never_limited Sample.settings ∅
                   _ _ _)).
  - vm_compute. repeat constructor; intros Hin;
      repeat (apply elem_of_cons in Hin as [Hin|Hin];
              [discriminate|]);
      now apply elem_of_nil in Hin.
  - intros r _. apply lookup_empty.
Defined.

(** ** The fallbacks after the merge *)

Module FallbackFacts.

Lemma truthy_of_opt (o : option pystr) :
  Json.truthy (Extractor.of_opt o) = Extractor.opt_truthy o.
Proof. now destruct o. Qed.

(** A key that is set from a fallback when it is missing is missing
    afterwards only if the fallback has nothing. *)
Lemma gap_after_fallback (k : pystr) (o : option pystr) (r : dict) :
  Json.truthy
    (Json.get k
       (if negb (Json.truthy (Json.get k r)) && Extractor.opt_truthy o
        then dset k (Extractor.of_opt o) r else r)) = false ->
  Extractor.opt_truthy o = false.
Proof.
  destruct (Json.truthy (Json.get k r)) eqn:Hk; simpl.
  - rewrite Hk. discriminate.
  - destruct (Extractor.opt_truthy o) eqn:Ho; [|reflexivity].
    now rewrite DictFacts.get_dset_same, truthy_of_opt, Ho.
Qed.

End FallbackFacts.

(** X28. The merge leaves nothing for the fallbacks that [core_parse]
    tries after it: when the merged data has no title, the BS4 title
    extractor has none either, so the title of the record is the merged
    title or the empty string; and likewise for the image. *)
Theorem merge_exhausts_fallbacks (H : Html) (primary meta : dict)
    (html url : pystr) (result : dict) (used : bool) :
  Extractor.merge_extraction H primary meta html url = inr (result, used) ->
  (Json.truthy (Json.get (py "title") result) = false ->
   Extractor.opt_truthy (extract_title_bs4 H html) = false)
  /\ (Json.truthy (Json.get (py "image") result) = false ->
      Extractor.opt_truthy (extract_lead_image_bs4 H html url) = false)
  /\ or_else (or_else (Json.get (py "title") result)
                (Extractor.of_opt (extract_title_bs4 H html))) (JStr [])
     = or_else (Json.get (py "title") result) (JStr []).
Proof.
  intros Hm.
  destruct (MergeFacts.merge_steps H _ _ _ _ _ _ Hm)
    as (t & r3 & _ & Hdate & Hr3 & _).
  rewrite !Hdate by reflexivity. subst r3.
  set (filled := Extractor.fill_gap meta (py "image") _).
  set (r1 := if (_ <? 20)%nat then _ else filled).
  set (r2 := if negb (Json.truthy (Json.get (py "title") r1)) && _
             then _ else r1).
  assert (Htitle :
    Json.truthy (Json.get (py "title")
      (if negb (Json.truthy (Json.get (py "image") r2))
          && Extractor.opt_truthy (extract_lead_image_bs4 H html url)
       then dset (py "image")
              (Extractor.of_opt (extract_lead_image_bs4 H html url)) r2
       else r2)) = false ->
    Extractor.opt_truthy (extract_title_bs4 H html) = false).
  { rewrite MergeFacts.get_if_dset by reflexivity.
    apply FallbackFacts.gap_after_fallback. }
  split; [exact Htitle|]. split.
  - apply FallbackFacts.gap_after_fallback.
  - revert Htitle.
    generalize (Json.get (py "title")
      (if negb (Json.truthy (Json.get (py "image") r2))
          && Extractor.opt_truthy (extract_lead_image_bs4 H html url)
       then dset (py "image")
              (Extractor.of_opt (extract_lead_image_bs4 H html url)) r2
       else r2)).
    intros title Htitle. unfold or_else.
    destruct (Json.truthy title) eqn:Hno; [now rewrite Hno|].
    now rewrite FallbackFacts.truthy_of_opt, (Htitle eq_refl).
Qed.

Lemma merge_exhausts_fallbacks_witness :
  Extractor.opt_truthy (extract_title_bs4 Sample.html Sample.long_page)
  = false.
Proof.
  refine (proj1 (merge_exhausts_fallbacks Sample.html
                   [ (py "text", JStr Sample.long_page) ] []
                   Sample.long_page Sample.url
                   [ (py "text", JStr Sample.long_page) ] false eq_refl) _).
  reflexivity.
Defined.

(** ** The paragraph fallback *)

Module FallbackTextFacts.

Lemma split_from_app_space (a b : pystr) : forall cur,
  split_from cur (a ++ SP :: b) = split_from cur a ++ split b.
Proof.
  induction a as [|c a IH]; intros cur.
  - simpl app. now rewrite TextFacts.split_from_space by reflexivity.
  - simpl. destruct (is_space c).
    + now rewrite IH, app_assoc.
    + apply IH.
Qed.

(** Joining with single spaces and splitting again gives the words of
    the parts, one part after the other. *)
Lemma split_join_concat (ps : list pystr) :
  split (join [SP] ps) = concat (List.map split ps).
Proof.
  induction ps as [|p ps IH]; [reflexivity|].
  destruct ps as [|q ps].
  - simpl. now rewrite app_nil_r.
  - change (join [SP] (p :: q :: ps)) with (p ++ SP :: join [SP] (q :: ps)).
    unfold split at 1. rewrite split_from_app_space, IH. reflexivity.
Qed.

Lemma kept_words (ps : list pystr) :
  (5 * length (List.filter Fallback.keep ps)
   <= length (concat (List.map split (List.filter Fallback.keep ps))))%nat.
Proof.
  induction ps as [|p ps IH]; [simpl; lia|].
  simpl List.filter. destruct (Fallback.keep p) eqn:Hk; [|exact IH].
  apply andb_true_iff in Hk as [_ Hk]. apply Nat.leb_le in Hk.
  cbn [List.map concat]. rewrite length_app. cbn [length]. lia.
Qed.

End FallbackTextFacts.

(** X29. The paragraph fallback is built of whole paragraphs of five
    words or more: its words are the words of the kept paragraphs in
    document order, so there are at least five for every kept paragraph,
    and the text is empty or has five words or more. *)
Theorem fallback_text_words (ps : list pystr) :
  split (Fallback.fallback_text ps)
  = concat (List.map split (List.filter Fallback.keep ps))
  /\ (5 * length (List.filter Fallback.keep ps)
      <= length (split (Fallback.fallback_text ps)))%nat
  /\ (Fallback.fallback_text ps = []
      \/ (5 <= length (split (Fallback.fallback_text ps)))%nat).
Proof.
  assert (Hw : split (Fallback.fallback_text ps)
               = concat (List.map split (List.filter Fallback.keep ps)))
    by apply FallbackTextFacts.split_join_concat.
  pose proof (FallbackTextFacts.kept_words ps) as Hk.
  rewrite <- Hw in Hk. split; [exact Hw|]. split; [exact Hk|].
  unfold Fallback.fallback_text in *.
  destruct (List.filter Fallback.keep ps) as [|p kept]; [now left|].
  right. cbn [length] in Hk. lia.
Qed.

(** X30. Reference sites are damped: for a source URL that contains one
    of the neutral domains, [analyze_sentiment] always answers neutral,
    with a score between -0.04 and 0.04, whatever the scorer says of the
    text. *)
Theorem neutral_domain_is_neutral (L : Nlp) (text : pystr)
    (source_url : option pystr) :
  Enrich.in_neutral_domain source_url = true ->
  Enrich.label (Enrich.analyze_sentiment L text source_url) = Enrich.neutral
  /\ (-0.04 <= Enrich.score (Enrich.analyze_sentiment L text source_url)
      <= 0.04)%Q.
Proof.
  intros Hdom. unfold Enrich.analyze_sentiment.
  destruct (PyStr.truthy (strip text));
    [|split; [reflexivity|split; discriminate]].
  unfold Enrich.scored. rewrite Hdom.
  destruct (vader_ready L); [|split; [reflexivity|split; discriminate]].
  destruct (Enrich.compound L (strip text)) as [comp|];
    [|split; [reflexivity|split; discriminate]].
  simpl.
  destruct (EnrichFacts.clamp_bounds (-0.04) 0.04 comp) as [Hlo Hhi];
    [discriminate|].
  split.
  - unfold Enrich.label_of.
    destruct (ScoreFacts.Qltb_spec 0.05 (Enrich.clamp (-0.04) 0.04 comp))
      as [[_ Hpos]|[-> _]].
    + exfalso. apply (Qlt_irrefl 0.05).
      apply Qlt_le_trans with (y := Enrich.clamp (-0.04) 0.04 comp);
        [exact Hpos|].
      apply Qle_trans with (y := 0.04%Q); [exact Hhi|discriminate].
    + destruct (ScoreFacts.Qltb_spec (Enrich.clamp (-0.04) 0.04 comp)
                  (-0.05)) as [[_ Hneg]|[-> _]]; [|reflexivity].
      exfalso. apply (Qlt_irrefl (-0.05)).
      apply Qle_lt_trans with (y := Enrich.clamp (-0.04) 0.04 comp);
        [|exact Hneg].
      apply Qle_trans with (y := (-0.04)%Q); [discriminate|exact Hlo].
  - apply (ScoreFacts.round4_range (-400) 400);
      [reflexivity|reflexivity|now split].
Qed.

Lemma neutral_domain_is_neutral_witness :
  Enrich.label
    (Enrich.analyze_sentiment Sample.nlp (py "What a wonderful day!")
       (Some (py "https://en.wikipedia.org/wiki/Joy")))
  = Enrich.neutral.
Proof.
  apply (neutral_domain_is_neutral Sample.nlp (py "What a wonderful day!")
           (Some (py "https://en.wikipedia.org/wiki/Joy"))).
  reflexivity.
Defined.
